(** * Bounded-buffer producer/consumer: a verified model

    The development embeds the two Python classes

      - [ProducerConsumer]            (producer_consumer.py, on [queue.Queue])
      - [ProducerConsumerWaitNotify]  (producer_consumer_wait_notify.py, on
                                       [threading.Condition])

    Sequential methods are pure functions on the instance record; a method
    that may raise returns [exn + t].  The two thread bodies are small-step
    machines, one transition per source statement that reads or writes shared
    state; a run is an interleaving of the two machines, chosen by a schedule.
    Every call of [perf_counter()] reads a clock value supplied by the
    schedule, so timing is an input and never a source of results. *)

From Stdlib Require Import String.
From Stdlib Require Import ZArith List Bool Lia Floats.
Import ListNotations.
Open Scope Z_scope.

Set Implicit Arguments.

(** ** Values shared by both classes *)

(** A list cell holds a Python [int] or [None]. *)
Definition item : Type := option Z.

Definition is_None (x : item) : bool :=
  match x with None => true | Some _ => false end.

Definition not_None (x : item) : bool := negb (is_None x).

Inductive exn : Type :=
| ValueError (msg : string)
| IndexError (msg : string).

Arguments ValueError msg%_string.
Arguments IndexError msg%_string.

(** [list(range(1, item_count + 1))] *)
Definition range1 (item_count : Z) : list item :=
  map (fun k => Some (Z.of_nat k)) (seq 1 (Z.to_nat item_count)).

(** The [Statistics] dataclass (identical in both files). *)
Record Statistics : Type := mkStatistics {
  items_produced : Z;
  items_consumed : Z;
  producer_wait_time : float;
  consumer_wait_time : float;
  max_queue_size : Z;
  start_time : float;
  end_time : float
}.

(** [Statistics()] : every field at its default. *)
Definition Statistics_new : Statistics :=
  mkStatistics 0 0 0%float 0%float 0 0%float 0%float.

(** [(wait_end - wait_start) * 1000] *)
Definition elapsed_ms (wait_start wait_end : float) : float :=
  ((wait_end - wait_start) * 1000)%float.

Definition add_producer_wait (d : float) (s : Statistics) : Statistics :=
  mkStatistics (items_produced s) (items_consumed s)
    (producer_wait_time s + d)%float (consumer_wait_time s)
    (max_queue_size s) (start_time s) (end_time s).

Definition add_consumer_wait (d : float) (s : Statistics) : Statistics :=
  mkStatistics (items_produced s) (items_consumed s)
    (producer_wait_time s) (consumer_wait_time s + d)%float
    (max_queue_size s) (start_time s) (end_time s).

Definition note_queue_size (current_size : Z) (s : Statistics) : Statistics :=
  mkStatistics (items_produced s) (items_consumed s)
    (producer_wait_time s) (consumer_wait_time s)
    (Z.max (max_queue_size s) current_size) (start_time s) (end_time s).

Definition incr_produced (s : Statistics) : Statistics :=
  mkStatistics (items_produced s + 1) (items_consumed s)
    (producer_wait_time s) (consumer_wait_time s)
    (max_queue_size s) (start_time s) (end_time s).

Definition incr_consumed (s : Statistics) : Statistics :=
  mkStatistics (items_produced s) (items_consumed s + 1)
    (producer_wait_time s) (consumer_wait_time s)
    (max_queue_size s) (start_time s) (end_time s).

Definition set_start_time (now : float) (s : Statistics) : Statistics :=
  mkStatistics (items_produced s) (items_consumed s)
    (producer_wait_time s) (consumer_wait_time s)
    (max_queue_size s) now (end_time s).

Definition set_end_time (now : float) (s : Statistics) : Statistics :=
  mkStatistics (items_produced s) (items_consumed s)
    (producer_wait_time s) (consumer_wait_time s)
    (max_queue_size s) (start_time s) now.

(** The two roles.  A schedule is a list of events: which thread runs its next
    statement, and what [perf_counter()] returns should that statement read
    the clock. *)
Inductive tid : Type := Producer | Consumer.

Definition event : Type := (tid * float)%type.

Definition tid_eqb (a b : tid) : bool :=
  match a, b with
  | Producer, Producer | Consumer, Consumer => true
  | _, _ => false
  end.

(** [len(l)] as a Python int *)
Definition len {A} (l : list A) : Z := Z.of_nat (length l).

(** The items of a list that are not [None], in order. *)
Definition nn (l : list item) : list item := filter not_None l.

(** [a == b] on list cells, and on lists. *)
Definition item_eqb (a b : item) : bool :=
  match a, b with
  | None, None => true
  | Some x, Some y => x =? y
  | _, _ => false
  end.

Fixpoint items_eqb (l m : list item) : bool :=
  match l, m with
  | [], [] => true
  | a :: l', b :: m' => item_eqb a b && items_eqb l' m'
  | _, _ => false
  end.

(** The verdicts of the "Data Integrity Analysis" and "Thread
    Synchronization Analysis" sections of [perform_analysis]. *)
Record verdicts : Type := mk_verdicts {
  data_match : bool;
  count_match : bool;
  no_data_loss : bool;
  is_balanced : bool
}.

(** ** The standard library's [queue.Queue]

    Only what the class calls: [put], [get], [qsize], [task_done].  A call
    that would block yields [None]; the caller's thread then cannot take that
    step until the queue changes. *)
Module Queue.

Record t : Type := mk {
  maxsize : Z;
  queue : list item;
  unfinished_tasks : Z
}.

(** [queue.Queue(maxsize=capacity)] *)
Definition new (capacity : Z) : t := mk capacity [] 0.

Definition qsize (q : t) : Z := len (queue q).

(** [put] waits while [maxsize > 0 and qsize() >= maxsize]. *)
Definition put (x : item) (q : t) : option t :=
  if (0 <? maxsize q) && (maxsize q <=? qsize q) then None
  else Some (mk (maxsize q) (queue q ++ [x]) (unfinished_tasks q + 1)).

(** [get] waits while the queue is empty, then pops the left end. *)
Definition get (q : t) : option (item * t) :=
  match queue q with
  | [] => None
  | x :: rest => Some (x, mk (maxsize q) rest (unfinished_tasks q))
  end.

(** [task_done] raises once it has been called more often than [put]. *)
Definition task_done (q : t) : exn + t :=
  if unfinished_tasks q - 1 <? 0
  then inl (ValueError "task_done() called too many times")
  else inr (mk (maxsize q) (queue q) (unfinished_tasks q - 1)).

End Queue.

(** ** [ProducerConsumer] : the queue-based class *)
Module ProducerConsumer.

(** The instance.  [self.lock] guards single statements on
    [destination_container] and is free whenever a method is entered by the
    threads modelled here, so it carries no state of its own.  The two
    containers are distinct list objects throughout ([__init__] creates
    both, [initialize_source] and [initialize_source_custom] bind the source
    to a fresh list, the getters hand out copies), so lists are values. *)
Record t : Type := mk {
  shared_queue : Queue.t;
  source_container : list item;
  destination_container : list item;
  capacity : Z;
  stats : Statistics;
  _producer_finished : bool
}.

Definition __init__ (capacity : Z) : exn + t :=
  if capacity <=? 0
  then inl (ValueError "Queue capacity must be greater than 0")
  else inr (mk (Queue.new capacity) [] [] capacity Statistics_new false).

Definition initialize_source (item_count : Z) (self : t) : exn + t :=
  if item_count <? 0
  then inl (ValueError "Item count must be non-negative")
  else inr (mk (shared_queue self) (range1 item_count)
               (destination_container self) (capacity self) (stats self)
               (_producer_finished self)).

(** [items] is [None] or a list; [items.copy()] is the list's value. *)
Definition initialize_source_custom (items : option (list item)) (self : t)
  : exn + t :=
  match items with
  | None => inl (ValueError "Items list cannot be None")
  | Some l => inr (mk (shared_queue self) l (destination_container self)
                      (capacity self) (stats self) (_producer_finished self))
  end.

(** Getters in state-passing form: the returned copy and the instance
    after the call. *)
Definition get_destination_container (self : t) : list item * t :=
  (destination_container self, self).

Definition get_source_container (self : t) : list item * t :=
  (source_container self, self).

Definition reset_statistics (self : t) : t :=
  mk (shared_queue self) (source_container self) [] (capacity self)
     Statistics_new false.

Definition with_queue (q : Queue.t) (self : t) : t :=
  mk q (source_container self) (destination_container self) (capacity self)
     (stats self) (_producer_finished self).

Definition with_stats (s : Statistics) (self : t) : t :=
  mk (shared_queue self) (source_container self)
     (destination_container self) (capacity self) s
     (_producer_finished self).

Definition with_destination (d : list item) (self : t) : t :=
  mk (shared_queue self) (source_container self) d (capacity self)
     (stats self) (_producer_finished self).

Definition with_finished (b : bool) (self : t) : t :=
  mk (shared_queue self) (source_container self)
     (destination_container self) (capacity self) (stats self) b.

(** *** [producer]

    Control points of the body; [i] is the position of the list iterator
    of [for item in self.source_container].  No statement of the body
    raises, so the [except] branch has no control point. *)
Inductive producer_pc : Type :=
| P_start                                   (* if not self.source_container *)
| P_for (i : nat)                           (* next item; None test; wait_start *)
| P_put (i : nat) (x : Z) (wait_start : float)  (* self.shared_queue.put(item) *)
| P_wait_end (i : nat) (wait_start : float) (* producer_wait_time += ... *)
| P_qsize (i : nat)                         (* current_size = qsize() *)
| P_max (i : nat) (current_size : Z)        (* max_queue_size = max(...) *)
| P_count (i : nat)                         (* items_produced += 1 *)
| P_finish                                  (* self._producer_finished = True *)
| P_done.

(** One statement of the producer; [None] when the thread cannot move
    (blocked in [put], or returned). *)
Definition producer_step (now : float) (pc : producer_pc) (self : t)
  : option (producer_pc * t) :=
  match pc with
  | P_start =>
      match source_container self with
      | [] => Some (P_finish, self)
      | _ :: _ => Some (P_for 0, self)
      end
  | P_for i =>
      match nth_error (source_container self) i with
      | None => Some (P_finish, self)
      | Some None => Some (P_for (S i), self)
      | Some (Some x) => Some (P_put i x now, self)
      end
  | P_put i x wait_start =>
      match Queue.put (Some x) (shared_queue self) with
      | None => None
      | Some q => Some (P_wait_end i wait_start, with_queue q self)
      end
  | P_wait_end i wait_start =>
      Some (P_qsize i,
            with_stats (add_producer_wait (elapsed_ms wait_start now)
                                          (stats self)) self)
  | P_qsize i => Some (P_max i (Queue.qsize (shared_queue self)), self)
  | P_max i current_size =>
      Some (P_count i,
            with_stats (note_queue_size current_size (stats self)) self)
  | P_count i =>
      Some (P_for (S i), with_stats (incr_produced (stats self)) self)
  | P_finish => Some (P_done, with_finished true self)
  | P_done => None
  end.

(** *** [consumer]

    [consumed] is the local counter of the [while] loop. *)
Inductive consumer_pc : Type :=
| C_start                                   (* the two tests on total_items *)
| C_while (consumed : Z)                    (* while consumed < total_items *)
| C_get (consumed : Z) (wait_start : float) (* item = self.shared_queue.get() *)
| C_wait_end (consumed : Z) (wait_start : float) (x : item)
                                            (* consumer_wait_time += ...; None test *)
| C_skip (consumed : Z)                     (* task_done(); continue *)
| C_append (consumed : Z) (x : Z)           (* destination_container.append(item) *)
| C_count (consumed : Z)                    (* consumed += 1; items_consumed += 1 *)
| C_task_done (consumed : Z)                (* self.shared_queue.task_done() *)
| C_done
| C_failed (e : exn).                       (* except Exception as e *)

(** One statement of the consumer; [None] when the thread cannot move
    (blocked in [get], or returned). *)
Definition consumer_step (total_items : Z) (now : float) (pc : consumer_pc)
  (self : t) : option (consumer_pc * t) :=
  match pc with
  | C_start =>
      if total_items <? 0
      then Some (C_failed (ValueError "Total items must be non-negative"), self)
      else if total_items =? 0 then Some (C_done, self)
      else Some (C_while 0, self)
  | C_while consumed =>
      if consumed <? total_items then Some (C_get consumed now, self)
      else Some (C_done, self)
  | C_get consumed wait_start =>
      match Queue.get (shared_queue self) with
      | None => None
      | Some (x, q) => Some (C_wait_end consumed wait_start x, with_queue q self)
      end
  | C_wait_end consumed wait_start x =>
      let self' :=
        with_stats (add_consumer_wait (elapsed_ms wait_start now) (stats self))
                   self in
      match x with
      | None => Some (C_skip consumed, self')
      | Some v => Some (C_append consumed v, self')
      end
  | C_skip consumed =>
      match Queue.task_done (shared_queue self) with
      | inl e => Some (C_failed e, self)
      | inr q => Some (C_while consumed, with_queue q self)
      end
  | C_append consumed v =>
      Some (C_count consumed,
            with_destination (destination_container self ++ [Some v]) self)
  | C_count consumed =>
      Some (C_task_done (consumed + 1),
            with_stats (incr_consumed (stats self)) self)
  | C_task_done consumed =>
      match Queue.task_done (shared_queue self) with
      | inl e => Some (C_failed e, self)
      | inr q => Some (C_while consumed, with_queue q self)
      end
  | C_done => None
  | C_failed _ => None
  end.

(** *** The two threads together *)
Record system : Type := mk_system {
  self_ : t;
  producer_thread : producer_pc;
  consumer_thread : consumer_pc
}.

(** Both [Thread] objects created, none started yet. *)
Definition spawn (self : t) : system := mk_system self P_start C_start.

Definition step_opt (total_items : Z) (ev : event) (st : system)
  : option system :=
  match fst ev with
  | Producer =>
      match producer_step (snd ev) (producer_thread st) (self_ st) with
      | Some (pc, self') => Some (mk_system self' pc (consumer_thread st))
      | None => None
      end
  | Consumer =>
      match consumer_step total_items (snd ev) (consumer_thread st) (self_ st) with
      | Some (pc, self') => Some (mk_system self' (producer_thread st) pc)
      | None => None
      end
  end.

(** The scheduler offers the processor to a thread; a thread that cannot
    move leaves the state as it is. *)
Definition step (total_items : Z) (st : system) (ev : event) : system :=
  match step_opt total_items ev st with
  | Some st' => st'
  | None => st
  end.

Definition exec (total_items : Z) (sched : list event) (st : system) : system :=
  fold_left (step total_items) sched st.

Definition producer_returned (pc : producer_pc) : bool :=
  match pc with P_done => true | _ => false end.

Definition consumer_returned (pc : consumer_pc) : bool :=
  match pc with C_done | C_failed _ => true | _ => false end.

(** Both [join()] calls return. *)
Definition joined (st : system) : bool :=
  producer_returned (producer_thread st) &&
  consumer_returned (consumer_thread st).

(** The exceptions caught (and printed) by the two [except] clauses. *)
Definition role_failures (st : system) : list exn :=
  match consumer_thread st with C_failed e => [e] | _ => [] end.

(** No thread can take a step. *)
Definition stuck (total_items : Z) (st : system) : Prop :=
  forall ev, step_opt total_items ev st = None.

(** *** [run]

    [run] initializes the source, resets the statistics, reads the clock,
    starts the two threads and joins them, reads the clock again, and then
    prints and calls [perform_analysis].  The prints, [time.sleep] and
    [perform_analysis] read the instance and leave it as it is, so they have
    no counterpart here.  What the caller sees is one of three outcomes. *)
Inductive outcome : Type :=
| Raised (e : exn) (self : t)          (* the exception reaches the caller *)
| Returned (self : t) (failures : list exn)
| Joining (st : system).               (* still inside join() when the schedule ends *)

(** [run] up to the two [start()] calls. *)
Definition run_begin (item_count : Z) (t_start : float) (self : t) : exn + t :=
  match initialize_source item_count self with
  | inl e => inl e
  | inr self1 =>
      let self2 := reset_statistics self1 in
      inr (with_stats (set_start_time t_start (stats self2)) self2)
  end.

Definition run (item_count : Z) (t_start t_end : float) (sched : list event)
  (self : t) : outcome :=
  match run_begin item_count t_start self with
  | inl e => Raised e self
  | inr self1 =>
      let st := exec item_count sched (spawn self1) in
      if joined st
      then Returned (with_stats (set_end_time t_end (stats (self_ st))) (self_ st))
                    (role_failures st)
      else Joining st
  end.

(** *** [perform_analysis]

    The report is text; what it says about integrity and balance are these
    four tests on the instance. *)
Definition perform_analysis_verdicts (self : t) : verdicts :=
  mk_verdicts
    (items_eqb (source_container self) (fst (get_destination_container self)))
    (len (source_container self) =? len (destination_container self))
    (items_produced (stats self) =? items_consumed (stats self))
    (Z.abs (items_produced (stats self) - items_consumed (stats self)) <=? 1).

(** The statements a schedule makes the threads execute: the events at
    which the scheduled thread can move. *)
Fixpoint moves (total_items : Z) (sched : list event) (st : system) : nat :=
  match sched with
  | [] => 0
  | ev :: rest =>
      match step_opt total_items ev st with
      | Some st' => S (moves total_items rest st')
      | None => moves total_items rest st
      end
  end.

(** *** Ghost state of a run

    [src], [cap] and [total] are the source list, the capacity and the
    argument of [consumer] during the run under study.  The functions below
    read off a control point what the thread has done so far. *)

(** Items the consumer has taken from the queue and not yet appended. *)
Definition c_inflight (pc : consumer_pc) : list item :=
  match pc with
  | C_wait_end _ _ x => [x]
  | C_append _ v => [Some v]
  | _ => []
  end.

(** [get] calls not yet matched by [task_done]. *)
Definition c_holding (pc : consumer_pc) : Z :=
  match pc with
  | C_wait_end _ _ _ | C_skip _ | C_append _ _ | C_count _ | C_task_done _ => 1
  | _ => 0
  end.

(** Items appended to the destination and not yet counted. *)
Definition c_uncounted (pc : consumer_pc) : Z :=
  match pc with C_count _ => 1 | _ => 0 end.

Section Invariant.
Variables (src : list item) (cap total : Z).

(** Source positions whose [put] has been executed or skipped. *)
Definition p_put_idx (pc : producer_pc) : nat :=
  match pc with
  | P_start => 0%nat
  | P_for i | P_put i _ _ => i
  | P_wait_end i _ | P_qsize i | P_max i _ | P_count i => S i
  | P_finish | P_done => length src
  end.

(** Source positions already reflected in [items_produced]. *)
Definition p_cnt_idx (pc : producer_pc) : nat :=
  match pc with
  | P_start => 0%nat
  | P_for i | P_put i _ _ | P_wait_end i _ | P_qsize i | P_max i _ | P_count i => i
  | P_finish | P_done => length src
  end.

Definition p_item_ok (pc : producer_pc) : Prop :=
  match pc with
  | P_put i x _ => nth_error src i = Some (Some x)
  | P_wait_end i _ | P_qsize i | P_max i _ | P_count i =>
      exists x, nth_error src i = Some (Some x)
  | _ => True
  end.

Definition p_size_ok (pc : producer_pc) : Prop :=
  match pc with P_max _ cs => 0 <= cs <= cap | _ => True end.

(** The local counter [consumed] against [items_consumed] (here [n]). *)
Definition c_local_ok (n : Z) (pc : consumer_pc) : Prop :=
  match pc with
  | C_start => n = 0
  | C_while c | C_task_done c => c = n /\ c <= total
  | C_get c _ | C_wait_end c _ _ | C_append c _ | C_count c =>
      c = n /\ c < total
  | C_skip _ => False
  | C_done => n = total
  | C_failed _ => total < 0
  end.

(** The invariant of a run that starts with an empty queue. *)
Record Inv (st : system) : Prop := {
  inv_src : source_container (self_ st) = src;
  inv_cap : capacity (self_ st) = cap;
  inv_maxsize : Queue.maxsize (shared_queue (self_ st)) = cap;
  inv_cap_pos : 0 < cap;
  inv_data :
    nn (firstn (p_put_idx (producer_thread st)) src) =
    destination_container (self_ st) ++ c_inflight (consumer_thread st)
      ++ Queue.queue (shared_queue (self_ st));
  inv_room : len (Queue.queue (shared_queue (self_ st))) <= cap;
  inv_item : p_item_ok (producer_thread st);
  inv_produced :
    items_produced (stats (self_ st)) =
    len (nn (firstn (p_cnt_idx (producer_thread st)) src));
  inv_consumed :
    items_consumed (stats (self_ st)) =
    len (destination_container (self_ st)) - c_uncounted (consumer_thread st);
  inv_local : c_local_ok (items_consumed (stats (self_ st))) (consumer_thread st);
  inv_unfinished :
    Queue.unfinished_tasks (shared_queue (self_ st)) =
    len (Queue.queue (shared_queue (self_ st))) + c_holding (consumer_thread st);
  inv_max : 0 <= max_queue_size (stats (self_ st)) <= cap;
  inv_size : p_size_ok (producer_thread st);
  inv_flag : _producer_finished (self_ st) = producer_returned (producer_thread st)
}.

(** The instance as it is when the two threads start. *)
Record ready (self : t) : Prop := {
  ready_src : source_container self = src;
  ready_cap : capacity self = cap;
  ready_maxsize : Queue.maxsize (shared_queue self) = cap;
  ready_cap_pos : 0 < cap;
  ready_queue : Queue.queue (shared_queue self) = [];
  ready_unfinished : Queue.unfinished_tasks (shared_queue self) = 0;
  ready_dest : destination_container self = [];
  ready_produced : items_produced (stats self) = 0;
  ready_consumed : items_consumed (stats self) = 0;
  ready_max : max_queue_size (stats self) = 0;
  ready_flag : _producer_finished self = false
}.

(** A variant: an upper bound on the statements still to be executed. *)
Definition producer_left (pc : producer_pc) : nat :=
  match pc with
  | P_done => 0
  | P_finish => 1
  | P_for i => 7 * (length src - i) + 2
  | P_count i => 7 * (length src - S i) + 3
  | P_max i _ => 7 * (length src - S i) + 4
  | P_qsize i => 7 * (length src - S i) + 5
  | P_wait_end i _ => 7 * (length src - S i) + 6
  | P_put i _ _ => 7 * (length src - S i) + 7
  | P_start => 7 * length src + 3
  end%nat.

Definition consumer_left (pc : consumer_pc) : nat :=
  match pc with
  | C_done | C_failed _ => 0
  | C_while c => 7 * Z.to_nat (total - c) + 1
  | C_task_done c => 7 * Z.to_nat (total - c) + 2
  | C_count c => 7 * Z.to_nat (total - c - 1) + 3
  | C_append c _ | C_skip c => 7 * Z.to_nat (total - c - 1) + 4
  | C_wait_end c _ _ => 7 * Z.to_nat (total - c - 1) + 5
  | C_get c _ => 7 * Z.to_nat (total - c - 1) + 6
  | C_start => 7 * Z.to_nat total + 2
  end%nat.

Definition statements_left (st : system) : nat :=
  (producer_left (producer_thread st) + consumer_left (consumer_thread st))%nat.

End Invariant.

(** What the high-water mark has seen: it never exceeds the number of items
    put so far. *)
Definition hw_ok (src : list item) (st : system) : Prop :=
  let seen := len (nn (firstn (p_put_idx src (producer_thread st)) src)) in
  max_queue_size (stats (self_ st)) <= seen /\
  match producer_thread st with
  | P_max _ cs => cs <= seen
  | _ => True
  end.

(** An instance between runs: as [__init__] builds it and as a completed
    [run] leaves it. *)
Record idle (self : t) : Prop := {
  idle_maxsize : Queue.maxsize (shared_queue self) = capacity self;
  idle_queue : Queue.queue (shared_queue self) = [];
  idle_unfinished : Queue.unfinished_tasks (shared_queue self) = 0
}.

End ProducerConsumer.

(** ** [threading.Condition]

    The lock of the condition and the threads parked in [wait()].  The class
    never re-enters the lock and calls [wait] and [notify] only inside
    [with self.condition], so ownership errors are not modelled. *)
Module Condition.

Record t : Type := mk {
  owner : option tid;
  waiters : list tid
}.

Definition new : t := mk None [].

Definition is_waiting (who : tid) (c : t) : bool :=
  existsb (tid_eqb who) (waiters c).

(** [__enter__]: waits while another thread holds the lock. *)
Definition acquire (who : tid) (c : t) : option t :=
  match owner c with
  | None => Some (mk (Some who) (waiters c))
  | Some _ => None
  end.

(** [__exit__] *)
Definition release (c : t) : t := mk None (waiters c).

(** [wait()], first half: join the waiters and give up the lock. *)
Definition wait_park (who : tid) (c : t) : t :=
  mk None (waiters c ++ [who]).

(** [wait()], second half: once notified, take the lock again. *)
Definition wait_resume (who : tid) (c : t) : option t :=
  if is_waiting who c then None else acquire who c.

(** [notify()] wakes the longest-waiting thread, if there is one. *)
Definition notify (c : t) : t := mk (owner c) (tl (waiters c)).

End Condition.

(** ** [ProducerConsumerWaitNotify] : the wait/notify class *)
Module ProducerConsumerWaitNotify.

(** The instance.  [self.dest_lock] guards single statements on
    [destination_container] and carries no state of its own.  The two
    containers are distinct list objects throughout, so lists are values. *)
Record t : Type := mk {
  shared_queue : list item;
  source_container : list item;
  destination_container : list item;
  capacity : Z;
  condition : Condition.t;
  producer_finished : bool;
  stats : Statistics
}.

Definition __init__ (capacity : Z) : exn + t :=
  if capacity <=? 0
  then inl (ValueError "Queue capacity must be greater than 0")
  else inr (mk [] [] [] capacity Condition.new false Statistics_new).

Definition initialize_source (item_count : Z) (self : t) : exn + t :=
  if item_count <? 0
  then inl (ValueError "Item count must be non-negative")
  else inr (mk (shared_queue self) (range1 item_count)
               (destination_container self) (capacity self)
               (condition self) (producer_finished self) (stats self)).

Definition get_destination_container (self : t) : list item * t :=
  (destination_container self, self).

Definition get_source_container (self : t) : list item * t :=
  (source_container self, self).

Definition reset_statistics (self : t) : t :=
  mk (shared_queue self) (source_container self) [] (capacity self)
     (condition self) false Statistics_new.

Definition with_queue (q : list item) (self : t) : t :=
  mk q (source_container self) (destination_container self) (capacity self)
     (condition self) (producer_finished self) (stats self).

Definition with_stats (s : Statistics) (self : t) : t :=
  mk (shared_queue self) (source_container self)
     (destination_container self) (capacity self) (condition self)
     (producer_finished self) s.

Definition with_destination (d : list item) (self : t) : t :=
  mk (shared_queue self) (source_container self) d (capacity self)
     (condition self) (producer_finished self) (stats self).

Definition with_condition (c : Condition.t) (self : t) : t :=
  mk (shared_queue self) (source_container self)
     (destination_container self) (capacity self) c
     (producer_finished self) (stats self).

Definition with_finished (b : bool) (self : t) : t :=
  mk (shared_queue self) (source_container self)
     (destination_container self) (capacity self) (condition self) b
     (stats self).

(** *** [producer] *)
Inductive producer_pc : Type :=
| P_start                                   (* if not self.source_container *)
| P_for (i : nat)                           (* next item; None test *)
| P_acquire (i : nat) (x : Z)               (* with self.condition: wait_start *)
| P_full (i : nat) (x : Z) (wait_start : float)
                                            (* while len(queue) == capacity *)
| P_waiting (i : nat) (x : Z) (wait_start : float)
                                            (* inside self.condition.wait() *)
| P_wait_end (i : nat) (x : Z) (wait_start : float)
                                            (* producer_wait_time += ... *)
| P_append (i : nat) (x : Z)                (* self.shared_queue.append(item) *)
| P_size (i : nat)                          (* current_size = len(queue) *)
| P_max (i : nat) (current_size : Z)        (* max_queue_size = max(...) *)
| P_count (i : nat)                         (* items_produced += 1 *)
| P_notify (i : nat)                        (* self.condition.notify() *)
| P_release (i : nat)                       (* end of the with block *)
| P_fin_acquire                             (* with self.condition: *)
| P_fin_set                                 (* self.producer_finished = True *)
| P_fin_notify                              (* self.condition.notify() *)
| P_fin_release                             (* end of the with block *)
| P_done.

Definition producer_step (now : float) (pc : producer_pc) (self : t)
  : option (producer_pc * t) :=
  match pc with
  | P_start =>
      match source_container self with
      | [] => Some (P_fin_acquire, self)
      | _ :: _ => Some (P_for 0, self)
      end
  | P_for i =>
      match nth_error (source_container self) i with
      | None => Some (P_fin_acquire, self)
      | Some None => Some (P_for (S i), self)
      | Some (Some x) => Some (P_acquire i x, self)
      end
  | P_acquire i x =>
      match Condition.acquire Producer (condition self) with
      | None => None
      | Some c => Some (P_full i x now, with_condition c self)
      end
  | P_full i x wait_start =>
      if len (shared_queue self) =? capacity self
      then Some (P_waiting i x wait_start,
                 with_condition (Condition.wait_park Producer (condition self))
                                self)
      else Some (P_wait_end i x wait_start, self)
  | P_waiting i x wait_start =>
      match Condition.wait_resume Producer (condition self) with
      | None => None
      | Some c => Some (P_full i x wait_start, with_condition c self)
      end
  | P_wait_end i x wait_start =>
      Some (P_append i x,
            with_stats (add_producer_wait (elapsed_ms wait_start now)
                                          (stats self)) self)
  | P_append i x =>
      Some (P_size i, with_queue (shared_queue self ++ [Some x]) self)
  | P_size i => Some (P_max i (len (shared_queue self)), self)
  | P_max i current_size =>
      Some (P_count i,
            with_stats (note_queue_size current_size (stats self)) self)
  | P_count i =>
      Some (P_notify i, with_stats (incr_produced (stats self)) self)
  | P_notify i =>
      Some (P_release i,
            with_condition (Condition.notify (condition self)) self)
  | P_release i =>
      Some (P_for (S i),
            with_condition (Condition.release (condition self)) self)
  | P_fin_acquire =>
      match Condition.acquire Producer (condition self) with
      | None => None
      | Some c => Some (P_fin_set, with_condition c self)
      end
  | P_fin_set => Some (P_fin_notify, with_finished true self)
  | P_fin_notify =>
      Some (P_fin_release,
            with_condition (Condition.notify (condition self)) self)
  | P_fin_release =>
      Some (P_done, with_condition (Condition.release (condition self)) self)
  | P_done => None
  end.

(** *** [consumer] *)
Inductive consumer_pc : Type :=
| C_start                                   (* the two tests on total_items *)
| C_while (consumed : Z)                    (* while consumed < total_items *)
| C_acquire (consumed : Z)                  (* with self.condition: wait_start *)
| C_empty (consumed : Z) (wait_start : float)
                        (* while len(queue) == 0 and not producer_finished *)
| C_waiting (consumed : Z) (wait_start : float)
                                            (* inside self.condition.wait() *)
| C_wait_end (consumed : Z) (wait_start : float)
                                            (* consumer_wait_time += ... *)
| C_break_test (consumed : Z)     (* if len(queue) == 0 and producer_finished *)
| C_pop (consumed : Z)                      (* item = pop(0); None test *)
| C_count (consumed : Z) (x : Z)            (* consumed += 1; items_consumed += 1 *)
| C_append (consumed : Z) (x : Z)           (* destination_container.append(item) *)
| C_notify (consumed : Z)                   (* self.condition.notify() *)
| C_release (consumed : Z)                  (* end of the with block *)
| C_done
| C_failed (e : exn).                       (* except Exception as e *)

(** [break], [continue] and an exception leave the [with] block, which
    releases the lock on the way out. *)
Definition consumer_step (total_items : Z) (now : float) (pc : consumer_pc)
  (self : t) : option (consumer_pc * t) :=
  match pc with
  | C_start =>
      if total_items <? 0
      then Some (C_failed (ValueError "Total items must be non-negative"), self)
      else if total_items =? 0 then Some (C_done, self)
      else Some (C_while 0, self)
  | C_while consumed =>
      if consumed <? total_items then Some (C_acquire consumed, self)
      else Some (C_done, self)
  | C_acquire consumed =>
      match Condition.acquire Consumer (condition self) with
      | None => None
      | Some c => Some (C_empty consumed now, with_condition c self)
      end
  | C_empty consumed wait_start =>
      if (len (shared_queue self) =? 0) && negb (producer_finished self)
      then Some (C_waiting consumed wait_start,
                 with_condition (Condition.wait_park Consumer (condition self))
                                self)
      else Some (C_wait_end consumed wait_start, self)
  | C_waiting consumed wait_start =>
      match Condition.wait_resume Consumer (condition self) with
      | None => None
      | Some c => Some (C_empty consumed wait_start, with_condition c self)
      end
  | C_wait_end consumed wait_start =>
      Some (C_break_test consumed,
            with_stats (add_consumer_wait (elapsed_ms wait_start now)
                                          (stats self)) self)
  | C_break_test consumed =>
      if (len (shared_queue self) =? 0) && producer_finished self
      then Some (C_done,
                 with_condition (Condition.release (condition self)) self)
      else Some (C_pop consumed, self)
  | C_pop consumed =>
      match shared_queue self with
      | [] =>
          Some (C_failed (IndexError "pop from empty list"),
                with_condition (Condition.release (condition self)) self)
      | None :: rest =>
          Some (C_while consumed,
                with_condition (Condition.release (condition self))
                               (with_queue rest self))
      | Some v :: rest => Some (C_count consumed v, with_queue rest self)
      end
  | C_count consumed v =>
      Some (C_append (consumed + 1) v,
            with_stats (incr_consumed (stats self)) self)
  | C_append consumed v =>
      Some (C_notify consumed,
            with_destination (destination_container self ++ [Some v]) self)
  | C_notify consumed =>
      Some (C_release consumed,
            with_condition (Condition.notify (condition self)) self)
  | C_release consumed =>
      Some (C_while consumed,
            with_condition (Condition.release (condition self)) self)
  | C_done => None
  | C_failed _ => None
  end.

(** *** The two threads together *)
Record system : Type := mk_system {
  self_ : t;
  producer_thread : producer_pc;
  consumer_thread : consumer_pc
}.

Definition spawn (self : t) : system := mk_system self P_start C_start.

Definition step_opt (total_items : Z) (ev : event) (st : system)
  : option system :=
  match fst ev with
  | Producer =>
      match producer_step (snd ev) (producer_thread st) (self_ st) with
      | Some (pc, self') => Some (mk_system self' pc (consumer_thread st))
      | None => None
      end
  | Consumer =>
      match consumer_step total_items (snd ev) (consumer_thread st) (self_ st) with
      | Some (pc, self') => Some (mk_system self' (producer_thread st) pc)
      | None => None
      end
  end.

Definition step (total_items : Z) (st : system) (ev : event) : system :=
  match step_opt total_items ev st with
  | Some st' => st'
  | None => st
  end.

Definition exec (total_items : Z) (sched : list event) (st : system) : system :=
  fold_left (step total_items) sched st.

Definition producer_returned (pc : producer_pc) : bool :=
  match pc with P_done => true | _ => false end.

Definition consumer_returned (pc : consumer_pc) : bool :=
  match pc with C_done | C_failed _ => true | _ => false end.

Definition joined (st : system) : bool :=
  producer_returned (producer_thread st) &&
  consumer_returned (consumer_thread st).

Definition role_failures (st : system) : list exn :=
  match consumer_thread st with C_failed e => [e] | _ => [] end.

Definition stuck (total_items : Z) (st : system) : Prop :=
  forall ev, step_opt total_items ev st = None.

(** *** [run]

    [run] initializes the source, resets the statistics, reads the clock,
    starts the two threads and joins them, reads the clock again, and then
    prints and calls [perform_analysis].  The prints, [time.sleep] and
    [perform_analysis] read the instance and leave it as it is, so they have
    no counterpart here.  What the caller sees is one of three outcomes. *)
Inductive outcome : Type :=
| Raised (e : exn) (self : t)
| Returned (self : t) (failures : list exn)
| Joining (st : system).

Definition run_begin (item_count : Z) (t_start : float) (self : t) : exn + t :=
  match initialize_source item_count self with
  | inl e => inl e
  | inr self1 =>
      let self2 := reset_statistics self1 in
      inr (with_stats (set_start_time t_start (stats self2)) self2)
  end.

Definition run (item_count : Z) (t_start t_end : float) (sched : list event)
  (self : t) : outcome :=
  match run_begin item_count t_start self with
  | inl e => Raised e self
  | inr self1 =>
      let st := exec item_count sched (spawn self1) in
      if joined st
      then Returned (with_stats (set_end_time t_end (stats (self_ st))) (self_ st))
                    (role_failures st)
      else Joining st
  end.

(** *** [perform_analysis]

    The report is text; what it says about integrity and balance are these
    four tests on the instance. *)
Definition perform_analysis_verdicts (self : t) : verdicts :=
  mk_verdicts
    (items_eqb (source_container self) (fst (get_destination_container self)))
    (len (source_container self) =? len (destination_container self))
    (items_produced (stats self) =? items_consumed (stats self))
    (Z.abs (items_produced (stats self) - items_consumed (stats self)) <=? 1).

(** The statements a schedule makes the threads execute: the events at
    which the scheduled thread can move. *)
Fixpoint moves (total_items : Z) (sched : list event) (st : system) : nat :=
  match sched with
  | [] => 0
  | ev :: rest =>
      match step_opt total_items ev st with
      | Some st' => S (moves total_items rest st')
      | None => moves total_items rest st
      end
  end.

(** *** Ghost state of a run *)

(** The control points inside a [with self.condition] block, past the
    acquisition: the thread owns the lock. *)
Definition p_holds (pc : producer_pc) : bool :=
  match pc with
  | P_full _ _ _ | P_wait_end _ _ _ | P_append _ _ | P_size _ | P_max _ _
  | P_count _ | P_notify _ | P_release _
  | P_fin_set | P_fin_notify | P_fin_release => true
  | _ => false
  end.

Definition c_holds (pc : consumer_pc) : bool :=
  match pc with
  | C_empty _ _ | C_wait_end _ _ | C_break_test _ | C_pop _ | C_count _ _
  | C_append _ _ | C_notify _ | C_release _ => true
  | _ => false
  end.

(** The thread is inside [wait()]. *)
Definition p_waiting (pc : producer_pc) : bool :=
  match pc with P_waiting _ _ _ => true | _ => false end.

Definition c_waiting (pc : consumer_pc) : bool :=
  match pc with C_waiting _ _ => true | _ => false end.

(** The thread has changed the shared state and has still to notify. *)
Definition p_pending (pc : producer_pc) : bool :=
  match pc with
  | P_size _ | P_max _ _ | P_count _ | P_notify _ | P_fin_notify => true
  | _ => false
  end.

Definition c_pending (pc : consumer_pc) : bool :=
  match pc with
  | C_count _ _ | C_append _ _ | C_notify _ => true
  | _ => false
  end.

(** The producer has set [producer_finished]. *)
Definition p_fin (pc : producer_pc) : bool :=
  match pc with P_fin_notify | P_fin_release | P_done => true | _ => false end.

(** Items appended to the buffer and not yet counted. *)
Definition p_uncounted (pc : producer_pc) : Z :=
  match pc with P_size _ | P_max _ _ | P_count _ => 1 | _ => 0 end.

(** Places the producer has found free and is about to fill. *)
Definition p_room (pc : producer_pc) : Z :=
  match pc with P_wait_end _ _ _ | P_append _ _ => 1 | _ => 0 end.

(** Items popped and not yet counted. *)
Definition c_popped (pc : consumer_pc) : Z :=
  match pc with C_count _ _ => 1 | _ => 0 end.

(** Items popped and not yet appended to the destination. *)
Definition c_inflight (pc : consumer_pc) : list item :=
  match pc with C_count _ v | C_append _ v => [Some v] | _ => [] end.

(** Items counted and not yet appended to the destination. *)
Definition c_early (pc : consumer_pc) : Z :=
  match pc with C_append _ _ => 1 | _ => 0 end.

Section Invariant.
Variables (src : list item) (cap total : Z).

(** Source positions whose item has been appended or skipped. *)
Definition p_app_idx (pc : producer_pc) : nat :=
  match pc with
  | P_start => 0%nat
  | P_for i | P_acquire i _ | P_full i _ _ | P_waiting i _ _
  | P_wait_end i _ _ | P_append i _ => i
  | P_size i | P_max i _ | P_count i | P_notify i | P_release i => S i
  | P_fin_acquire | P_fin_set | P_fin_notify | P_fin_release | P_done => length src
  end.

(** The item a control point carries is the one at its position. *)
Definition p_item_ok (pc : producer_pc) : Prop :=
  match pc with
  | P_acquire i x | P_full i x _ | P_waiting i x _ | P_wait_end i x _
  | P_append i x => nth_error src i = Some (Some x)
  | _ => True
  end.

(** The sampled size is within the capacity. *)
Definition p_size_ok (pc : producer_pc) : Prop :=
  match pc with P_max _ cs => 0 <= cs <= cap | _ => True end.

(** The local counter [consumed] against [items_consumed] (here [n]). *)
Definition c_local_ok (n : Z) (pc : consumer_pc) : Prop :=
  match pc with
  | C_start => n = 0
  | C_while c | C_append c _ | C_notify c | C_release c => c = n /\ c <= total
  | C_acquire c | C_empty c _ | C_waiting c _ | C_wait_end c _
  | C_break_test c | C_pop c | C_count c _ => c = n /\ c < total
  | C_done => True
  | C_failed _ => total < 0
  end.

(** What the consumer knows about the buffer after its wait loop. *)
Definition c_queue_ok (q : list item) (fin : bool) (pc : consumer_pc) : Prop :=
  match pc with
  | C_wait_end _ _ | C_break_test _ => q <> [] \/ fin = true
  | C_pop _ => q <> []
  | _ => True
  end.

(** How the consumer can have left its loop: target reached, or [break]. *)
Definition c_done_ok (n : Z) (q : list item) (fin : bool) (pc : consumer_pc) : Prop :=
  match pc with
  | C_done => n = total \/ (fin = true /\ q = [])
  | _ => True
  end.

(** The owner of the lock, read off the two control points. *)
Definition owner_of (p : producer_pc) (k : consumer_pc) : option tid :=
  if p_holds p then Some Producer
  else if c_holds k then Some Consumer else None.

(** At most one thread is parked, and it is parked for a reason that still
    holds unless the other thread is about to notify. *)
Definition waiters_ok (ws : list tid) (p : producer_pc) (k : consumer_pc)
  (q : list item) (fin : bool) : Prop :=
  match ws with
  | [] => True
  | [Producer] => p_waiting p = true /\ (c_pending k = false -> len q = cap)
  | [Consumer] =>
      c_waiting k = true /\ (p_pending p = false -> q = [] /\ fin = false)
  | _ => False
  end.

(** The invariant of a run that starts with an empty buffer and a free
    condition. *)
Record Inv (st : system) : Prop := {
  inv_src : source_container (self_ st) = src;
  inv_cap : capacity (self_ st) = cap;
  inv_cap_pos : 0 < cap;
  inv_data :
    nn (firstn (p_app_idx (producer_thread st)) src) =
    destination_container (self_ st) ++ c_inflight (consumer_thread st)
      ++ shared_queue (self_ st);
  inv_room :
    len (shared_queue (self_ st)) + p_room (producer_thread st) <= cap;
  inv_c_room :
    len (shared_queue (self_ st)) + c_popped (consumer_thread st) <= cap;
  inv_nonempty :
    p_uncounted (producer_thread st) <= len (shared_queue (self_ st));
  inv_item : p_item_ok (producer_thread st);
  inv_produced :
    items_produced (stats (self_ st)) =
    len (nn (firstn (p_app_idx (producer_thread st)) src))
    - p_uncounted (producer_thread st);
  inv_consumed :
    items_consumed (stats (self_ st)) =
    len (destination_container (self_ st)) + c_early (consumer_thread st);
  inv_local : c_local_ok (items_consumed (stats (self_ st))) (consumer_thread st);
  inv_max : 0 <= max_queue_size (stats (self_ st)) <= cap;
  inv_size : p_size_ok (producer_thread st);
  inv_flag : producer_finished (self_ st) = p_fin (producer_thread st);
  inv_owner :
    Condition.owner (condition (self_ st)) =
    owner_of (producer_thread st) (consumer_thread st);
  inv_excl : p_holds (producer_thread st) && c_holds (consumer_thread st) = false;
  inv_waiters :
    waiters_ok (Condition.waiters (condition (self_ st)))
      (producer_thread st) (consumer_thread st)
      (shared_queue (self_ st)) (producer_finished (self_ st));
  inv_queue :
    c_queue_ok (shared_queue (self_ st)) (producer_finished (self_ st))
      (consumer_thread st);
  inv_done :
    c_done_ok (items_consumed (stats (self_ st))) (shared_queue (self_ st))
      (producer_finished (self_ st)) (consumer_thread st)
}.

(** The instance as [run] hands it to the two threads. *)
Record ready (self : t) : Prop := {
  ready_src : source_container self = src;
  ready_cap : capacity self = cap;
  ready_cap_pos : 0 < cap;
  ready_queue : shared_queue self = [];
  ready_condition : condition self = Condition.new;
  ready_dest : destination_container self = [];
  ready_produced : items_produced (stats self) = 0;
  ready_consumed : items_consumed (stats self) = 0;
  ready_max : max_queue_size (stats self) = 0;
  ready_flag : producer_finished self = false
}.

(** A variant that every statement decreases.  A thread resumed from
    [wait()] tests its loop condition once more; the notifying statement of
    the other thread pays for that. *)
Definition producer_left (pc : producer_pc) : nat :=
  match pc with
  | P_done => 0
  | P_fin_release => 1
  | P_fin_notify => 2
  | P_fin_set => 3
  | P_fin_acquire => 4
  | P_for i => 10 * (length src - i) + 5
  | P_release i => 10 * (length src - S i) + 6
  | P_notify i => 10 * (length src - S i) + 7
  | P_count i => 10 * (length src - S i) + 8
  | P_max i _ => 10 * (length src - S i) + 9
  | P_size i => 10 * (length src - S i) + 10
  | P_append i _ => 10 * (length src - S i) + 11
  | P_wait_end i _ _ => 10 * (length src - S i) + 12
  | P_full i _ _ | P_waiting i _ _ => 10 * (length src - S i) + 13
  | P_acquire i _ => 10 * (length src - S i) + 14
  | P_start => 10 * length src + 6
  end%nat.

Definition consumer_left (pc : consumer_pc) : nat :=
  match pc with
  | C_done | C_failed _ => 0
  | C_while c => 12 * Z.to_nat (total - c) + 1
  | C_release c => 12 * Z.to_nat (total - c) + 2
  | C_notify c => 12 * Z.to_nat (total - c) + 3
  | C_append c _ => 12 * Z.to_nat (total - c) + 4
  | C_count c _ => 12 * Z.to_nat (total - c - 1) + 5
  | C_pop c => 12 * Z.to_nat (total - c - 1) + 6
  | C_break_test c => 12 * Z.to_nat (total - c - 1) + 7
  | C_wait_end c _ => 12 * Z.to_nat (total - c - 1) + 8
  | C_empty c _ | C_waiting c _ => 12 * Z.to_nat (total - c - 1) + 9
  | C_acquire c => 12 * Z.to_nat (total - c - 1) + 10
  | C_start => 12 * Z.to_nat total + 2
  end%nat.

Definition producer_wait (pc : producer_pc) (ws : list tid) : nat :=
  match pc with
  | P_full _ _ _ => 2
  | P_waiting _ _ _ => if existsb (tid_eqb Producer) ws then 1 else 3
  | _ => 0
  end.

Definition consumer_wait (pc : consumer_pc) (ws : list tid) : nat :=
  match pc with
  | C_empty _ _ => 2
  | C_waiting _ _ => if existsb (tid_eqb Consumer) ws then 1 else 3
  | _ => 0
  end.

Definition statements_left (st : system) : nat :=
  (3 * (producer_left (producer_thread st) + consumer_left (consumer_thread st))
   + producer_wait (producer_thread st) (Condition.waiters (condition (self_ st)))
   + consumer_wait (consumer_thread st) (Condition.waiters (condition (self_ st))))%nat.

End Invariant.

(** What the high-water mark has seen: it never exceeds the number of items
    appended so far, and it is at least 1 once an item has been counted. *)
Definition hw_ok (src : list item) (st : system) : Prop :=
  let seen := len (nn (firstn (p_app_idx src (producer_thread st)) src)) in
  let s := stats (self_ st) in
  max_queue_size s <= seen /\
  match producer_thread st with
  | P_max _ cs => 1 <= cs <= seen
  | P_count _ => 1 <= max_queue_size s
  | _ => 1 <= items_produced s -> 1 <= max_queue_size s
  end.

(** An instance between runs. *)
Record idle (self : t) : Prop := {
  idle_queue : shared_queue self = [];
  idle_condition : condition self = Condition.new
}.

End ProducerConsumerWaitNotify.

(** ** Sample instances and schedules *)

(** [n] consecutive turns of one thread, the clock standing at 0. *)
Definition turns (who : tid) (n : nat) : list event := repeat (who, 0%float) n.

(** [n] rounds in which the producer and then the consumer get one turn. *)
Definition alternate (n : nat) : list event :=
  concat (repeat [(Producer, 1%float); (Consumer, 2%float)] n).

(** What [ProducerConsumer(c)] builds when [c > 0]. *)
Definition queue_instance (c : Z) : ProducerConsumer.t :=
  ProducerConsumer.mk (Queue.new c) [] [] c Statistics_new false.

(** What [ProducerConsumerWaitNotify(c)] builds when [c > 0]. *)
Definition wait_notify_instance (c : Z) : ProducerConsumerWaitNotify.t :=
  ProducerConsumerWaitNotify.mk [] [] [] c Condition.new false Statistics_new.

(** * Proofs *)

(** ** Lists and counting *)

Lemma len_nil A : len (@nil A) = 0. Proof. reflexivity. Qed.
Lemma len_app {A} (a b : list A) : len (a ++ b) = len a + len b.
Proof. unfold len. rewrite length_app. lia. Qed.
Lemma len_cons {A} (x : A) l : len (x :: l) = len l + 1.
Proof. unfold len. simpl length. lia. Qed.
Lemma len_nonneg {A} (l : list A) : 0 <= len l.
Proof. unfold len. lia. Qed.

Lemma nn_app a b : nn (a ++ b) = nn a ++ nn b.
Proof. apply filter_app. Qed.

Lemma nn_Some x : nn [Some x] = [Some x].
Proof. reflexivity. Qed.

Lemma nn_None : nn [None] = [].
Proof. reflexivity. Qed.

Lemma firstn_snoc {A} {l : list A} {i x} :
  nth_error l i = Some x -> firstn (S i) l = firstn i l ++ [x].
Proof.
  revert i. induction l as [|y l IH]; intros [|i] H; simpl in *; try discriminate.
  - now inversion H.
  - now rewrite <- (IH i H).
Qed.

Lemma firstn_past {A} {l : list A} {i} :
  nth_error l i = None -> firstn i l = firstn (length l) l.
Proof.
  intros H. apply nth_error_None in H.
  rewrite firstn_all. now apply firstn_all2.
Qed.

Lemma nn_no_None l a b : nn l = a ++ None :: b -> False.
Proof.
  intros H.
  assert (In None (nn l)) as Hin by (rewrite H; apply in_elt).
  apply filter_In in Hin. destruct Hin as [_ Hn]. discriminate.
Qed.

Lemma len_zero_nil {A} (l : list A) : len l = 0 -> l = [].
Proof. destruct l; [reflexivity|]. rewrite len_cons. pose proof (len_nonneg l). lia. Qed.

Lemma nn_firstn_le (l : list item) i : len (nn (firstn i l)) <= len (nn l).
Proof.
  rewrite <- (firstn_skipn i l) at 2. rewrite nn_app, len_app.
  pose proof (len_nonneg (nn (skipn i l))). lia.
Qed.

Lemma nn_firstn_lt (l : list item) i x :
  nth_error l i = Some (Some x) -> len (nn (firstn i l)) < len (nn l).
Proof.
  intros H. pose proof (nn_firstn_le l (S i)) as Hle.
  rewrite (firstn_snoc H), nn_app, nn_Some, len_app, len_cons, len_nil in Hle. lia.
Qed.

Lemma nn_range1 n : nn (range1 n) = range1 n.
Proof.
  unfold range1, nn. generalize (seq 1 (Z.to_nat n)).
  induction l as [|k l IH]; simpl; [reflexivity | now rewrite IH].
Qed.

Lemma len_range1 n : 0 <= n -> len (range1 n) = n.
Proof.
  intros H. unfold len, range1. rewrite length_map, length_seq. lia.
Qed.

(** ** The queue-based class *)
Module ProducerConsumerTheory.
Import ProducerConsumer.
Local Arguments firstn : simpl never.
Local Arguments nn : simpl never.
Local Arguments Z.add : simpl never.
Local Arguments Z.sub : simpl never.
Local Arguments Z.mul : simpl never.
Local Arguments Z.max : simpl never.
Local Arguments Nat.mul : simpl never.
Local Arguments Nat.add : simpl never.
Local Arguments Nat.sub : simpl never.

Section Run.
Variables (src : list item) (cap total : Z).
Local Abbreviation Inv := (Inv src cap total).
Local Abbreviation ready := (ready src cap).
Local Abbreviation statements_left := (statements_left src total).

Ltac break_inv H :=
  destruct H as [Hsrc Hcap Hms Hpos Hdata Hroom Hitem Hprod Hcons Hloc Hunf Hmax Hsize Hflag];
  simpl in *.

Lemma q_inv_producer_step st now pc self' :
  Inv st ->
  producer_step now (producer_thread st) (self_ st) = Some (pc, self') ->
  Inv (mk_system self' pc (consumer_thread st)).
Proof.
  destruct st as [[[ms q unf] s d c stt fin] p k]; intros H Hstep.
  destruct p; break_inv H; subst s.
  - (* P_start *)
    destruct src eqn:E; inversion Hstep; subst; constructor; simpl; auto;
      rewrite ?E; simpl; auto.
  - destruct (nth_error src i) as [[x|]|] eqn:E; inversion Hstep; subst;
      constructor; simpl; auto.
    + rewrite (firstn_snoc E), nn_app in *. simpl. now rewrite app_nil_r.
    + rewrite (firstn_snoc E), nn_app. simpl. now rewrite app_nil_r.
    + now rewrite <- (firstn_past E).
    + now rewrite <- (firstn_past E).
  - unfold Queue.put, Queue.qsize in Hstep; simpl in Hstep.
    destruct ((0 <? ms) && (ms <=? len q)) eqn:E; inversion Hstep; subst.
    assert (len q < cap) by (destruct (Z.ltb_spec 0 cap); destruct (Z.leb_spec cap (len q)); simpl in E; try discriminate; lia).
    constructor; simpl; auto.
    + rewrite (firstn_snoc Hitem), nn_app, Hdata. simpl. now rewrite !app_assoc.
    + rewrite len_app, len_cons, len_nil. lia.
    + eauto.
    + rewrite len_app, len_cons, len_nil. lia.
  - inversion Hstep; subst. constructor; simpl; auto.
  - inversion Hstep; subst. constructor; simpl; auto.
    unfold Queue.qsize; simpl. pose proof (len_nonneg q). lia.
  - inversion Hstep; subst. constructor; simpl; auto. lia.
  - inversion Hstep; subst. constructor; simpl; auto.
    destruct Hitem as [x Hx].
    rewrite (firstn_snoc Hx), nn_app, len_app. simpl. rewrite Hprod. reflexivity.
  - inversion Hstep; subst. constructor; simpl; auto.
  - discriminate.
Qed.

Lemma q_inv_consumer_step st now pc self' :
  Inv st ->
  consumer_step total now (consumer_thread st) (self_ st) = Some (pc, self') ->
  Inv (mk_system self' (producer_thread st) pc).
Proof.
  destruct st as [[[ms q unf] s d c stt fin] p k]; intros H Hstep.
  destruct k; break_inv H; subst s.
  - destruct (Z.ltb_spec total 0); [|destruct (Z.eqb_spec total 0)];
      inversion Hstep; subst; constructor; simpl; auto; lia.
  - destruct (Z.ltb_spec consumed total);
      inversion Hstep; subst; constructor; simpl; auto; lia.
  - unfold Queue.get in Hstep; simpl in Hstep. destruct q as [|x q]; inversion Hstep; subst.
    rewrite len_cons in *.
    constructor; simpl; auto; try lia.
  - assert (exists v, x = Some v) as [v ->].
    { destruct x; eauto. exfalso. eapply nn_no_None. exact Hdata. }
    inversion Hstep; subst. constructor; simpl; auto.
  - contradiction.
  - inversion Hstep; subst. constructor; simpl; auto; try lia.
    + now rewrite <- app_assoc.
    + rewrite len_app, len_cons, len_nil. lia.
  - inversion Hstep; subst. constructor; simpl; auto; lia.
  - unfold Queue.task_done in Hstep; simpl in Hstep.
    destruct (Z.ltb_spec (unf - 1) 0); inversion Hstep; subst.
    + pose proof (len_nonneg q). lia.
    + constructor; simpl; auto; lia.
  - discriminate.
  - discriminate.
Qed.

Lemma q_inv_step st ev : Inv st -> Inv (step total st ev).
Proof.
  intros H. unfold step, step_opt. destruct ev as [[|] now]; simpl.
  - destruct (producer_step now (producer_thread st) (self_ st)) as [[pc self']|] eqn:E;
      [eapply q_inv_producer_step; eauto | exact H].
  - destruct (consumer_step total now (consumer_thread st) (self_ st)) as [[pc self']|] eqn:E;
      [eapply q_inv_consumer_step; eauto | exact H].
Qed.

Lemma q_inv_exec sched : forall st, Inv st -> Inv (exec total sched st).
Proof.
  unfold exec. induction sched as [|ev sched IH]; intros st H; simpl; auto using q_inv_step.
Qed.

Lemma q_inv_spawn self : ready self -> Inv (spawn self).
Proof.
  intros [? ? ? ? Hq Hu Hd Hp Hc Hm Hf].
  constructor; simpl; rewrite ?Hq, ?Hu, ?Hd, ?Hp, ?Hc, ?Hm, ?Hf, ?len_nil; auto;
    try reflexivity; lia.
Qed.

(** What a run that joined without a role failure leaves behind. *)
Lemma q_inv_joined st :
  Inv st -> joined st = true -> role_failures st = [] ->
  total = len (nn src) ->
  destination_container (self_ st) = nn src /\
  Queue.queue (shared_queue (self_ st)) = [] /\
  Queue.unfinished_tasks (shared_queue (self_ st)) = 0 /\
  items_produced (stats (self_ st)) = total /\
  items_consumed (stats (self_ st)) = total.
Proof.
  destruct st as [[[ms q unf] s d c stt fin] p k]; intros H Hj Hf Ht.
  destruct p; try discriminate. destruct k; try discriminate.
  destruct H as [Hsrc Hcap Hms Hpos Hdata Hroom Hitem Hprod Hcons Hloc Hunf Hmax Hsize Hflag];
    simpl in *.
  rewrite firstn_all in *.
  assert (len q = 0) as Hq.
  { rewrite Hdata, len_app in Ht. lia. }
  assert (q = []) as -> by (destruct q; auto; rewrite len_cons in Hq; pose proof (len_nonneg q); lia).
  rewrite app_nil_r in Hdata. rewrite len_nil in *.
  repeat split; auto; lia.
Qed.

Lemma q_step_decreases st ev st' :
  Inv st -> step_opt total ev st = Some st' ->
  (statements_left st' < statements_left st)%nat.
Proof.
  destruct st as [[[ms q unf] s d c stt fin] p k]; intros H.
  unfold step_opt, statements_left. destruct ev as [[|] now]; simpl.
  - destruct (producer_step _ _ _) as [[pc self']|] eqn:E; [|discriminate].
    intros Hs; inversion Hs; subst; clear Hs. simpl.
    apply Nat.add_lt_mono_r.
    destruct H as [Hsrc _ _ _ _ _ _ _ _ _ _ _ _ _]. simpl in *. subst s.
    destruct p; simpl in E.
    + destruct src; inversion E; subst; simpl; lia.
    + destruct (nth_error src i) as [[x|]|] eqn:En; inversion E; subst; simpl;
        try (assert (i < length src)%nat by (apply nth_error_Some; congruence));
        lia.
    + destruct (Queue.put _ _); inversion E; subst; simpl; lia.
    + inversion E; subst; simpl; lia.
    + inversion E; subst; simpl; lia.
    + inversion E; subst; simpl; lia.
    + inversion E; subst; simpl; lia.
    + inversion E; subst; simpl; lia.
    + discriminate.
  - destruct (consumer_step _ _ _ _) as [[pc self']|] eqn:E; [|discriminate].
    intros Hs; inversion Hs; subst; clear Hs. simpl.
    apply Nat.add_lt_mono_l.
    destruct H as [_ _ _ _ _ _ _ _ _ Hloc _ _ _ _]. simpl in *.
    destruct k; simpl in E, Hloc.
    + destruct (Z.ltb_spec total 0); [|destruct (Z.eqb_spec total 0)];
        inversion E; subst; simpl; lia.
    + destruct (Z.ltb_spec consumed total); inversion E; subst; simpl; lia.
    + destruct (Queue.get _) as [[x q']|]; inversion E; subst; simpl; lia.
    + destruct x; inversion E; subst; simpl; lia.
    + contradiction.
    + inversion E; subst; simpl; lia.
    + inversion E; subst; simpl.
      replace (total - (consumed + 1)) with (total - consumed - 1) by lia. lia.
    + destruct (Queue.task_done _); inversion E; subst; simpl; lia.
    + discriminate.
    + discriminate.
Qed.

(** While a thread is still running, some thread can take a step. *)
Lemma q_progress st :
  Inv st -> total = len (nn src) -> joined st = false ->
  exists ev st', step_opt total ev st = Some st'.
Proof.
  destruct st as [[[ms q unf] s d c stt fin] p k]; intros H Ht Hj.
  assert (forall now, (exists r, producer_step now p (mk (Queue.mk ms q unf) s d c stt fin) = Some r) ->
          exists ev st', step_opt total ev (mk_system (mk (Queue.mk ms q unf) s d c stt fin) p k) = Some st') as Hp.
  { intros now [[pc self'] E]. exists (Producer, now). unfold step_opt; simpl. rewrite E. eauto. }
  assert (forall now, (exists r, consumer_step total now k (mk (Queue.mk ms q unf) s d c stt fin) = Some r) ->
          exists ev st', step_opt total ev (mk_system (mk (Queue.mk ms q unf) s d c stt fin) p k) = Some st') as Hc.
  { intros now [[pc self'] E]. exists (Consumer, now). unfold step_opt; simpl. rewrite E. eauto. }
  destruct H as [Hsrc Hcap Hms Hpos Hdata Hroom Hitem Hprod Hcons Hloc Hunf Hmax Hsize Hflag];
    simpl in *. subst s ms.
  pose proof (len_nonneg (nn src)) as Hnn.
  destruct p; try (apply (Hp 0%float); simpl; eauto; fail).
  - apply (Hp 0%float); simpl. destruct src; eauto.
  - apply (Hp 0%float); simpl. destruct (nth_error src i) as [[x|]|]; eauto.
  - (* producer inside put *)
    simpl in *.
    destruct (Z.leb_spec cap (len q)) as [Hfull|Hfree].
    2:{ apply (Hp 0%float); simpl. unfold Queue.put, Queue.qsize; simpl.
        rewrite (proj2 (Z.leb_gt _ _) Hfree), andb_false_r. eauto. }
    pose proof (nn_firstn_lt _ _ Hitem) as Hlt.
    rewrite Hdata, !len_app in Hlt.
    destruct k; simpl in *;
      try (apply (Hc 0%float); simpl; eauto; fail).
    + apply (Hc 0%float); simpl.
      destruct (total <? 0); [|destruct (total =? 0)]; eauto.
    + apply (Hc 0%float); simpl. destruct (consumed <? total); eauto.
    + apply (Hc 0%float); simpl. unfold Queue.get; simpl.
      destruct q; [rewrite len_nil in *; lia | eauto].
    + apply (Hc 0%float); simpl. destruct x0; eauto.
    + contradiction.
    + apply (Hc 0%float); simpl. destruct (Queue.task_done _); eauto.
    + rewrite len_nil in *. pose proof (len_nonneg q). lia.
    + lia.
  - (* producer returned *)
    simpl in *. rewrite firstn_all in *.
    destruct k; simpl in *; try discriminate;
      try (apply (Hc 0%float); simpl; eauto; fail).
    + apply (Hc 0%float); simpl.
      destruct (total <? 0); [|destruct (total =? 0)]; eauto.
    + apply (Hc 0%float); simpl. destruct (consumed <? total); eauto.
    + apply (Hc 0%float); simpl. unfold Queue.get; simpl.
      destruct q; [|eauto].
      rewrite Hdata, !len_app, !len_nil in *. lia.
    + apply (Hc 0%float); simpl. destruct x; eauto.
    + contradiction.
    + apply (Hc 0%float); simpl. destruct (Queue.task_done _); eauto.
Qed.

(** From every state of a run, some schedule lets both threads return. *)
Lemma q_completes n : forall st,
  (statements_left st <= n)%nat -> Inv st -> total = len (nn src) ->
  exists sched, joined (exec total sched st) = true.
Proof.
  induction n as [|n IH]; intros st Hn H Ht;
    (destruct (joined st) eqn:Hj; [exists []; exact Hj|]);
    destruct (q_progress H Ht Hj) as (ev & st' & E);
    pose proof (q_step_decreases _ H E) as Hd.
  - lia.
  - destruct (IH st') as [sched Hs]; [lia | | assumption |].
    + replace st' with (step total st ev) by (unfold step; now rewrite E).
      now apply q_inv_step.
    + exists (ev :: sched). simpl. unfold exec in Hs.
      replace (step total st ev) with st' by (unfold step; now rewrite E).
      exact Hs.
Qed.

(** Bounds on the two counters at any moment of a run.  The counters are
    updated after [put] and [get] have returned, so each may lag the queue
    by one item. *)
Lemma q_balance st :
  Inv st ->
  -1 <= items_produced (stats (self_ st)) - items_consumed (stats (self_ st))
     <= cap + 1.
Proof.
  destruct st as [[[ms q unf] s d c stt fin] p k]; intros H.
  break_inv H.
  assert (len (nn (firstn (p_put_idx src p) src)) - 1
          <= len (nn (firstn (p_cnt_idx src p) src))
          <= len (nn (firstn (p_put_idx src p) src))) as Hlag.
  { destruct p; simpl in *; try lia;
      destruct Hitem as [x Hx];
      rewrite (firstn_snoc Hx), nn_app, nn_Some, len_app, len_cons, len_nil; lia. }
  rewrite Hdata, !len_app in Hlag.
  pose proof (len_nonneg q). pose proof (len_nonneg d).
  destruct k; simpl in *; rewrite ?len_cons, ?len_nil in *; lia.
Qed.

(** A consumer asked for more items than the source holds never returns. *)
Lemma q_starved st :
  Inv st -> len (nn src) < total ->
  consumer_returned (consumer_thread st) = false.
Proof.
  destruct st as [[[ms q unf] s d c stt fin] p k]; intros H Ht.
  break_inv H.
  pose proof (nn_firstn_le src (p_put_idx src p)) as Hle.
  rewrite Hdata, !len_app in Hle.
  pose proof (len_nonneg q). pose proof (len_nonneg d).
  pose proof (len_nonneg (nn src)).
  destruct k; simpl in *; auto; rewrite ?len_nil in *; lia.
Qed.

End Run.

(** *** [run] *)

Lemma q_init_idle c self : __init__ c = inr self -> idle self /\ capacity self = c /\ 0 < c.
Proof.
  unfold __init__. destruct (Z.leb_spec c 0); intros E; inversion E; subst.
  repeat split; simpl; auto.
Qed.

Lemma q_run_begin_ready n t0 self self1 :
  idle self -> 0 < capacity self -> run_begin n t0 self = inr self1 ->
  0 <= n /\ ready (range1 n) (capacity self) self1.
Proof.
  intros [Hm Hq Hu] Hc. unfold run_begin, initialize_source.
  destruct (Z.ltb_spec n 0); intros E; inversion E; subst.
  split; [assumption|]. constructor; simpl; auto.
Qed.

Lemma q_run_inv n t0 sched self self1 :
  idle self -> 0 < capacity self -> run_begin n t0 self = inr self1 ->
  0 <= n /\
  Inv (range1 n) (capacity self) n (exec n sched (spawn self1)).
Proof.
  intros Hi Hc E. destruct (@q_run_begin_ready n t0 self self1 Hi Hc E) as [Hn Hr].
  split; [assumption|]. apply q_inv_exec. now apply q_inv_spawn.
Qed.

(** What [run] returns with. *)
Lemma q_run_returned n t0 t1 sched self self' fs :
  idle self -> 0 < capacity self ->
  run n t0 t1 sched self = Returned self' fs ->
  fs = [] /\
  source_container self' = range1 n /\
  destination_container self' = range1 n /\
  items_produced (stats self') = n /\
  items_consumed (stats self') = n /\
  0 <= max_queue_size (stats self') <= capacity self' /\
  capacity self' = capacity self /\
  idle self'.
Proof.
  intros Hi Hc. unfold run.
  destruct (run_begin n t0 self) as [e|self1] eqn:E; [discriminate|].
  destruct (@q_run_inv n t0 sched self self1 Hi Hc E) as [Hn H].
  destruct (joined _) eqn:Hj; [|discriminate].
  intros R; inversion R; subst; clear R.
  assert (role_failures (exec n sched (spawn self1)) = []) as Hf.
  { unfold role_failures. pose proof (inv_local H) as Hl.
    destruct (consumer_thread _); simpl in *; auto. lia. }
  assert (n = len (nn (range1 n))) as Ht
    by (rewrite nn_range1, len_range1; auto).
  destruct (q_inv_joined H Hj Hf Ht) as (Hd & Hq & Hu & Hp & Hk).
  rewrite nn_range1 in Hd.
  pose proof (inv_src H). pose proof (inv_cap H). pose proof (inv_max H).
  pose proof (inv_maxsize H).
  repeat split; simpl; auto; try lia; congruence.
Qed.

(** [run] can return: whatever has happened so far, some continuation of
    the schedule lets both threads finish. *)
Lemma q_run_can_return n t0 t1 sched self :
  idle self -> 0 < capacity self -> 0 <= n ->
  exists more self', run n t0 t1 (sched ++ more) self = Returned self' [].
Proof.
  intros Hi Hc Hn. unfold run.
  destruct (run_begin n t0 self) as [e|self1] eqn:E.
  { unfold run_begin, initialize_source in E.
    destruct (Z.ltb_spec n 0); [lia | discriminate]. }
  destruct (@q_run_inv n t0 sched self self1 Hi Hc E) as [_ H].
  assert (n = len (nn (range1 n))) as Ht
    by (rewrite nn_range1, len_range1; auto).
  destruct (q_completes (le_n _) H Ht) as [more Hj].
  exists more. unfold exec in *. rewrite fold_left_app, Hj.
  eexists. f_equal.
  pose proof (q_inv_exec more H) as H'. unfold exec in H'.
  unfold role_failures. pose proof (inv_local H') as Hl.
  destruct (consumer_thread _); simpl in *; auto. lia.
Qed.

End ProducerConsumerTheory.

(** ** The wait/notify class *)
Module WaitNotifyTheory.
Import ProducerConsumerWaitNotify.
Local Arguments firstn : simpl never.
Local Arguments nn : simpl never.
Local Arguments Z.add : simpl never.
Local Arguments Z.sub : simpl never.
Local Arguments Z.mul : simpl never.
Local Arguments Z.max : simpl never.
Local Arguments Nat.mul : simpl never.
Local Arguments Nat.add : simpl never.
Local Arguments Nat.sub : simpl never.

Section Run.
Variables (src : list item) (cap total : Z).
Local Abbreviation Inv := (Inv src cap total).
Local Abbreviation ready := (ready src cap).
Local Abbreviation statements_left := (statements_left src total).

Ltac break_inv H :=
  destruct H as [Hsrc Hcap Hpos Hdata Hroom Hcroom Hne Hitem Hprod Hcons Hloc
                 Hmax Hsize Hflag Hown Hexcl Hws Hq Hdone];
  simpl in *.

Ltac list_arith :=
  repeat rewrite ?len_app, ?len_cons, ?len_nil in *;
  repeat match goal with
         | l : list _ |- _ =>
             lazymatch goal with
             | _ : 0 <= len l |- _ => fail
             | _ => pose proof (len_nonneg l)
             end
         end;
  try lia.

Ltac solve_owner :=
  unfold owner_of in *; simpl in *;
  repeat match goal with
         | H : c_holds _ = _ |- _ => rewrite H in *
         | H : p_holds _ = _ |- _ => rewrite H in *
         end;
  simpl in *; (reflexivity || discriminate || congruence).

Ltac solve_waiters :=
  match goal with
  | Hw : waiters_ok _ ?ws _ _ _ _ |- waiters_ok _ _ _ _ _ _ =>
      destruct ws as [|[|] [|? ?]]; simpl in *;
      repeat match goal with H : _ /\ _ |- _ => destruct H end;
      try tauto; try discriminate;
      repeat split; intros; try discriminate; auto;
      repeat match goal with
             | H : ?a = ?a -> _ |- _ => specialize (H eq_refl)
             | H : _ /\ _ |- _ => destruct H
             end;
      subst; list_arith; auto
  end.

Ltac finish :=
  simpl; auto;
  try solve [ lia | list_arith | solve_owner | solve_waiters ].

Lemma w_inv_producer_step st now pc self' :
  Inv st ->
  producer_step now (producer_thread st) (self_ st) = Some (pc, self') ->
  Inv (mk_system self' pc (consumer_thread st)).
Proof.
  destruct st as [[q s d c [ow ws] fin stt] p k]; intros H Hstep.
  destruct p; break_inv H; subst s c;
    rewrite ?andb_true_l, ?andb_false_l in *.
  - (* P_start *)
    destruct src eqn:E; inversion Hstep; subst; constructor; finish;
      rewrite ?E; simpl; auto.
  - (* P_for *)
    destruct (nth_error src i) as [[x|]|] eqn:E; inversion Hstep; subst;
      constructor; finish;
      rewrite <- ?(firstn_past E), ?(firstn_snoc E), ?nn_app, ?nn_None,
        ?app_nil_r; auto.
  - (* P_acquire *)
    unfold Condition.acquire in Hstep; simpl in Hstep.
    destruct ow; [discriminate|]. inversion Hstep; subst.
    assert (c_holds k = false) by (destruct (c_holds k) eqn:Ek; solve_owner).
    constructor; finish.
  - (* P_full *)
    destruct (Z.eqb_spec (len q) cap); inversion Hstep; subst;
      constructor; finish.
  - (* P_waiting *)
    unfold Condition.wait_resume, Condition.acquire, Condition.is_waiting in Hstep;
      simpl in Hstep.
    destruct (existsb (tid_eqb Producer) ws) eqn:Ew; [discriminate|].
    destruct ow; [discriminate|]. inversion Hstep; subst.
    assert (c_holds k = false) by (destruct (c_holds k) eqn:Ek; solve_owner).
    constructor; finish.
  - (* P_wait_end *)
    inversion Hstep; subst. constructor; finish.
  - (* P_append *)
    inversion Hstep; subst.
    assert (c_popped k = 0) by (destruct k; simpl in *; auto; discriminate).
    constructor; finish.
    + rewrite (firstn_snoc Hitem), nn_app, nn_Some, Hdata. now rewrite !app_assoc.
    + rewrite (firstn_snoc Hitem), nn_app, nn_Some. list_arith.
    + destruct k; simpl in *; auto; discriminate.
    + destruct k; simpl in *; auto. destruct Hdone as [|[? ?]]; auto; discriminate.
  - (* P_size *)
    inversion Hstep; subst. constructor; finish.
  - (* P_max *)
    inversion Hstep; subst. constructor; finish.
  - (* P_count *)
    inversion Hstep; subst. constructor; finish.
  - (* P_notify *)
    inversion Hstep; subst. constructor; finish.
  - (* P_release *)
    inversion Hstep; subst. constructor; finish.
  - (* P_fin_acquire *)
    unfold Condition.acquire in Hstep; simpl in Hstep.
    destruct ow; [discriminate|]. inversion Hstep; subst.
    assert (c_holds k = false) by (destruct (c_holds k) eqn:Ek; solve_owner).
    constructor; finish.
  - (* P_fin_set *)
    inversion Hstep; subst.
    constructor; finish.
    + destruct k; simpl in *; auto; discriminate.
    + destruct k; simpl in *; auto. destruct Hdone as [|[? ?]]; auto; discriminate.
  - (* P_fin_notify *)
    inversion Hstep; subst. constructor; finish.
  - (* P_fin_release *)
    inversion Hstep; subst. constructor; finish.
  - discriminate.
Qed.

Lemma w_inv_consumer_step st now pc self' :
  Inv st ->
  consumer_step total now (consumer_thread st) (self_ st) = Some (pc, self') ->
  Inv (mk_system self' (producer_thread st) pc).
Proof.
  destruct st as [[q s d c [ow ws] fin stt] p k]; intros H Hstep.
  destruct k; break_inv H; subst s c;
    rewrite ?andb_true_r, ?andb_false_r in *.
  - (* C_start *)
    destruct (Z.ltb_spec total 0); [|destruct (Z.eqb_spec total 0)];
      inversion Hstep; subst; constructor; finish.
  - (* C_while *)
    destruct (Z.ltb_spec consumed total);
      inversion Hstep; subst; constructor; finish.
  - (* C_acquire *)
    unfold Condition.acquire in Hstep; simpl in Hstep.
    destruct ow; [discriminate|]. inversion Hstep; subst.
    assert (p_holds p = false) by (destruct (p_holds p) eqn:Ek; solve_owner).
    constructor; finish.
  - (* C_empty *)
    destruct ((len q =? 0) && negb fin) eqn:E; inversion Hstep; subst.
    + apply andb_prop in E. destruct E as [E1 E2].
      apply Z.eqb_eq, len_zero_nil in E1. apply negb_true_iff in E2. subst.
      constructor; finish.
    + constructor; finish.
      apply andb_false_iff in E. destruct E as [E|E].
      * left. intros ->. discriminate.
      * right. now apply negb_false_iff in E.
  - (* C_waiting *)
    unfold Condition.wait_resume, Condition.acquire, Condition.is_waiting in Hstep;
      simpl in Hstep.
    destruct (existsb (tid_eqb Consumer) ws) eqn:Ew; [discriminate|].
    destruct ow; [discriminate|]. inversion Hstep; subst.
    assert (p_holds p = false) by (destruct (p_holds p) eqn:Ek; solve_owner).
    constructor; finish.
  - (* C_wait_end *)
    inversion Hstep; subst. constructor; finish.
  - (* C_break_test *)
    destruct ((len q =? 0) && fin) eqn:E; inversion Hstep; subst.
    + apply andb_prop in E. destruct E as [E1 E2].
      apply Z.eqb_eq, len_zero_nil in E1. subst.
      constructor; finish.
    + constructor; finish.
      apply andb_false_iff in E. destruct E as [E|E].
      * intros ->. discriminate.
      * destruct Hq; congruence.
  - (* C_pop *)
    destruct q as [|[v|] q]; [congruence| |].
    + inversion Hstep; subst.
      assert (p_uncounted p = 0) by (destruct p; simpl in *; auto; discriminate).
      constructor; finish.
    + exfalso. eapply nn_no_None. rewrite Hdata. reflexivity.
  - (* C_count *)
    inversion Hstep; subst. constructor; finish.
  - (* C_append *)
    inversion Hstep; subst. constructor; finish.
    now rewrite <- app_assoc.
  - (* C_notify *)
    inversion Hstep; subst. constructor; finish.
  - (* C_release *)
    inversion Hstep; subst. constructor; finish.
  - discriminate.
  - discriminate.
Qed.

Lemma w_inv_step st ev : Inv st -> Inv (step total st ev).
Proof.
  intros H. unfold step, step_opt. destruct ev as [[|] now]; simpl.
  - destruct (producer_step now (producer_thread st) (self_ st)) as [[pc self']|] eqn:E;
      [eapply w_inv_producer_step; eauto | exact H].
  - destruct (consumer_step total now (consumer_thread st) (self_ st)) as [[pc self']|] eqn:E;
      [eapply w_inv_consumer_step; eauto | exact H].
Qed.

Lemma w_inv_exec sched : forall st, Inv st -> Inv (exec total sched st).
Proof.
  unfold exec. induction sched as [|ev sched IH]; intros st H; simpl; auto using w_inv_step.
Qed.

Lemma w_inv_spawn self : ready self -> Inv (spawn self).
Proof.
  intros [? ? ? Hq Hk Hd Hp Hc Hm Hf].
  constructor; simpl; rewrite ?Hq, ?Hk, ?Hd, ?Hp, ?Hc, ?Hm, ?Hf; simpl;
    rewrite ?len_nil; auto; try reflexivity; lia.
Qed.

(** What a run in which both threads returned normally leaves behind. *)
Lemma w_inv_joined st :
  Inv st -> joined st = true -> role_failures st = [] ->
  len (nn src) <= total ->
  destination_container (self_ st) = nn src /\
  shared_queue (self_ st) = [] /\
  condition (self_ st) = Condition.new /\
  items_produced (stats (self_ st)) = len (nn src) /\
  items_consumed (stats (self_ st)) = len (nn src).
Proof.
  destruct st as [[q s d c [ow ws] fin stt] p k]; intros H Hj Hf Ht.
  destruct p; try discriminate. destruct k; try discriminate.
  break_inv H. rewrite firstn_all in *. unfold owner_of in Hown; simpl in Hown.
  assert (q = []) as ->.
  { destruct Hdone as [Hn|[_ ?]]; auto.
    apply len_zero_nil. rewrite Hdata, len_app in Ht. list_arith. }
  rewrite app_nil_r in Hdata. subst d ow.
  assert (ws = []) as ->.
  { destruct ws as [|[|] [|? ?]]; simpl in *; auto; try tauto;
      destruct Hws; discriminate. }
  repeat split; auto; list_arith.
Qed.

Lemma consumer_wait_park k ws :
  consumer_wait k (ws ++ [Producer]) = consumer_wait k ws.
Proof.
  destruct k; simpl; auto. rewrite existsb_app. simpl. now rewrite !orb_false_r.
Qed.

Lemma producer_wait_park p ws :
  producer_wait p (ws ++ [Consumer]) = producer_wait p ws.
Proof.
  destruct p; simpl; auto. rewrite existsb_app. simpl. now rewrite !orb_false_r.
Qed.

Lemma consumer_wait_notify k ws :
  (consumer_wait k (tl ws) <= consumer_wait k ws + 2)%nat.
Proof.
  destruct k; simpl; try lia.
  destruct (existsb _ (tl ws)), (existsb _ ws); lia.
Qed.

Lemma producer_wait_notify p ws :
  (producer_wait p (tl ws) <= producer_wait p ws + 2)%nat.
Proof.
  destruct p; simpl; try lia.
  destruct (existsb _ (tl ws)), (existsb _ ws); lia.
Qed.

Lemma w_step_decreases st ev st' :
  Inv st -> step_opt total ev st = Some st' ->
  (statements_left st' < statements_left st)%nat.
Proof.
  destruct st as [[q s d c [ow ws] fin stt] p k]; intros H.
  unfold step_opt, statements_left. destruct ev as [[|] now]; simpl.
  - destruct (producer_step _ _ _) as [[pc self']|] eqn:E; [|discriminate].
    intros Hs; inversion Hs; subst; clear Hs. simpl.
    pose proof (consumer_wait_park k ws) as Hpark.
    pose proof (consumer_wait_notify k ws) as Hnot.
    break_inv H; subst s c.
    destruct p; simpl in E.
    + destruct src; inversion E; subst; simpl; lia.
    + destruct (nth_error src i) as [[x|]|] eqn:En; inversion E; subst; simpl;
        try (assert (i < length src)%nat by (apply nth_error_Some; congruence));
        lia.
    + unfold Condition.acquire in E; simpl in E.
      destruct ow; inversion E; subst; simpl; lia.
    + destruct (len q =? cap); inversion E; subst; simpl; [|lia].
      rewrite Hpark, existsb_app. simpl. rewrite orb_true_r. lia.
    + unfold Condition.wait_resume, Condition.acquire, Condition.is_waiting in E;
        simpl in E.
      destruct (existsb (tid_eqb Producer) ws) eqn:Ew; [discriminate|].
      destruct ow; inversion E; subst; simpl; rewrite ?Ew; lia.
    + inversion E; subst; simpl; lia.
    + inversion E; subst; simpl; lia.
    + inversion E; subst; simpl; lia.
    + inversion E; subst; simpl; lia.
    + inversion E; subst; simpl; lia.
    + inversion E; subst; simpl; lia.
    + inversion E; subst; simpl; lia.
    + unfold Condition.acquire in E; simpl in E.
      destruct ow; inversion E; subst; simpl; lia.
    + inversion E; subst; simpl; lia.
    + inversion E; subst; simpl; lia.
    + inversion E; subst; simpl; lia.
    + discriminate.
  - destruct (consumer_step _ _ _ _) as [[pc self']|] eqn:E; [|discriminate].
    intros Hs; inversion Hs; subst; clear Hs. simpl.
    pose proof (producer_wait_park p ws) as Hpark.
    pose proof (producer_wait_notify p ws) as Hnot.
    break_inv H; subst s c.
    destruct k; simpl in E, Hloc.
    + destruct (Z.ltb_spec total 0); [|destruct (Z.eqb_spec total 0)];
        inversion E; subst; simpl; lia.
    + destruct (Z.ltb_spec consumed total); inversion E; subst; simpl; lia.
    + unfold Condition.acquire in E; simpl in E.
      destruct ow; inversion E; subst; simpl; lia.
    + destruct ((len q =? 0) && negb fin); inversion E; subst; simpl; [|lia].
      rewrite Hpark, existsb_app. simpl. rewrite orb_true_r. lia.
    + unfold Condition.wait_resume, Condition.acquire, Condition.is_waiting in E;
        simpl in E.
      destruct (existsb (tid_eqb Consumer) ws) eqn:Ew; [discriminate|].
      destruct ow; inversion E; subst; simpl; rewrite ?Ew; lia.
    + inversion E; subst; simpl; lia.
    + destruct ((len q =? 0) && fin); inversion E; subst; simpl; lia.
    + destruct q as [|[v|] q]; simpl in *; [congruence| |].
      * inversion E; subst; simpl; lia.
      * exfalso. eapply nn_no_None. rewrite Hdata. reflexivity.
    + inversion E; subst; simpl.
      replace (total - (consumed + 1)) with (total - consumed - 1) by lia. lia.
    + inversion E; subst; simpl; lia.
    + inversion E; subst; simpl; lia.
    + inversion E; subst; simpl; lia.
    + discriminate.
    + discriminate.
Qed.

Lemma producer_can_step p k self now :
  (exists r, producer_step now p self = Some r) ->
  exists ev st', step_opt total ev (mk_system self p k) = Some st'.
Proof.
  intros [[pc self'] E]. exists (Producer, now). unfold step_opt; simpl.
  rewrite E. eauto.
Qed.

Lemma consumer_can_step p k self now :
  (exists r, consumer_step total now k self = Some r) ->
  exists ev st', step_opt total ev (mk_system self p k) = Some st'.
Proof.
  intros [[pc self'] E]. exists (Consumer, now). unfold step_opt; simpl.
  rewrite E. eauto.
Qed.

(** A thread that holds the lock can always run its next statement. *)
Lemma holder_producer_steps p self now :
  p_holds p = true -> exists r, producer_step now p self = Some r.
Proof.
  destruct p; simpl; try discriminate; intros _; eauto.
  destruct (len (shared_queue self) =? capacity self); eauto.
Qed.

Lemma holder_consumer_steps k self now :
  c_holds k = true -> exists r, consumer_step total now k self = Some r.
Proof.
  destruct k; simpl; try discriminate; intros _; eauto.
  - destruct ((len (shared_queue self) =? 0) && negb (producer_finished self)); eauto.
  - destruct ((len (shared_queue self) =? 0) && producer_finished self); eauto.
  - destruct (shared_queue self) as [|[v|] q]; eauto.
Qed.

(** While a thread is still running, some thread can take a step: the
    protocol loses no wake-up. *)
Lemma w_progress st :
  Inv st -> len (nn src) <= total -> joined st = false ->
  exists ev st', step_opt total ev st = Some st'.
Proof.
  destruct st as [[q s d c [ow ws] fin stt] p k]; intros H Ht Hj.
  destruct (p_holds p) eqn:Ep.
  { apply producer_can_step with (now := 0%float). now apply holder_producer_steps. }
  destruct (c_holds k) eqn:Ek.
  { apply consumer_can_step with (now := 0%float). now apply holder_consumer_steps. }
  break_inv H; subst s c. unfold owner_of in Hown. rewrite Ep, Ek in Hown. subst ow.
  pose proof (len_nonneg (nn src)) as Hnn.
  assert (forall x, exists r : producer_pc * t, Some x = Some r) as Hsome by eauto.
  assert (forall x, exists r : consumer_pc * t, Some x = Some r) as Hsome' by eauto.
  destruct p; try discriminate;
    try (apply producer_can_step with (now := 0%float); simpl;
         try destruct src; try destruct (nth_error _ _) as [[?|]|]; eauto; fail).
  - (* producer parked in wait() *)
    destruct (existsb (tid_eqb Producer) ws) eqn:Ew.
    2:{ apply producer_can_step with (now := 0%float); simpl.
        unfold Condition.wait_resume, Condition.is_waiting, Condition.acquire; simpl.
        rewrite Ew. eauto. }
    destruct ws as [|[|] [|? ?]]; simpl in *; try tauto; try discriminate.
    destruct Hws as [_ Hw].
    pose proof (nn_firstn_lt _ _ Hitem) as Hlt.
    rewrite Hdata, !len_app in Hlt.
    destruct k; try discriminate; simpl in *;
      try (apply consumer_can_step with (now := 0%float); simpl;
           try destruct (total <? 0); try destruct (total =? 0);
           try destruct (_ <? total); eauto; fail).
    + specialize (Hw eq_refl). destruct Hdone as [Hn|[? _]]; [|congruence].
      list_arith.
    + lia.
  - (* producer returned *)
    destruct k; try discriminate; simpl in *;
      try (apply consumer_can_step with (now := 0%float); simpl;
           try destruct (total <? 0); try destruct (total =? 0);
           try destruct (_ <? total); eauto; fail).
    apply consumer_can_step with (now := 0%float); simpl.
    unfold Condition.wait_resume, Condition.is_waiting, Condition.acquire; simpl.
    destruct ws as [|[|] [|? ?]]; simpl in *; try tauto; eauto;
      destruct Hws as [? Hw]; try discriminate;
      destruct (Hw eq_refl); congruence.
Qed.

(** From every state of a run, some schedule lets both threads return. *)
Lemma w_completes n : forall st,
  (statements_left st <= n)%nat -> Inv st -> len (nn src) <= total ->
  exists sched, joined (exec total sched st) = true.
Proof.
  induction n as [|n IH]; intros st Hn H Ht;
    (destruct (joined st) eqn:Hj; [exists []; exact Hj|]);
    destruct (w_progress H Ht Hj) as (ev & st' & E);
    pose proof (w_step_decreases _ H E) as Hd.
  - lia.
  - destruct (IH st') as [sched Hs]; [lia | | assumption |].
    + replace st' with (step total st ev) by (unfold step; now rewrite E).
      now apply w_inv_step.
    + exists (ev :: sched). simpl. unfold exec in Hs.
      replace (step total st ev) with st' by (unfold step; now rewrite E).
      exact Hs.
Qed.

(** Bounds on the two counters at any moment of a run: both are updated
    under the lock that guards the queue. *)
Lemma w_balance st :
  Inv st ->
  0 <= items_produced (stats (self_ st)) - items_consumed (stats (self_ st))
    <= cap.
Proof.
  destruct st as [[q s d c [ow ws] fin stt] p k]; intros H.
  break_inv H. rewrite Hdata, !len_app in Hprod.
  pose proof (len_nonneg q). pose proof (len_nonneg d).
  assert (0 <= p_uncounted p) by (destruct p; simpl; lia).
  destruct k; simpl in *; rewrite ?len_cons, ?len_nil in *; lia.
Qed.

(** No statement of the consumer raises when it is asked for a count that
    is not negative. *)
Lemma w_no_failure st :
  Inv st -> 0 <= total -> role_failures st = [].
Proof.
  intros H Ht. unfold role_failures. pose proof (inv_local H) as Hl.
  destruct (consumer_thread st); simpl in *; auto. lia.
Qed.

End Run.

(** *** [run] *)

Lemma w_init_idle c self : __init__ c = inr self -> idle self /\ capacity self = c /\ 0 < c.
Proof.
  unfold __init__. destruct (Z.leb_spec c 0); intros E; inversion E; subst.
  repeat split; simpl; auto.
Qed.

Lemma w_run_begin_ready n t0 self self1 :
  idle self -> 0 < capacity self -> run_begin n t0 self = inr self1 ->
  0 <= n /\ ready (range1 n) (capacity self) self1.
Proof.
  intros [Hq Hk] Hc. unfold run_begin, initialize_source.
  destruct (Z.ltb_spec n 0); intros E; inversion E; subst.
  split; [assumption|]. constructor; simpl; auto.
Qed.

Lemma w_run_inv n t0 sched self self1 :
  idle self -> 0 < capacity self -> run_begin n t0 self = inr self1 ->
  0 <= n /\
  Inv (range1 n) (capacity self) n (exec n sched (spawn self1)).
Proof.
  intros Hi Hc E. destruct (@w_run_begin_ready n t0 self self1 Hi Hc E) as [Hn Hr].
  split; [assumption|]. apply w_inv_exec. now apply w_inv_spawn.
Qed.

(** What [run] returns with. *)
Lemma w_run_returned n t0 t1 sched self self' fs :
  idle self -> 0 < capacity self ->
  run n t0 t1 sched self = Returned self' fs ->
  fs = [] /\
  source_container self' = range1 n /\
  destination_container self' = range1 n /\
  items_produced (stats self') = n /\
  items_consumed (stats self') = n /\
  0 <= max_queue_size (stats self') <= capacity self' /\
  capacity self' = capacity self /\
  idle self'.
Proof.
  intros Hi Hc. unfold run.
  destruct (run_begin n t0 self) as [e|self1] eqn:E; [discriminate|].
  destruct (@w_run_inv n t0 sched self self1 Hi Hc E) as [Hn H].
  destruct (joined _) eqn:Hj; [|discriminate].
  intros R; inversion R; subst; clear R.
  pose proof (w_no_failure H Hn) as Hf.
  assert (len (nn (range1 n)) <= n) as Ht
    by (rewrite nn_range1, len_range1; auto; lia).
  destruct (w_inv_joined H Hj Hf Ht) as (Hd & Hq & Hk & Hp & Hcn).
  rewrite nn_range1 in *. rewrite len_range1 in * by assumption.
  pose proof (inv_src H). pose proof (inv_cap H). pose proof (inv_max H).
  repeat split; simpl; auto; try lia; congruence.
Qed.

Lemma w_run_can_return n t0 t1 sched self :
  idle self -> 0 < capacity self -> 0 <= n ->
  exists more self', run n t0 t1 (sched ++ more) self = Returned self' [].
Proof.
  intros Hi Hc Hn. unfold run.
  destruct (run_begin n t0 self) as [e|self1] eqn:E.
  { unfold run_begin, initialize_source in E.
    destruct (Z.ltb_spec n 0); [lia | discriminate]. }
  destruct (@w_run_inv n t0 sched self self1 Hi Hc E) as [_ H].
  assert (len (nn (range1 n)) <= n) as Ht
    by (rewrite nn_range1, len_range1; auto; lia).
  destruct (w_completes (le_n _) H Ht) as [more Hj].
  exists more. unfold exec in *. rewrite fold_left_app, Hj.
  eexists. f_equal.
  pose proof (w_inv_exec more H) as H'. unfold exec in H'.
  now apply (w_no_failure H').
Qed.

End WaitNotifyTheory.

(** * The claims *)

(** ** Arguments that are rejected *)

(** C5: both constructors raise [ValueError] on a capacity that is not
    positive, [initialize_source] raises it on a negative count, and
    [initialize_source_custom] raises it on [None]; the exception is the
    result the caller gets, no instance is built or changed. *)
Theorem invalid_arguments_raise
  (capacity item_count : Z)
  (q : ProducerConsumer.t) (w : ProducerConsumerWaitNotify.t) :
  capacity <= 0 -> item_count < 0 ->
  ProducerConsumer.__init__ capacity
    = inl (ValueError "Queue capacity must be greater than 0") /\
  ProducerConsumerWaitNotify.__init__ capacity
    = inl (ValueError "Queue capacity must be greater than 0") /\
  ProducerConsumer.initialize_source item_count q
    = inl (ValueError "Item count must be non-negative") /\
  ProducerConsumerWaitNotify.initialize_source item_count w
    = inl (ValueError "Item count must be non-negative") /\
  ProducerConsumer.initialize_source_custom None q
    = inl (ValueError "Items list cannot be None").
Proof.
  intros Hc Hn.
  unfold ProducerConsumer.__init__, ProducerConsumerWaitNotify.__init__,
    ProducerConsumer.initialize_source,
    ProducerConsumerWaitNotify.initialize_source.
  destruct (Z.leb_spec capacity 0); [|lia].
  destruct (Z.ltb_spec item_count 0); [|lia].
  repeat split.
Qed.

Lemma invalid_arguments_raise_witness :
  0 <= 0 /\ -1 < 0 /\
  ProducerConsumer.__init__ 0
    = inl (ValueError "Queue capacity must be greater than 0") /\
  ProducerConsumerWaitNotify.__init__ 0
    = inl (ValueError "Queue capacity must be greater than 0") /\
  ProducerConsumer.initialize_source (-1) (queue_instance 5)
    = inl (ValueError "Item count must be non-negative") /\
  ProducerConsumerWaitNotify.initialize_source (-1) (wait_notify_instance 5)
    = inl (ValueError "Item count must be non-negative") /\
  ProducerConsumer.initialize_source_custom None (queue_instance 5)
    = inl (ValueError "Items list cannot be None").
Proof.
  split; [lia|]. split; [lia|].
  apply (@invalid_arguments_raise 0 (-1) (queue_instance 5)
           (wait_notify_instance 5)); lia.
Defined.

(** C6: [run] with a negative count raises [ValueError] out of
    [initialize_source], its first statement: the outcome carries the
    instance exactly as it was passed in (destination and statistics
    included) and does not depend on the schedule, since no thread exists
    yet. *)
Theorem run_rejects_negative_count
  (item_count : Z) (t_start t_end : float) (sched_q sched_w : list event)
  (q : ProducerConsumer.t) (w : ProducerConsumerWaitNotify.t) :
  item_count < 0 ->
  ProducerConsumer.run item_count t_start t_end sched_q q
    = ProducerConsumer.Raised (ValueError "Item count must be non-negative") q /\
  ProducerConsumerWaitNotify.run item_count t_start t_end sched_w w
    = ProducerConsumerWaitNotify.Raised
        (ValueError "Item count must be non-negative") w.
Proof.
  intros Hn.
  unfold ProducerConsumer.run, ProducerConsumer.run_begin,
    ProducerConsumer.initialize_source,
    ProducerConsumerWaitNotify.run, ProducerConsumerWaitNotify.run_begin,
    ProducerConsumerWaitNotify.initialize_source.
  destruct (Z.ltb_spec item_count 0); [|lia].
  split; reflexivity.
Qed.

Lemma run_rejects_negative_count_witness :
  -1 < 0 /\
  ProducerConsumer.run (-1) 0%float 9%float (alternate 10) (queue_instance 5)
    = ProducerConsumer.Raised (ValueError "Item count must be non-negative")
        (queue_instance 5) /\
  ProducerConsumerWaitNotify.run (-1) 0%float 9%float (alternate 10)
      (wait_notify_instance 5)
    = ProducerConsumerWaitNotify.Raised
        (ValueError "Item count must be non-negative") (wait_notify_instance 5).
Proof.
  split; [lia|].
  apply (@run_rejects_negative_count (-1) 0%float 9%float (alternate 10)
           (alternate 10) (queue_instance 5) (wait_notify_instance 5)).
  lia.
Defined.

(** ** Resetting and reading an instance *)

(** C9: after [reset_statistics] every field of the statistics is zero and
    [get_destination_container] returns the empty list, whatever the
    instance held before; in both classes. *)
Theorem reset_statistics_clears
  (q : ProducerConsumer.t) (w : ProducerConsumerWaitNotify.t) :
  (items_produced (ProducerConsumer.stats (ProducerConsumer.reset_statistics q)) = 0 /\
   items_consumed (ProducerConsumer.stats (ProducerConsumer.reset_statistics q)) = 0 /\
   producer_wait_time (ProducerConsumer.stats (ProducerConsumer.reset_statistics q)) = 0%float /\
   consumer_wait_time (ProducerConsumer.stats (ProducerConsumer.reset_statistics q)) = 0%float /\
   max_queue_size (ProducerConsumer.stats (ProducerConsumer.reset_statistics q)) = 0 /\
   start_time (ProducerConsumer.stats (ProducerConsumer.reset_statistics q)) = 0%float /\
   end_time (ProducerConsumer.stats (ProducerConsumer.reset_statistics q)) = 0%float /\
   fst (ProducerConsumer.get_destination_container
          (ProducerConsumer.reset_statistics q)) = []) /\
  (items_produced (ProducerConsumerWaitNotify.stats
                     (ProducerConsumerWaitNotify.reset_statistics w)) = 0 /\
   items_consumed (ProducerConsumerWaitNotify.stats
                     (ProducerConsumerWaitNotify.reset_statistics w)) = 0 /\
   producer_wait_time (ProducerConsumerWaitNotify.stats
                         (ProducerConsumerWaitNotify.reset_statistics w)) = 0%float /\
   consumer_wait_time (ProducerConsumerWaitNotify.stats
                         (ProducerConsumerWaitNotify.reset_statistics w)) = 0%float /\
   max_queue_size (ProducerConsumerWaitNotify.stats
                     (ProducerConsumerWaitNotify.reset_statistics w)) = 0 /\
   start_time (ProducerConsumerWaitNotify.stats
                 (ProducerConsumerWaitNotify.reset_statistics w)) = 0%float /\
   end_time (ProducerConsumerWaitNotify.stats
               (ProducerConsumerWaitNotify.reset_statistics w)) = 0%float /\
   fst (ProducerConsumerWaitNotify.get_destination_container
          (ProducerConsumerWaitNotify.reset_statistics w)) = []).
Proof. repeat split. Qed.

(** C10: [reset_statistics] leaves the source, the capacity and the buffer
    (and, in the wait/notify class, the condition) as they were, so it
    changes nothing but the statistics, the finished flag and the
    destination; the two getters return the instance unchanged. *)
Theorem reset_and_getters_frame
  (q : ProducerConsumer.t) (w : ProducerConsumerWaitNotify.t) :
  (ProducerConsumer.source_container (ProducerConsumer.reset_statistics q)
     = ProducerConsumer.source_container q /\
   ProducerConsumer.capacity (ProducerConsumer.reset_statistics q)
     = ProducerConsumer.capacity q /\
   ProducerConsumer.shared_queue (ProducerConsumer.reset_statistics q)
     = ProducerConsumer.shared_queue q /\
   snd (ProducerConsumer.get_source_container q) = q /\
   snd (ProducerConsumer.get_destination_container q) = q) /\
  (ProducerConsumerWaitNotify.source_container
     (ProducerConsumerWaitNotify.reset_statistics w)
     = ProducerConsumerWaitNotify.source_container w /\
   ProducerConsumerWaitNotify.capacity
     (ProducerConsumerWaitNotify.reset_statistics w)
     = ProducerConsumerWaitNotify.capacity w /\
   ProducerConsumerWaitNotify.shared_queue
     (ProducerConsumerWaitNotify.reset_statistics w)
     = ProducerConsumerWaitNotify.shared_queue w /\
   ProducerConsumerWaitNotify.condition
     (ProducerConsumerWaitNotify.reset_statistics w)
     = ProducerConsumerWaitNotify.condition w /\
   snd (ProducerConsumerWaitNotify.get_source_container w) = w /\
   snd (ProducerConsumerWaitNotify.get_destination_container w) = w).
Proof. repeat split. Qed.

(** ** Runs *)

(** C1: on an instance with a positive capacity that is between runs (as
    built by the constructor or left by an earlier run), and for a count that
    is not negative, whenever [run] returns with no role failure the source
    and the destination getters give the same list, namely 1..item_count in
    order; for every schedule, in both classes. *)
Theorem run_copies_source_to_destination
  (item_count : Z) (t_start t_end : float) (sched_q sched_w : list event)
  (q q' : ProducerConsumer.t) (w w' : ProducerConsumerWaitNotify.t) :
  ProducerConsumer.idle q -> 0 < ProducerConsumer.capacity q ->
  ProducerConsumerWaitNotify.idle w -> 0 < ProducerConsumerWaitNotify.capacity w ->
  0 <= item_count ->
  (ProducerConsumer.run item_count t_start t_end sched_q q
     = ProducerConsumer.Returned q' [] ->
   fst (ProducerConsumer.get_source_container q')
     = fst (ProducerConsumer.get_destination_container q') /\
   fst (ProducerConsumer.get_destination_container q') = range1 item_count) /\
  (ProducerConsumerWaitNotify.run item_count t_start t_end sched_w w
     = ProducerConsumerWaitNotify.Returned w' [] ->
   fst (ProducerConsumerWaitNotify.get_source_container w')
     = fst (ProducerConsumerWaitNotify.get_destination_container w') /\
   fst (ProducerConsumerWaitNotify.get_destination_container w')
     = range1 item_count).
Proof.
  intros Hq Hqc Hw Hwc _. split; intros R.
  - destruct (ProducerConsumerTheory.q_run_returned _ _ _ _ Hq Hqc R)
      as (_ & Hs & Hd & _).
    simpl. split; congruence.
  - destruct (WaitNotifyTheory.w_run_returned _ _ _ _ Hw Hwc R)
      as (_ & Hs & Hd & _).
    simpl. split; congruence.
Qed.

Lemma run_copies_source_to_destination_witness :
  exists q' w',
    ProducerConsumer.run 3 0%float 9%float (alternate 40) (queue_instance 2)
      = ProducerConsumer.Returned q' [] /\
    ProducerConsumerWaitNotify.run 3 0%float 9%float (alternate 60)
        (wait_notify_instance 2)
      = ProducerConsumerWaitNotify.Returned w' [] /\
    fst (ProducerConsumer.get_destination_container q')
      = [Some 1; Some 2; Some 3] /\
    fst (ProducerConsumerWaitNotify.get_destination_container w')
      = [Some 1; Some 2; Some 3].
Proof.
  eexists. eexists.
  split; [vm_compute; reflexivity|]. split; [vm_compute; reflexivity|].
  match goal with
  | |- fst (ProducerConsumer.get_destination_container ?a) = _ /\
       fst (ProducerConsumerWaitNotify.get_destination_container ?b) = _ =>
      destruct (@run_copies_source_to_destination 3 0%float 9%float
                  (alternate 40) (alternate 60)
                  (queue_instance 2) a (wait_notify_instance 2) b)
        as [Hq Hw]
  end.
  - constructor; reflexivity.
  - reflexivity.
  - constructor; reflexivity.
  - reflexivity.
  - lia.
  - split.
    + apply Hq. vm_compute. reflexivity.
    + apply Hw. vm_compute. reflexivity.
Defined.

(** C2: the two classes are interchangeable.  Started between runs with
    positive capacities (not necessarily the same one) and the same count,
    under any two schedules and clocks, the runs that return leave equal
    destinations, equal [items_produced], equal [items_consumed], and the
    same (empty) list of role failures. *)
Theorem implementations_agree
  (item_count : Z) (tq_start tq_end tw_start tw_end : float)
  (sched_q sched_w : list event)
  (q q' : ProducerConsumer.t) (w w' : ProducerConsumerWaitNotify.t)
  (fq fw : list exn) :
  ProducerConsumer.idle q -> 0 < ProducerConsumer.capacity q ->
  ProducerConsumerWaitNotify.idle w -> 0 < ProducerConsumerWaitNotify.capacity w ->
  0 <= item_count ->
  ProducerConsumer.run item_count tq_start tq_end sched_q q
    = ProducerConsumer.Returned q' fq ->
  ProducerConsumerWaitNotify.run item_count tw_start tw_end sched_w w
    = ProducerConsumerWaitNotify.Returned w' fw ->
  fst (ProducerConsumer.get_destination_container q')
    = fst (ProducerConsumerWaitNotify.get_destination_container w') /\
  items_produced (ProducerConsumer.stats q')
    = items_produced (ProducerConsumerWaitNotify.stats w') /\
  items_consumed (ProducerConsumer.stats q')
    = items_consumed (ProducerConsumerWaitNotify.stats w') /\
  fq = fw.
Proof.
  intros Hq Hqc Hw Hwc _ Rq Rw.
  destruct (ProducerConsumerTheory.q_run_returned _ _ _ _ Hq Hqc Rq)
    as (Hqf & _ & Hqd & Hqp & Hqk & _).
  destruct (WaitNotifyTheory.w_run_returned _ _ _ _ Hw Hwc Rw)
    as (Hwf & _ & Hwd & Hwp & Hwk & _).
  simpl. repeat split; congruence.
Qed.

Lemma implementations_agree_witness :
  exists q' w',
    ProducerConsumer.run 4 0%float 9%float (alternate 50) (queue_instance 1)
      = ProducerConsumer.Returned q' [] /\
    ProducerConsumerWaitNotify.run 4 1%float 8%float
        (turns Producer 30 ++ alternate 60) (wait_notify_instance 3)
      = ProducerConsumerWaitNotify.Returned w' [] /\
    fst (ProducerConsumer.get_destination_container q')
      = fst (ProducerConsumerWaitNotify.get_destination_container w') /\
    items_produced (ProducerConsumer.stats q')
      = items_produced (ProducerConsumerWaitNotify.stats w') /\
    items_consumed (ProducerConsumer.stats q')
      = items_consumed (ProducerConsumerWaitNotify.stats w') /\
    @nil exn = [].
Proof.
  eexists. eexists.
  split; [vm_compute; reflexivity|]. split; [vm_compute; reflexivity|].
  eapply (@implementations_agree 4 0%float 9%float 1%float 8%float
            (alternate 50) (turns Producer 30 ++ alternate 60)
            (queue_instance 1) _ (wait_notify_instance 3)).
  - constructor; reflexivity.
  - reflexivity.
  - constructor; reflexivity.
  - reflexivity.
  - lia.
  - vm_compute. reflexivity.
  - vm_compute. reflexivity.
Defined.

(** C7: when [run] returns, the recorded [max_queue_size] is at most the
    capacity the instance was built with; for every schedule, in both
    classes. *)
Theorem high_water_mark_within_capacity
  (item_count : Z) (t_start t_end : float) (sched_q sched_w : list event)
  (q q' : ProducerConsumer.t) (w w' : ProducerConsumerWaitNotify.t)
  (fq fw : list exn) :
  ProducerConsumer.idle q -> 0 < ProducerConsumer.capacity q ->
  ProducerConsumerWaitNotify.idle w -> 0 < ProducerConsumerWaitNotify.capacity w ->
  (ProducerConsumer.run item_count t_start t_end sched_q q
     = ProducerConsumer.Returned q' fq ->
   max_queue_size (ProducerConsumer.stats q') <= ProducerConsumer.capacity q' /\
   ProducerConsumer.capacity q' = ProducerConsumer.capacity q) /\
  (ProducerConsumerWaitNotify.run item_count t_start t_end sched_w w
     = ProducerConsumerWaitNotify.Returned w' fw ->
   max_queue_size (ProducerConsumerWaitNotify.stats w')
     <= ProducerConsumerWaitNotify.capacity w' /\
   ProducerConsumerWaitNotify.capacity w' = ProducerConsumerWaitNotify.capacity w).
Proof.
  intros Hq Hqc Hw Hwc. split; intros R.
  - destruct (ProducerConsumerTheory.q_run_returned _ _ _ _ Hq Hqc R)
      as (_ & _ & _ & _ & _ & Hm & Hc & _).
    split; [lia | assumption].
  - destruct (WaitNotifyTheory.w_run_returned _ _ _ _ Hw Hwc R)
      as (_ & _ & _ & _ & _ & Hm & Hc & _).
    split; [lia | assumption].
Qed.

Lemma high_water_mark_within_capacity_witness :
  exists q' w',
    ProducerConsumer.run 5 0%float 9%float
        (turns Producer 40 ++ alternate 60) (queue_instance 2)
      = ProducerConsumer.Returned q' [] /\
    ProducerConsumerWaitNotify.run 5 0%float 9%float
        (turns Producer 40 ++ alternate 90) (wait_notify_instance 2)
      = ProducerConsumerWaitNotify.Returned w' [] /\
    max_queue_size (ProducerConsumer.stats q') <= 2 /\
    max_queue_size (ProducerConsumerWaitNotify.stats w') <= 2.
Proof.
  eexists. eexists.
  split; [vm_compute; reflexivity|]. split; [vm_compute; reflexivity|].
  match goal with
  | |- max_queue_size (ProducerConsumer.stats ?a) <= _ /\
       max_queue_size (ProducerConsumerWaitNotify.stats ?b) <= _ =>
      destruct (@high_water_mark_within_capacity 5 0%float 9%float
                  (turns Producer 40 ++ alternate 60)
                  (turns Producer 40 ++ alternate 90)
                  (queue_instance 2) a (wait_notify_instance 2) b [] [])
        as [Hq Hw]
  end.
  - constructor; reflexivity.
  - reflexivity.
  - constructor; reflexivity.
  - reflexivity.
  - split.
    + apply Hq. vm_compute. reflexivity.
    + apply Hw. vm_compute. reflexivity.
Defined.

(** ** The two counters during a run *)

(** C4, as stated, fails for the queue-based class.  With capacity 1 and two
    items, the producer can put and count item 1, the consumer take it out
    of the queue without having counted it yet, and the producer put and
    count item 2: [items_produced - items_consumed] is then 2.  The other
    way round, the consumer can take and count item 1 before the producer
    has counted it: the difference is then -1. *)
Lemma queue_counters_leave_the_band :
  ProducerConsumer.__init__ 1 = inr (queue_instance 1) /\
  exists start,
    ProducerConsumer.run_begin 2 0%float (queue_instance 1) = inr start /\
    (let st := ProducerConsumer.exec 2
                 (turns Producer 8 ++ turns Consumer 3 ++ turns Producer 5)
                 (ProducerConsumer.spawn start) in
     items_produced (ProducerConsumer.stats (ProducerConsumer.self_ st))
     - items_consumed (ProducerConsumer.stats (ProducerConsumer.self_ st)) = 2 /\
     ProducerConsumer.capacity (ProducerConsumer.self_ st) = 1) /\
    (let st := ProducerConsumer.exec 2
                 (turns Producer 3 ++ turns Consumer 6)
                 (ProducerConsumer.spawn start) in
     items_produced (ProducerConsumer.stats (ProducerConsumer.self_ st))
     - items_consumed (ProducerConsumer.stats (ProducerConsumer.self_ st)) = -1).
Proof.
  split; [reflexivity|]. eexists.
  split; [vm_compute; reflexivity|].
  split; vm_compute; repeat split.
Qed.

(** C4, amended.  At every moment of a run (after any schedule prefix):
    in the wait/notify class [0 <= items_produced - items_consumed <=
    capacity]; in the queue-based class, whose counters are updated after
    [put] and [get] have returned, [-1 <= items_produced - items_consumed <=
    capacity + 1].  In both classes, once both threads have returned, the
    two counters equal the item count. *)
Theorem counters_stay_near_occupancy
  (item_count : Z) (tq_start tw_start : float) (sched_q sched_w : list event)
  (q q1 : ProducerConsumer.t) (w w1 : ProducerConsumerWaitNotify.t) :
  ProducerConsumer.idle q -> 0 < ProducerConsumer.capacity q ->
  ProducerConsumerWaitNotify.idle w -> 0 < ProducerConsumerWaitNotify.capacity w ->
  ProducerConsumer.run_begin item_count tq_start q = inr q1 ->
  ProducerConsumerWaitNotify.run_begin item_count tw_start w = inr w1 ->
  (let st := ProducerConsumer.exec item_count sched_q (ProducerConsumer.spawn q1) in
   let s := ProducerConsumer.stats (ProducerConsumer.self_ st) in
   -1 <= items_produced s - items_consumed s <= ProducerConsumer.capacity q + 1 /\
   (ProducerConsumer.joined st = true ->
    items_produced s = item_count /\ items_consumed s = item_count)) /\
  (let st := ProducerConsumerWaitNotify.exec item_count sched_w
               (ProducerConsumerWaitNotify.spawn w1) in
   let s := ProducerConsumerWaitNotify.stats (ProducerConsumerWaitNotify.self_ st) in
   0 <= items_produced s - items_consumed s <= ProducerConsumerWaitNotify.capacity w /\
   (ProducerConsumerWaitNotify.joined st = true ->
    items_produced s = item_count /\ items_consumed s = item_count)).
Proof.
  intros Hq Hqc Hw Hwc Eq Ew. split; cbv zeta.
  - destruct (@ProducerConsumerTheory.q_run_inv item_count tq_start sched_q q q1
                Hq Hqc Eq) as [Hn H].
    split; [exact (ProducerConsumerTheory.q_balance H)|].
    intros Hj.
    assert (ProducerConsumer.role_failures
              (ProducerConsumer.exec item_count sched_q (ProducerConsumer.spawn q1))
            = []) as Hf.
    { unfold ProducerConsumer.role_failures.
      pose proof (ProducerConsumer.inv_local H) as Hl.
      destruct (ProducerConsumer.consumer_thread _); simpl in *; auto. lia. }
    assert (item_count = len (nn (range1 item_count))) as Ht
      by (rewrite nn_range1, len_range1; auto).
    destruct (ProducerConsumerTheory.q_inv_joined H Hj Hf Ht)
      as (_ & _ & _ & Hp & Hk).
    split; assumption.
  - destruct (@WaitNotifyTheory.w_run_inv item_count tw_start sched_w w w1
                Hw Hwc Ew) as [Hn H].
    split; [exact (WaitNotifyTheory.w_balance H)|].
    intros Hj.
    pose proof (WaitNotifyTheory.w_no_failure H Hn) as Hf.
    assert (len (nn (range1 item_count)) <= item_count) as Ht
      by (rewrite nn_range1, len_range1; auto; lia).
    destruct (WaitNotifyTheory.w_inv_joined H Hj Hf Ht)
      as (_ & _ & _ & Hp & Hk).
    rewrite nn_range1, len_range1 in Hp, Hk by assumption.
    split; assumption.
Qed.

Lemma counters_stay_near_occupancy_witness :
  exists q1 w1,
    ProducerConsumer.run_begin 2 0%float (queue_instance 1) = inr q1 /\
    ProducerConsumerWaitNotify.run_begin 2 0%float (wait_notify_instance 1)
      = inr w1 /\
    (let st := ProducerConsumer.exec 2
                 (turns Producer 8 ++ turns Consumer 3 ++ turns Producer 5)
                 (ProducerConsumer.spawn q1) in
     let s := ProducerConsumer.stats (ProducerConsumer.self_ st) in
     -1 <= items_produced s - items_consumed s <= 1 + 1) /\
    (let st := ProducerConsumerWaitNotify.exec 2 (alternate 60)
                 (ProducerConsumerWaitNotify.spawn w1) in
     let s := ProducerConsumerWaitNotify.stats
                (ProducerConsumerWaitNotify.self_ st) in
     0 <= items_produced s - items_consumed s <= 1 /\
     ProducerConsumerWaitNotify.joined st = true /\
     items_produced s = 2 /\ items_consumed s = 2).
Proof.
  eexists. eexists.
  split; [vm_compute; reflexivity|]. split; [vm_compute; reflexivity|].
  match goal with
  | |- context [ProducerConsumer.spawn ?a] =>
      match goal with
      | |- context [ProducerConsumerWaitNotify.spawn ?b] =>
          destruct (@counters_stay_near_occupancy 2 0%float 0%float
                      (turns Producer 8 ++ turns Consumer 3 ++ turns Producer 5)
                      (alternate 60) (queue_instance 1) a
                      (wait_notify_instance 1) b)
            as [[Hq _] [Hw Hj]]
      end
  end.
  - constructor; reflexivity.
  - reflexivity.
  - constructor; reflexivity.
  - reflexivity.
  - vm_compute. reflexivity.
  - vm_compute. reflexivity.
  - split; [exact Hq|]. split; [exact Hw|].
    split; [vm_compute; reflexivity|]. apply Hj. vm_compute. reflexivity.
Defined.

(** ** A consumer asked for more than is produced *)

(** X18. The wait/notify consumer breaks out of its loop. For any source and
    any target count above the number of items that are not [None]: whatever
    the schedule so far, some continuation lets both threads return, and
    whenever both have returned the consumer is at its normal exit with
    exactly the produced items consumed, fewer than it was asked for. *)
Theorem wait_notify_consumer_breaks_early
  (src : list item) (cap total : Z) (self : ProducerConsumerWaitNotify.t)
  (sched : list event) :
  ProducerConsumerWaitNotify.ready src cap self ->
  len (nn src) < total ->
  (exists more,
     ProducerConsumerWaitNotify.joined
       (ProducerConsumerWaitNotify.exec total (sched ++ more)
          (ProducerConsumerWaitNotify.spawn self)) = true) /\
  (let st := ProducerConsumerWaitNotify.exec total sched
               (ProducerConsumerWaitNotify.spawn self) in
   ProducerConsumerWaitNotify.joined st = true ->
   ProducerConsumerWaitNotify.consumer_thread st
     = ProducerConsumerWaitNotify.C_done /\
   ProducerConsumerWaitNotify.destination_container
     (ProducerConsumerWaitNotify.self_ st) = nn src /\
   items_consumed (ProducerConsumerWaitNotify.stats
                     (ProducerConsumerWaitNotify.self_ st)) = len (nn src)).
Proof.
  intros Hr Ht.
  pose proof (len_nonneg (nn src)) as Hnn.
  pose proof (WaitNotifyTheory.w_inv_exec sched
                (WaitNotifyTheory.w_inv_spawn total Hr)) as H.
  split.
  - destruct (WaitNotifyTheory.w_completes (le_n _) H) as [more Hj]; [lia|].
    exists more. unfold ProducerConsumerWaitNotify.exec in *.
    now rewrite fold_left_app.
  - cbv zeta. intros Hj.
    assert (0 <= total) as H0 by lia.
    pose proof (WaitNotifyTheory.w_no_failure H H0) as Hf.
    destruct (WaitNotifyTheory.w_inv_joined H Hj Hf)
      as (Hd & _ & _ & _ & Hk); [lia|].
    repeat split; auto.
    unfold ProducerConsumerWaitNotify.joined,
      ProducerConsumerWaitNotify.role_failures in *.
    apply andb_prop in Hj. destruct Hj as [_ Hj].
    destruct (ProducerConsumerWaitNotify.consumer_thread _);
      try discriminate; reflexivity.
Qed.

Lemma wait_notify_consumer_breaks_early_witness :
  (exists more,
     ProducerConsumerWaitNotify.joined
       (ProducerConsumerWaitNotify.exec 3 (alternate 5 ++ more)
          (ProducerConsumerWaitNotify.spawn
             (ProducerConsumerWaitNotify.mk [] [Some 7; None] [] 1
                Condition.new false Statistics_new))) = true) /\
  (let st := ProducerConsumerWaitNotify.exec 3 (alternate 5)
               (ProducerConsumerWaitNotify.spawn
                  (ProducerConsumerWaitNotify.mk [] [Some 7; None] [] 1
                     Condition.new false Statistics_new)) in
   ProducerConsumerWaitNotify.joined st = true ->
   ProducerConsumerWaitNotify.consumer_thread st
     = ProducerConsumerWaitNotify.C_done /\
   ProducerConsumerWaitNotify.destination_container
     (ProducerConsumerWaitNotify.self_ st) = [Some 7] /\
   items_consumed (ProducerConsumerWaitNotify.stats
                     (ProducerConsumerWaitNotify.self_ st)) = 1).
Proof.
  apply (@wait_notify_consumer_breaks_early [Some 7; None] 1 3
           (ProducerConsumerWaitNotify.mk [] [Some 7; None] [] 1
              Condition.new false Statistics_new) (alternate 5)).
  - constructor; simpl; auto; lia.
  - vm_compute. reflexivity.
Defined.

(** C3 fails for the queue-based class.  [ProducerConsumer(5)] with the
    empty source of [initialize_source(0)], [producer()] and [consumer(1)]:
    the producer returns after setting [_producer_finished], which nothing
    reads; the consumer is inside [shared_queue.get()] on an empty queue and
    no thread can take a step; and under no schedule do both threads
    return. *)
Theorem queue_consumer_blocks_forever :
  ProducerConsumer.initialize_source 0 (queue_instance 5) = inr (queue_instance 5) /\
  (let st := ProducerConsumer.exec 1 (turns Producer 2 ++ turns Consumer 2)
               (ProducerConsumer.spawn (queue_instance 5)) in
   ProducerConsumer.producer_thread st = ProducerConsumer.P_done /\
   ProducerConsumer._producer_finished (ProducerConsumer.self_ st) = true /\
   ProducerConsumer.consumer_thread st = ProducerConsumer.C_get 0 0%float /\
   Queue.queue (ProducerConsumer.shared_queue (ProducerConsumer.self_ st)) = [] /\
   ProducerConsumer.stuck 1 st) /\
  (forall sched,
     ProducerConsumer.joined
       (ProducerConsumer.exec 1 sched (ProducerConsumer.spawn (queue_instance 5)))
     = false).
Proof.
  split; [reflexivity|]. split.
  - cbv zeta. repeat split. intros [[|] now]; reflexivity.
  - intros sched.
    assert (ProducerConsumer.ready [] 5 (queue_instance 5)) as Hr
      by (constructor; simpl; auto; lia).
    pose proof (ProducerConsumerTheory.q_inv_exec sched
                  (ProducerConsumerTheory.q_inv_spawn 1 Hr)) as H.
    unfold ProducerConsumer.joined.
    rewrite (ProducerConsumerTheory.q_starved H); [apply andb_false_r|].
    vm_compute. reflexivity.
Qed.

(** X17.  The same for every source: in the queue-based class a consumer asked
    for more items than the source holds never returns, under any
    schedule. *)
Theorem queue_consumer_never_returns
  (src : list item) (cap total : Z) (self : ProducerConsumer.t)
  (sched : list event) :
  ProducerConsumer.ready src cap self ->
  len (nn src) < total ->
  ProducerConsumer.joined
    (ProducerConsumer.exec total sched (ProducerConsumer.spawn self)) = false.
Proof.
  intros Hr Ht.
  pose proof (ProducerConsumerTheory.q_inv_exec sched
                (ProducerConsumerTheory.q_inv_spawn total Hr)) as H.
  unfold ProducerConsumer.joined.
  rewrite (ProducerConsumerTheory.q_starved H Ht). apply andb_false_r.
Qed.

(** ** Sentinels *)

(** C8.  Producer, both classes: on a [None] item the loop moves to the next
    position and the instance is unchanged, so nothing is put, counted or
    timed, and nothing is raised.  Consumer: a [None] at the head of the
    buffer is removed and the loop comes back to its test with the same
    local count, the same [items_consumed] and the same destination (in the
    queue-based class over three statements: [get], the wait-time update
    and [task_done]; in the wait/notify class in the single [pop(0)]
    statement, which leaves the statistics untouched).  Over a whole run,
    for any source: when both threads have returned, [items_produced] and
    [items_consumed] count the items that are not [None], and the
    destination holds exactly those, in order. *)
Theorem sentinel_items_are_skipped :
  (forall (self : ProducerConsumer.t) i now,
     nth_error (ProducerConsumer.source_container self) i = Some None ->
     ProducerConsumer.producer_step now (ProducerConsumer.P_for i) self
       = Some (ProducerConsumer.P_for (S i), self)) /\
  (forall (self : ProducerConsumerWaitNotify.t) i now,
     nth_error (ProducerConsumerWaitNotify.source_container self) i = Some None ->
     ProducerConsumerWaitNotify.producer_step now
       (ProducerConsumerWaitNotify.P_for i) self
       = Some (ProducerConsumerWaitNotify.P_for (S i), self)) /\
  (forall (self : ProducerConsumer.t) p total consumed t0 t1 t2 t3 rest,
     Queue.queue (ProducerConsumer.shared_queue self) = None :: rest ->
     0 < Queue.unfinished_tasks (ProducerConsumer.shared_queue self) ->
     let st := ProducerConsumer.exec total
                 [(Consumer, t1); (Consumer, t2); (Consumer, t3)]
                 (ProducerConsumer.mk_system self p
                    (ProducerConsumer.C_get consumed t0)) in
     ProducerConsumer.consumer_thread st = ProducerConsumer.C_while consumed /\
     Queue.queue (ProducerConsumer.shared_queue (ProducerConsumer.self_ st)) = rest /\
     items_consumed (ProducerConsumer.stats (ProducerConsumer.self_ st))
       = items_consumed (ProducerConsumer.stats self) /\
     ProducerConsumer.destination_container (ProducerConsumer.self_ st)
       = ProducerConsumer.destination_container self) /\
  (forall (self : ProducerConsumerWaitNotify.t) total consumed now rest,
     ProducerConsumerWaitNotify.shared_queue self = None :: rest ->
     exists self',
       ProducerConsumerWaitNotify.consumer_step total now
         (ProducerConsumerWaitNotify.C_pop consumed) self
         = Some (ProducerConsumerWaitNotify.C_while consumed, self') /\
       ProducerConsumerWaitNotify.shared_queue self' = rest /\
       ProducerConsumerWaitNotify.stats self' = ProducerConsumerWaitNotify.stats self /\
       ProducerConsumerWaitNotify.destination_container self'
         = ProducerConsumerWaitNotify.destination_container self) /\
  (forall src cap (self : ProducerConsumer.t) sched,
     ProducerConsumer.ready src cap self ->
     let st := ProducerConsumer.exec (len (nn src)) sched
                 (ProducerConsumer.spawn self) in
     ProducerConsumer.joined st = true ->
     ProducerConsumer.role_failures st = [] /\
     items_produced (ProducerConsumer.stats (ProducerConsumer.self_ st))
       = len (nn src) /\
     items_consumed (ProducerConsumer.stats (ProducerConsumer.self_ st))
       = len (nn src) /\
     ProducerConsumer.destination_container (ProducerConsumer.self_ st) = nn src) /\
  (forall src cap (self : ProducerConsumerWaitNotify.t) sched,
     ProducerConsumerWaitNotify.ready src cap self ->
     let st := ProducerConsumerWaitNotify.exec (len (nn src)) sched
                 (ProducerConsumerWaitNotify.spawn self) in
     ProducerConsumerWaitNotify.joined st = true ->
     ProducerConsumerWaitNotify.role_failures st = [] /\
     items_produced (ProducerConsumerWaitNotify.stats
                       (ProducerConsumerWaitNotify.self_ st)) = len (nn src) /\
     items_consumed (ProducerConsumerWaitNotify.stats
                       (ProducerConsumerWaitNotify.self_ st)) = len (nn src) /\
     ProducerConsumerWaitNotify.destination_container
       (ProducerConsumerWaitNotify.self_ st) = nn src).
Proof.
  repeat apply conj.
  - intros self i now H. simpl. now rewrite H.
  - intros self i now H. simpl. now rewrite H.
  - intros [[ms q unf] s d c stt fin] p total consumed t0 t1 t2 t3 rest Hq Hu.
    simpl in Hq, Hu. subst q. cbv zeta.
    unfold ProducerConsumer.exec, ProducerConsumer.step,
      ProducerConsumer.step_opt. simpl.
    unfold Queue.task_done. simpl.
    destruct (Z.ltb_spec (unf - 1) 0); [lia|]. simpl. repeat split.
  - intros [q s d c k fin stt] total consumed now rest Hq.
    simpl in Hq. subst q. eexists. simpl. repeat split.
  - intros src cap self sched Hr st Hj. subst st.
    pose proof (ProducerConsumerTheory.q_inv_exec sched
                  (ProducerConsumerTheory.q_inv_spawn (len (nn src)) Hr)) as H.
    assert (ProducerConsumer.role_failures
              (ProducerConsumer.exec (len (nn src)) sched
                 (ProducerConsumer.spawn self)) = []) as Hf.
    { unfold ProducerConsumer.role_failures.
      pose proof (ProducerConsumer.inv_local H) as Hl.
      pose proof (len_nonneg (nn src)).
      destruct (ProducerConsumer.consumer_thread _); simpl in *; auto. lia. }
    destruct (ProducerConsumerTheory.q_inv_joined H Hj Hf eq_refl)
      as (Hd & _ & _ & Hp & Hk).
    repeat split; assumption.
  - intros src cap self sched Hr st Hj. subst st.
    pose proof (WaitNotifyTheory.w_inv_exec sched
                  (WaitNotifyTheory.w_inv_spawn (len (nn src)) Hr)) as H.
    pose proof (WaitNotifyTheory.w_no_failure H (len_nonneg (nn src))) as Hf.
    destruct (WaitNotifyTheory.w_inv_joined H Hj Hf (Z.le_refl _))
      as (Hd & _ & _ & Hp & Hk).
    repeat split; assumption.
Qed.

Lemma sentinel_items_are_skipped_witness :
  ProducerConsumer.producer_step 0%float (ProducerConsumer.P_for 1)
    (ProducerConsumer.mk (Queue.new 2) [Some 4; None; Some 6] [] 2
       Statistics_new false)
  = Some (ProducerConsumer.P_for 2,
          ProducerConsumer.mk (Queue.new 2) [Some 4; None; Some 6] [] 2
            Statistics_new false) /\
  (let st := ProducerConsumer.exec 3
               [(Consumer, 1%float); (Consumer, 2%float); (Consumer, 3%float)]
               (ProducerConsumer.mk_system
                  (ProducerConsumer.mk (Queue.mk 2 [None; Some 6] 2)
                     [Some 4; None; Some 6] [Some 4] 2
                     (incr_consumed (incr_produced Statistics_new)) false)
                  (ProducerConsumer.P_for 3)
                  (ProducerConsumer.C_get 1 0%float)) in
   ProducerConsumer.consumer_thread st = ProducerConsumer.C_while 1 /\
   Queue.queue (ProducerConsumer.shared_queue (ProducerConsumer.self_ st))
     = [Some 6] /\
   items_consumed (ProducerConsumer.stats (ProducerConsumer.self_ st)) = 1 /\
   ProducerConsumer.destination_container (ProducerConsumer.self_ st)
     = [Some 4]) /\
  (let st := ProducerConsumerWaitNotify.exec 2 (alternate 60)
               (ProducerConsumerWaitNotify.spawn
                  (ProducerConsumerWaitNotify.mk [] [Some 4; None; Some 6] [] 1
                     Condition.new false Statistics_new)) in
   ProducerConsumerWaitNotify.joined st = true /\
   ProducerConsumerWaitNotify.role_failures st = [] /\
   items_produced (ProducerConsumerWaitNotify.stats
                     (ProducerConsumerWaitNotify.self_ st)) = 2 /\
   items_consumed (ProducerConsumerWaitNotify.stats
                     (ProducerConsumerWaitNotify.self_ st)) = 2 /\
   ProducerConsumerWaitNotify.destination_container
     (ProducerConsumerWaitNotify.self_ st) = [Some 4; Some 6]).
Proof.
  destruct sentinel_items_are_skipped as (Hp & _ & Hc & _ & _ & Hw).
  split; [|split].
  - apply Hp. reflexivity.
  - apply (Hc (ProducerConsumer.mk (Queue.mk 2 [None; Some 6] 2)
                 [Some 4; None; Some 6] [Some 4] 2
                 (incr_consumed (incr_produced Statistics_new)) false)
              (ProducerConsumer.P_for 3) 3 1 0%float 1%float 2%float 3%float
              [Some 6]).
    + reflexivity.
    + simpl. lia.
  - cbv zeta. split; [vm_compute; reflexivity|].
    apply (Hw [Some 4; None; Some 6] 1
              (ProducerConsumerWaitNotify.mk [] [Some 4; None; Some 6] [] 1
                 Condition.new false Statistics_new) (alternate 60)).
    + constructor; simpl; auto; lia.
    + vm_compute. reflexivity.
Defined.

(** * Further properties of the two classes *)

(** ** What the threads leave alone *)

Ltac break_match_in H :=
  repeat match type of H with
         | context [match ?x with _ => _ end] => destruct x eqn:?
         | context [if ?x then _ else _] => destruct x eqn:?
         end.

Lemma q_producer_step_frame :
  forall now pc self pc' self',
     ProducerConsumer.producer_step now pc self = Some (pc', self') ->
     ProducerConsumer.source_container self' = ProducerConsumer.source_container self /\
     ProducerConsumer.capacity self' = ProducerConsumer.capacity self /\
     start_time (ProducerConsumer.stats self') = start_time (ProducerConsumer.stats self) /\
     end_time (ProducerConsumer.stats self') = end_time (ProducerConsumer.stats self) /\
     ProducerConsumer.destination_container self'
       = ProducerConsumer.destination_container self /\
     items_consumed (ProducerConsumer.stats self')
       = items_consumed (ProducerConsumer.stats self) /\
     consumer_wait_time (ProducerConsumer.stats self')
       = consumer_wait_time (ProducerConsumer.stats self).
Proof.
  intros now pc self pc' self' H.
  destruct pc; simpl in H; break_match_in H; inversion H; subst;
    repeat split; auto.
Qed.

Lemma q_consumer_step_frame :
  forall total now pc self pc' self',
     ProducerConsumer.consumer_step total now pc self = Some (pc', self') ->
     ProducerConsumer.source_container self' = ProducerConsumer.source_container self /\
     ProducerConsumer.capacity self' = ProducerConsumer.capacity self /\
     start_time (ProducerConsumer.stats self') = start_time (ProducerConsumer.stats self) /\
     end_time (ProducerConsumer.stats self') = end_time (ProducerConsumer.stats self) /\
     ProducerConsumer._producer_finished self'
       = ProducerConsumer._producer_finished self /\
     items_produced (ProducerConsumer.stats self')
       = items_produced (ProducerConsumer.stats self) /\
     producer_wait_time (ProducerConsumer.stats self')
       = producer_wait_time (ProducerConsumer.stats self) /\
     max_queue_size (ProducerConsumer.stats self')
       = max_queue_size (ProducerConsumer.stats self).
Proof.
  intros total now pc self pc' self' H.
  destruct pc; simpl in H; break_match_in H; inversion H; subst;
    repeat split; auto.
Qed.

(** X1.  In the queue-based class a statement of [producer] changes neither the
    source, the capacity, the two time stamps, the destination, nor the
    consumer's two statistics; a statement of [consumer] changes neither the
    source, the capacity, the time stamps, the finished flag, nor the
    producer's three statistics. *)
Theorem queue_threads_own_their_fields :
  (forall now pc self pc' self',
     ProducerConsumer.producer_step now pc self = Some (pc', self') ->
     ProducerConsumer.source_container self' = ProducerConsumer.source_container self /\
     ProducerConsumer.capacity self' = ProducerConsumer.capacity self /\
     start_time (ProducerConsumer.stats self') = start_time (ProducerConsumer.stats self) /\
     end_time (ProducerConsumer.stats self') = end_time (ProducerConsumer.stats self) /\
     ProducerConsumer.destination_container self'
       = ProducerConsumer.destination_container self /\
     items_consumed (ProducerConsumer.stats self')
       = items_consumed (ProducerConsumer.stats self) /\
     consumer_wait_time (ProducerConsumer.stats self')
       = consumer_wait_time (ProducerConsumer.stats self)) /\
  (forall total now pc self pc' self',
     ProducerConsumer.consumer_step total now pc self = Some (pc', self') ->
     ProducerConsumer.source_container self' = ProducerConsumer.source_container self /\
     ProducerConsumer.capacity self' = ProducerConsumer.capacity self /\
     start_time (ProducerConsumer.stats self') = start_time (ProducerConsumer.stats self) /\
     end_time (ProducerConsumer.stats self') = end_time (ProducerConsumer.stats self) /\
     ProducerConsumer._producer_finished self'
       = ProducerConsumer._producer_finished self /\
     items_produced (ProducerConsumer.stats self')
       = items_produced (ProducerConsumer.stats self) /\
     producer_wait_time (ProducerConsumer.stats self')
       = producer_wait_time (ProducerConsumer.stats self) /\
     max_queue_size (ProducerConsumer.stats self')
       = max_queue_size (ProducerConsumer.stats self)).
Proof. split; [exact q_producer_step_frame | exact q_consumer_step_frame]. Qed.

Lemma queue_threads_own_their_fields_witness :
  exists self',
    ProducerConsumer.producer_step 3%float (ProducerConsumer.P_wait_end 0 1%float)
      (ProducerConsumer.mk (Queue.mk 2 [Some 1] 1) [Some 1; Some 2] [] 2
         Statistics_new false)
    = Some (ProducerConsumer.P_qsize 0, self') /\
    producer_wait_time (ProducerConsumer.stats self') = 2000%float /\
    consumer_wait_time (ProducerConsumer.stats self') = 0%float /\
    ProducerConsumer.destination_container self' = [].
Proof.
  eexists. split; [vm_compute; reflexivity|].
  split; [vm_compute; reflexivity|].
  destruct queue_threads_own_their_fields as [Hp _].
  destruct (Hp 3%float (ProducerConsumer.P_wait_end 0 1%float)
              (ProducerConsumer.mk (Queue.mk 2 [Some 1] 1) [Some 1; Some 2] [] 2
                 Statistics_new false) _ _ eq_refl)
    as (_ & _ & _ & _ & Hd & _ & Hw).
  split; [exact Hw | exact Hd].
Defined.

Lemma w_producer_step_frame :
  forall now pc self pc' self',
     ProducerConsumerWaitNotify.producer_step now pc self = Some (pc', self') ->
     ProducerConsumerWaitNotify.source_container self'
       = ProducerConsumerWaitNotify.source_container self /\
     ProducerConsumerWaitNotify.capacity self'
       = ProducerConsumerWaitNotify.capacity self /\
     start_time (ProducerConsumerWaitNotify.stats self')
       = start_time (ProducerConsumerWaitNotify.stats self) /\
     end_time (ProducerConsumerWaitNotify.stats self')
       = end_time (ProducerConsumerWaitNotify.stats self) /\
     ProducerConsumerWaitNotify.destination_container self'
       = ProducerConsumerWaitNotify.destination_container self /\
     items_consumed (ProducerConsumerWaitNotify.stats self')
       = items_consumed (ProducerConsumerWaitNotify.stats self) /\
     consumer_wait_time (ProducerConsumerWaitNotify.stats self')
       = consumer_wait_time (ProducerConsumerWaitNotify.stats self).
Proof.
  intros now pc self pc' self' H.
  destruct pc; simpl in H; break_match_in H; inversion H; subst;
    repeat split; auto.
Qed.

Lemma w_consumer_step_frame :
  forall total now pc self pc' self',
     ProducerConsumerWaitNotify.consumer_step total now pc self = Some (pc', self') ->
     ProducerConsumerWaitNotify.source_container self'
       = ProducerConsumerWaitNotify.source_container self /\
     ProducerConsumerWaitNotify.capacity self'
       = ProducerConsumerWaitNotify.capacity self /\
     start_time (ProducerConsumerWaitNotify.stats self')
       = start_time (ProducerConsumerWaitNotify.stats self) /\
     end_time (ProducerConsumerWaitNotify.stats self')
       = end_time (ProducerConsumerWaitNotify.stats self) /\
     ProducerConsumerWaitNotify.producer_finished self'
       = ProducerConsumerWaitNotify.producer_finished self /\
     items_produced (ProducerConsumerWaitNotify.stats self')
       = items_produced (ProducerConsumerWaitNotify.stats self) /\
     producer_wait_time (ProducerConsumerWaitNotify.stats self')
       = producer_wait_time (ProducerConsumerWaitNotify.stats self) /\
     max_queue_size (ProducerConsumerWaitNotify.stats self')
       = max_queue_size (ProducerConsumerWaitNotify.stats self).
Proof.
  intros total now pc self pc' self' H.
  destruct pc; simpl in H; break_match_in H; inversion H; subst;
    repeat split; auto.
Qed.

(** X2.  In the wait/notify class a statement of [producer] changes
    neither the source, the capacity, the two time stamps, the destination,
    nor the consumer's two statistics; a statement of [consumer] changes
    neither the source, the capacity, the time stamps, the finished flag,
    nor the producer's three statistics. *)
Theorem wait_notify_threads_own_their_fields :
  (forall now pc self pc' self',
     ProducerConsumerWaitNotify.producer_step now pc self = Some (pc', self') ->
     ProducerConsumerWaitNotify.source_container self'
       = ProducerConsumerWaitNotify.source_container self /\
     ProducerConsumerWaitNotify.capacity self'
       = ProducerConsumerWaitNotify.capacity self /\
     start_time (ProducerConsumerWaitNotify.stats self')
       = start_time (ProducerConsumerWaitNotify.stats self) /\
     end_time (ProducerConsumerWaitNotify.stats self')
       = end_time (ProducerConsumerWaitNotify.stats self) /\
     ProducerConsumerWaitNotify.destination_container self'
       = ProducerConsumerWaitNotify.destination_container self /\
     items_consumed (ProducerConsumerWaitNotify.stats self')
       = items_consumed (ProducerConsumerWaitNotify.stats self) /\
     consumer_wait_time (ProducerConsumerWaitNotify.stats self')
       = consumer_wait_time (ProducerConsumerWaitNotify.stats self)) /\
  (forall total now pc self pc' self',
     ProducerConsumerWaitNotify.consumer_step total now pc self = Some (pc', self') ->
     ProducerConsumerWaitNotify.source_container self'
       = ProducerConsumerWaitNotify.source_container self /\
     ProducerConsumerWaitNotify.capacity self'
       = ProducerConsumerWaitNotify.capacity self /\
     start_time (ProducerConsumerWaitNotify.stats self')
       = start_time (ProducerConsumerWaitNotify.stats self) /\
     end_time (ProducerConsumerWaitNotify.stats self')
       = end_time (ProducerConsumerWaitNotify.stats self) /\
     ProducerConsumerWaitNotify.producer_finished self'
       = ProducerConsumerWaitNotify.producer_finished self /\
     items_produced (ProducerConsumerWaitNotify.stats self')
       = items_produced (ProducerConsumerWaitNotify.stats self) /\
     producer_wait_time (ProducerConsumerWaitNotify.stats self')
       = producer_wait_time (ProducerConsumerWaitNotify.stats self) /\
     max_queue_size (ProducerConsumerWaitNotify.stats self')
       = max_queue_size (ProducerConsumerWaitNotify.stats self)).
Proof. split; [exact w_producer_step_frame | exact w_consumer_step_frame]. Qed.

Lemma wait_notify_threads_own_their_fields_witness :
  exists self',
    ProducerConsumerWaitNotify.consumer_step 3 5%float
      (ProducerConsumerWaitNotify.C_wait_end 0 1%float)
      (ProducerConsumerWaitNotify.mk [Some 1] [Some 1; Some 2] [] 2
         (Condition.mk (Some Consumer) []) false
         (incr_produced Statistics_new))
    = Some (ProducerConsumerWaitNotify.C_break_test 0, self') /\
    consumer_wait_time (ProducerConsumerWaitNotify.stats self') = 4000%float /\
    items_produced (ProducerConsumerWaitNotify.stats self') = 1 /\
    producer_wait_time (ProducerConsumerWaitNotify.stats self') = 0%float.
Proof.
  eexists. split; [vm_compute; reflexivity|].
  split; [vm_compute; reflexivity|].
  destruct wait_notify_threads_own_their_fields as [_ Hc].
  destruct (Hc 3 5%float (ProducerConsumerWaitNotify.C_wait_end 0 1%float)
              (ProducerConsumerWaitNotify.mk [Some 1] [Some 1; Some 2] [] 2
                 (Condition.mk (Some Consumer) []) false
                 (incr_produced Statistics_new)) _ _ eq_refl)
    as (_ & _ & _ & _ & _ & Hp & Hw & _).
  split; [exact Hp | exact Hw].
Defined.

Lemma q_exec_frame total sched : forall st,
  ProducerConsumer.source_container
    (ProducerConsumer.self_ (ProducerConsumer.exec total sched st))
    = ProducerConsumer.source_container (ProducerConsumer.self_ st) /\
  ProducerConsumer.capacity
    (ProducerConsumer.self_ (ProducerConsumer.exec total sched st))
    = ProducerConsumer.capacity (ProducerConsumer.self_ st) /\
  start_time (ProducerConsumer.stats
                (ProducerConsumer.self_ (ProducerConsumer.exec total sched st)))
    = start_time (ProducerConsumer.stats (ProducerConsumer.self_ st)) /\
  end_time (ProducerConsumer.stats
              (ProducerConsumer.self_ (ProducerConsumer.exec total sched st)))
    = end_time (ProducerConsumer.stats (ProducerConsumer.self_ st)).
Proof.
  unfold ProducerConsumer.exec.
  induction sched as [|[[|] now] sched IH]; intros st; simpl; auto;
    destruct (IH (ProducerConsumer.step total st (Producer, now)))
      as (I1 & I2 & I3 & I4);
    destruct (IH (ProducerConsumer.step total st (Consumer, now)))
      as (J1 & J2 & J3 & J4).
  - rewrite I1, I2, I3, I4.
    unfold ProducerConsumer.step, ProducerConsumer.step_opt. simpl.
    destruct (ProducerConsumer.producer_step _ _ _) as [[pc self']|] eqn:E;
      simpl; auto.
    destruct (q_producer_step_frame _ _ _ E) as (? & ? & ? & ? & _). auto.
  - rewrite J1, J2, J3, J4.
    unfold ProducerConsumer.step, ProducerConsumer.step_opt. simpl.
    destruct (ProducerConsumer.consumer_step _ _ _ _) as [[pc self']|] eqn:E;
      simpl; auto.
    destruct (q_consumer_step_frame _ _ _ _ E) as (? & ? & ? & ? & _). auto.
Qed.

Lemma w_exec_frame total sched : forall st,
  ProducerConsumerWaitNotify.source_container
    (ProducerConsumerWaitNotify.self_ (ProducerConsumerWaitNotify.exec total sched st))
    = ProducerConsumerWaitNotify.source_container (ProducerConsumerWaitNotify.self_ st) /\
  ProducerConsumerWaitNotify.capacity
    (ProducerConsumerWaitNotify.self_ (ProducerConsumerWaitNotify.exec total sched st))
    = ProducerConsumerWaitNotify.capacity (ProducerConsumerWaitNotify.self_ st) /\
  start_time (ProducerConsumerWaitNotify.stats
                (ProducerConsumerWaitNotify.self_
                   (ProducerConsumerWaitNotify.exec total sched st)))
    = start_time (ProducerConsumerWaitNotify.stats (ProducerConsumerWaitNotify.self_ st)) /\
  end_time (ProducerConsumerWaitNotify.stats
              (ProducerConsumerWaitNotify.self_
                 (ProducerConsumerWaitNotify.exec total sched st)))
    = end_time (ProducerConsumerWaitNotify.stats (ProducerConsumerWaitNotify.self_ st)).
Proof.
  unfold ProducerConsumerWaitNotify.exec.
  induction sched as [|[[|] now] sched IH]; intros st; simpl; auto;
    destruct (IH (ProducerConsumerWaitNotify.step total st (Producer, now)))
      as (I1 & I2 & I3 & I4);
    destruct (IH (ProducerConsumerWaitNotify.step total st (Consumer, now)))
      as (J1 & J2 & J3 & J4).
  - rewrite I1, I2, I3, I4.
    unfold ProducerConsumerWaitNotify.step, ProducerConsumerWaitNotify.step_opt.
    simpl.
    destruct (ProducerConsumerWaitNotify.producer_step _ _ _)
      as [[pc self']|] eqn:E; simpl; auto.
    destruct (w_producer_step_frame _ _ _ E) as (? & ? & ? & ? & _). auto.
  - rewrite J1, J2, J3, J4.
    unfold ProducerConsumerWaitNotify.step, ProducerConsumerWaitNotify.step_opt.
    simpl.
    destruct (ProducerConsumerWaitNotify.consumer_step _ _ _ _)
      as [[pc self']|] eqn:E; simpl; auto.
    destruct (w_consumer_step_frame _ _ _ _ E) as (? & ? & ? & ? & _). auto.
Qed.

(** X3.  Whenever [run] returns, in either class and whatever state the instance
    was in before, [start_time] and [end_time] are the two clock readings
    [run] took around the threads, the capacity is the one the instance had,
    and the source is 1..item_count. *)
Theorem run_records_both_clock_readings
  (item_count : Z) (t_start t_end : float) (sched_q sched_w : list event)
  (q q' : ProducerConsumer.t) (w w' : ProducerConsumerWaitNotify.t)
  (fq fw : list exn) :
  (ProducerConsumer.run item_count t_start t_end sched_q q
     = ProducerConsumer.Returned q' fq ->
   start_time (ProducerConsumer.stats q') = t_start /\
   end_time (ProducerConsumer.stats q') = t_end /\
   ProducerConsumer.capacity q' = ProducerConsumer.capacity q /\
   ProducerConsumer.source_container q' = range1 item_count) /\
  (ProducerConsumerWaitNotify.run item_count t_start t_end sched_w w
     = ProducerConsumerWaitNotify.Returned w' fw ->
   start_time (ProducerConsumerWaitNotify.stats w') = t_start /\
   end_time (ProducerConsumerWaitNotify.stats w') = t_end /\
   ProducerConsumerWaitNotify.capacity w' = ProducerConsumerWaitNotify.capacity w /\
   ProducerConsumerWaitNotify.source_container w' = range1 item_count).
Proof.
  split.
  - unfold ProducerConsumer.run, ProducerConsumer.run_begin,
      ProducerConsumer.initialize_source.
    destruct (item_count <? 0); [discriminate|].
    destruct (ProducerConsumer.joined _); [|discriminate].
    intros R; inversion R; subst; clear R. simpl.
    match goal with
    | |- context [ProducerConsumer.exec _ _ ?s] =>
        destruct (q_exec_frame item_count sched_q s) as (H1 & H2 & H3 & _)
    end.
    rewrite H1, H2, H3. repeat split.
  - unfold ProducerConsumerWaitNotify.run, ProducerConsumerWaitNotify.run_begin,
      ProducerConsumerWaitNotify.initialize_source.
    destruct (item_count <? 0); [discriminate|].
    destruct (ProducerConsumerWaitNotify.joined _); [|discriminate].
    intros R; inversion R; subst; clear R. simpl.
    match goal with
    | |- context [ProducerConsumerWaitNotify.exec _ _ ?s] =>
        destruct (w_exec_frame item_count sched_w s) as (H1 & H2 & H3 & _)
    end.
    rewrite H1, H2, H3. repeat split.
Qed.

Lemma run_records_both_clock_readings_witness :
  exists q' w',
    ProducerConsumer.run 2 3%float 11%float (alternate 30) (queue_instance 1)
      = ProducerConsumer.Returned q' [] /\
    ProducerConsumerWaitNotify.run 2 3%float 11%float (alternate 40)
        (wait_notify_instance 1)
      = ProducerConsumerWaitNotify.Returned w' [] /\
    (start_time (ProducerConsumer.stats q') = 3%float /\
     end_time (ProducerConsumer.stats q') = 11%float) /\
    (start_time (ProducerConsumerWaitNotify.stats w') = 3%float /\
     end_time (ProducerConsumerWaitNotify.stats w') = 11%float).
Proof.
  eexists. eexists.
  split; [vm_compute; reflexivity|]. split; [vm_compute; reflexivity|].
  match goal with
  | |- (start_time (ProducerConsumer.stats ?a) = _ /\ _) /\
       (start_time (ProducerConsumerWaitNotify.stats ?b) = _ /\ _) =>
      destruct (@run_records_both_clock_readings 2 3%float 11%float
                  (alternate 30) (alternate 40)
                  (queue_instance 1) a (wait_notify_instance 1) b [] [])
        as [Hq Hw]
  end.
  split.
  - destruct Hq as (? & ? & _); [vm_compute; reflexivity|]. split; assumption.
  - destruct Hw as (? & ? & _); [vm_compute; reflexivity|]. split; assumption.
Defined.

(** ** The buffer during a run *)

Lemma nn_prefix (l : list item) k : exists later, nn l = nn (firstn k l) ++ later.
Proof.
  exists (nn (skipn k l)). rewrite <- nn_app. now rewrite firstn_skipn.
Qed.

(** X4.  Queue-based class, any source, any target count, any schedule: at every
    moment the queue holds at most [capacity] items, and the items that are
    not [None] appear in source order as: the destination, then at most one
    item the consumer is holding, then the queue, then the items still to be
    produced.  So the destination is always a prefix of the source without
    its [None]s. *)
Theorem queue_buffer_is_bounded_and_ordered
  (src : list item) (cap total : Z) (self : ProducerConsumer.t)
  (sched : list event) :
  ProducerConsumer.ready src cap self ->
  let st := ProducerConsumer.exec total sched (ProducerConsumer.spawn self) in
  0 <= Queue.qsize (ProducerConsumer.shared_queue (ProducerConsumer.self_ st)) <= cap /\
  exists held later,
    nn src = ProducerConsumer.destination_container (ProducerConsumer.self_ st)
             ++ held
             ++ Queue.queue (ProducerConsumer.shared_queue (ProducerConsumer.self_ st))
             ++ later /\
    (length held <= 1)%nat.
Proof.
  intros Hr st.
  pose proof (ProducerConsumerTheory.q_inv_exec sched
                (ProducerConsumerTheory.q_inv_spawn total Hr)) as H.
  fold st in H. split.
  - unfold Queue.qsize. pose proof (ProducerConsumer.inv_room H).
    pose proof (len_nonneg (Queue.queue (ProducerConsumer.shared_queue
                                           (ProducerConsumer.self_ st)))).
    lia.
  - destruct (nn_prefix src
                (ProducerConsumer.p_put_idx src (ProducerConsumer.producer_thread st)))
      as [later Hl].
    exists (ProducerConsumer.c_inflight (ProducerConsumer.consumer_thread st)), later.
    split.
    + rewrite Hl, (ProducerConsumer.inv_data H). now rewrite <- !app_assoc.
    + destruct (ProducerConsumer.consumer_thread st); simpl; lia.
Qed.

Lemma queue_buffer_is_bounded_and_ordered_witness :
  let st := ProducerConsumer.exec 3 (turns Producer 8 ++ turns Consumer 3)
              (ProducerConsumer.spawn
                 (ProducerConsumer.mk (Queue.new 2) [Some 5; None; Some 6; Some 7]
                    [] 2 Statistics_new false)) in
  0 <= Queue.qsize (ProducerConsumer.shared_queue (ProducerConsumer.self_ st)) <= 2 /\
  exists held later,
    [Some 5; Some 6; Some 7]
    = ProducerConsumer.destination_container (ProducerConsumer.self_ st)
      ++ held
      ++ Queue.queue (ProducerConsumer.shared_queue (ProducerConsumer.self_ st))
      ++ later /\
    (length held <= 1)%nat.
Proof.
  apply (@queue_buffer_is_bounded_and_ordered [Some 5; None; Some 6; Some 7] 2 3
           (ProducerConsumer.mk (Queue.new 2) [Some 5; None; Some 6; Some 7]
              [] 2 Statistics_new false)
           (turns Producer 8 ++ turns Consumer 3)).
  constructor; simpl; auto; lia.
Defined.

(** X5.  Wait/notify class, any source, any target count, any schedule: at
    every moment the shared list holds at most [capacity] items, and the
    items that are not [None] appear in source order as: the destination,
    then at most one item the consumer is holding, then the shared list,
    then the items still to be produced. *)
Theorem wait_notify_buffer_is_bounded_and_ordered
  (src : list item) (cap total : Z) (self : ProducerConsumerWaitNotify.t)
  (sched : list event) :
  ProducerConsumerWaitNotify.ready src cap self ->
  let st := ProducerConsumerWaitNotify.exec total sched
              (ProducerConsumerWaitNotify.spawn self) in
  0 <= len (ProducerConsumerWaitNotify.shared_queue
              (ProducerConsumerWaitNotify.self_ st)) <= cap /\
  exists held later,
    nn src = ProducerConsumerWaitNotify.destination_container
               (ProducerConsumerWaitNotify.self_ st)
             ++ held
             ++ ProducerConsumerWaitNotify.shared_queue
                  (ProducerConsumerWaitNotify.self_ st)
             ++ later /\
    (length held <= 1)%nat.
Proof.
  intros Hr st.
  pose proof (WaitNotifyTheory.w_inv_exec sched
                (WaitNotifyTheory.w_inv_spawn total Hr)) as H.
  fold st in H. split.
  - pose proof (ProducerConsumerWaitNotify.inv_room H) as Hroom.
    pose proof (len_nonneg (ProducerConsumerWaitNotify.shared_queue
                              (ProducerConsumerWaitNotify.self_ st))).
    assert (0 <= ProducerConsumerWaitNotify.p_room
                   (ProducerConsumerWaitNotify.producer_thread st))
      by (destruct (ProducerConsumerWaitNotify.producer_thread st); simpl; lia).
    lia.
  - destruct (nn_prefix src
                (ProducerConsumerWaitNotify.p_app_idx src
                   (ProducerConsumerWaitNotify.producer_thread st)))
      as [later Hl].
    exists (ProducerConsumerWaitNotify.c_inflight
              (ProducerConsumerWaitNotify.consumer_thread st)), later.
    split.
    + rewrite Hl, (ProducerConsumerWaitNotify.inv_data H).
      now rewrite <- !app_assoc.
    + destruct (ProducerConsumerWaitNotify.consumer_thread st); simpl; lia.
Qed.

Lemma wait_notify_buffer_is_bounded_and_ordered_witness :
  let st := ProducerConsumerWaitNotify.exec 3 (turns Producer 40 ++ turns Consumer 7)
              (ProducerConsumerWaitNotify.spawn
                 (ProducerConsumerWaitNotify.mk [] [Some 5; None; Some 6; Some 7]
                    [] 2 Condition.new false Statistics_new)) in
  0 <= len (ProducerConsumerWaitNotify.shared_queue
              (ProducerConsumerWaitNotify.self_ st)) <= 2 /\
  exists held later,
    [Some 5; Some 6; Some 7]
    = ProducerConsumerWaitNotify.destination_container
        (ProducerConsumerWaitNotify.self_ st)
      ++ held
      ++ ProducerConsumerWaitNotify.shared_queue
           (ProducerConsumerWaitNotify.self_ st)
      ++ later /\
    (length held <= 1)%nat.
Proof.
  apply (@wait_notify_buffer_is_bounded_and_ordered
           [Some 5; None; Some 6; Some 7] 2 3
           (ProducerConsumerWaitNotify.mk [] [Some 5; None; Some 6; Some 7]
              [] 2 Condition.new false Statistics_new)
           (turns Producer 40 ++ turns Consumer 7)).
  constructor; simpl; auto; lia.
Defined.



(** ** Termination *)

Lemma q_step_some total ev st st' :
  ProducerConsumer.step_opt total ev st = Some st' ->
  ProducerConsumer.step total st ev = st'.
Proof. unfold ProducerConsumer.step. now intros ->. Qed.

Lemma q_step_none total ev st :
  ProducerConsumer.step_opt total ev st = None ->
  ProducerConsumer.step total st ev = st.
Proof. unfold ProducerConsumer.step. now intros ->. Qed.

Lemma w_step_some total ev st st' :
  ProducerConsumerWaitNotify.step_opt total ev st = Some st' ->
  ProducerConsumerWaitNotify.step total st ev = st'.
Proof. unfold ProducerConsumerWaitNotify.step. now intros ->. Qed.

Lemma w_step_none total ev st :
  ProducerConsumerWaitNotify.step_opt total ev st = None ->
  ProducerConsumerWaitNotify.step total st ev = st.
Proof. unfold ProducerConsumerWaitNotify.step. now intros ->. Qed.

Lemma q_moves_bounded src cap total sched : forall st,
  ProducerConsumer.Inv src cap total st ->
  (ProducerConsumer.moves total sched st
   + ProducerConsumer.statements_left src total
       (ProducerConsumer.exec total sched st)
   <= ProducerConsumer.statements_left src total st)%nat.
Proof.
  unfold ProducerConsumer.exec.
  induction sched as [|ev sched IH]; intros st H; simpl; [lia|].
  destruct (ProducerConsumer.step_opt total ev st) as [st'|] eqn:E.
  - rewrite (q_step_some _ _ _ E).
    pose proof (ProducerConsumerTheory.q_step_decreases _ H E).
    assert (ProducerConsumer.Inv src cap total st') as H'.
    { rewrite <- (q_step_some _ _ _ E). now apply ProducerConsumerTheory.q_inv_step. }
    specialize (IH st' H'). lia.
  - rewrite (q_step_none _ _ _ E). now apply IH.
Qed.

Lemma w_moves_bounded src cap total sched : forall st,
  ProducerConsumerWaitNotify.Inv src cap total st ->
  (ProducerConsumerWaitNotify.moves total sched st
   + ProducerConsumerWaitNotify.statements_left src total
       (ProducerConsumerWaitNotify.exec total sched st)
   <= ProducerConsumerWaitNotify.statements_left src total st)%nat.
Proof.
  unfold ProducerConsumerWaitNotify.exec.
  induction sched as [|ev sched IH]; intros st H; simpl; [lia|].
  destruct (ProducerConsumerWaitNotify.step_opt total ev st) as [st'|] eqn:E.
  - rewrite (w_step_some _ _ _ E).
    pose proof (WaitNotifyTheory.w_step_decreases _ H E).
    assert (ProducerConsumerWaitNotify.Inv src cap total st') as H'.
    { rewrite <- (w_step_some _ _ _ E). now apply WaitNotifyTheory.w_inv_step. }
    specialize (IH st' H'). lia.
  - rewrite (w_step_none _ _ _ E). now apply IH.
Qed.

(** X7.  Queue-based class: a run cannot go on forever.  For any source, target
    count and schedule, the threads execute at most
    [7 * len(source) + 7 * max(total, 0) + 5] statements. *)
Theorem queue_run_executes_boundedly_many_statements
  (src : list item) (cap total : Z) (self : ProducerConsumer.t)
  (sched : list event) :
  ProducerConsumer.ready src cap self ->
  (ProducerConsumer.moves total sched (ProducerConsumer.spawn self)
   <= 7 * length src + 7 * Z.to_nat total + 5)%nat.
Proof.
  intros Hr.
  pose proof (q_moves_bounded sched (ProducerConsumerTheory.q_inv_spawn total Hr)) as H.
  unfold ProducerConsumer.statements_left at 2 in H. simpl in H. lia.
Qed.

Lemma queue_run_executes_boundedly_many_statements_witness :
  le (ProducerConsumer.moves 3 (alternate 100)
        (ProducerConsumer.spawn
           (ProducerConsumer.mk (Queue.new 2) [Some 1; Some 2; Some 3] [] 2
              Statistics_new false)))
     (7 * 3 + 7 * 3 + 5)%nat.
Proof.
  apply (@queue_run_executes_boundedly_many_statements [Some 1; Some 2; Some 3]
           2 3 (ProducerConsumer.mk (Queue.new 2) [Some 1; Some 2; Some 3] [] 2
                  Statistics_new false) (alternate 100)).
  constructor; simpl; auto; lia.
Defined.

(** X8.  Wait/notify class: for any source, target count and schedule, the
    threads execute at most [30 * len(source) + 36 * max(total, 0) + 24]
    statements; in particular no thread is woken and parked again without
    end. *)
Theorem wait_notify_run_executes_boundedly_many_statements
  (src : list item) (cap total : Z) (self : ProducerConsumerWaitNotify.t)
  (sched : list event) :
  ProducerConsumerWaitNotify.ready src cap self ->
  (ProducerConsumerWaitNotify.moves total sched
     (ProducerConsumerWaitNotify.spawn self)
   <= 30 * length src + 36 * Z.to_nat total + 24)%nat.
Proof.
  intros Hr.
  pose proof (w_moves_bounded sched (WaitNotifyTheory.w_inv_spawn total Hr)) as H.
  unfold ProducerConsumerWaitNotify.statements_left at 2 in H. simpl in H. lia.
Qed.

Lemma wait_notify_run_executes_boundedly_many_statements_witness :
  le (ProducerConsumerWaitNotify.moves 3 (alternate 100)
        (ProducerConsumerWaitNotify.spawn
           (ProducerConsumerWaitNotify.mk [] [Some 1; Some 2; Some 3] [] 2
              Condition.new false Statistics_new)))
     (30 * 3 + 36 * 3 + 24)%nat.
Proof.
  apply (@wait_notify_run_executes_boundedly_many_statements
           [Some 1; Some 2; Some 3] 2 3
           (ProducerConsumerWaitNotify.mk [] [Some 1; Some 2; Some 3] [] 2
              Condition.new false Statistics_new) (alternate 100)).
  constructor; simpl; auto; lia.
Defined.

(** Whether a thread can move does not depend on the clock. *)
Lemma q_enabled_any_clock total who t t' st :
  ProducerConsumer.step_opt total (who, t) st = None ->
  ProducerConsumer.step_opt total (who, t') st = None.
Proof.
  unfold ProducerConsumer.step_opt. simpl. destruct who.
  - destruct (ProducerConsumer.producer_thread st); simpl;
      repeat match goal with
             | |- context [match ?x with _ => _ end] =>
                 lazymatch x with
                 | context [match _ with _ => _ end] => fail
                 | _ => destruct x
                 end
             end; intros E; try discriminate E; auto.
  - destruct (ProducerConsumer.consumer_thread st); simpl;
      repeat match goal with
             | |- context [match ?x with _ => _ end] =>
                 lazymatch x with
                 | context [match _ with _ => _ end] => fail
                 | _ => destruct x
                 end
             end; intros E; try discriminate E; auto.
Qed.

Lemma w_enabled_any_clock total who t t' st :
  ProducerConsumerWaitNotify.step_opt total (who, t) st = None ->
  ProducerConsumerWaitNotify.step_opt total (who, t') st = None.
Proof.
  unfold ProducerConsumerWaitNotify.step_opt. simpl. destruct who.
  - destruct (ProducerConsumerWaitNotify.producer_thread st); simpl;
      repeat match goal with
             | |- context [match ?x with _ => _ end] =>
                 lazymatch x with
                 | context [match _ with _ => _ end] => fail
                 | _ => destruct x
                 end
             end; intros E; try discriminate E; auto.
  - destruct (ProducerConsumerWaitNotify.consumer_thread st); simpl;
      repeat match goal with
             | |- context [match ?x with _ => _ end] =>
                 lazymatch x with
                 | context [match _ with _ => _ end] => fail
                 | _ => destruct x
                 end
             end; intros E; try discriminate E; auto.
Qed.

(** Once both threads have returned nothing moves any more. *)
Lemma q_joined_stays total sched : forall st,
  ProducerConsumer.joined st = true ->
  ProducerConsumer.exec total sched st = st.
Proof.
  unfold ProducerConsumer.exec.
  induction sched as [|[who now] sched IH]; intros st Hj; simpl; auto.
  assert (ProducerConsumer.step total st (who, now) = st) as ->; [|auto].
  apply q_step_none. unfold ProducerConsumer.joined in Hj.
  apply andb_prop in Hj. destruct Hj as [Hp Hc].
  unfold ProducerConsumer.step_opt. simpl.
  destruct (ProducerConsumer.producer_thread st); try discriminate.
  destruct (ProducerConsumer.consumer_thread st); try discriminate;
    destruct who; reflexivity.
Qed.

Lemma w_joined_stays total sched : forall st,
  ProducerConsumerWaitNotify.joined st = true ->
  ProducerConsumerWaitNotify.exec total sched st = st.
Proof.
  unfold ProducerConsumerWaitNotify.exec.
  induction sched as [|[who now] sched IH]; intros st Hj; simpl; auto.
  assert (ProducerConsumerWaitNotify.step total st (who, now) = st) as ->; [|auto].
  apply w_step_none. unfold ProducerConsumerWaitNotify.joined in Hj.
  apply andb_prop in Hj. destruct Hj as [Hp Hc].
  unfold ProducerConsumerWaitNotify.step_opt. simpl.
  destruct (ProducerConsumerWaitNotify.producer_thread st); try discriminate.
  destruct (ProducerConsumerWaitNotify.consumer_thread st); try discriminate;
    destruct who; reflexivity.
Qed.

(** One round of turns executes at least one statement. *)
Lemma q_round src cap total st a b :
  ProducerConsumer.Inv src cap total st -> total = len (nn src) ->
  ProducerConsumer.joined st = false ->
  (ProducerConsumer.statements_left src total
     (ProducerConsumer.step total
        (ProducerConsumer.step total st (Producer, a)) (Consumer, b))
   < ProducerConsumer.statements_left src total st)%nat.
Proof.
  intros H Ht Hj.
  destruct (ProducerConsumer.step_opt total (Producer, a) st) as [st1|] eqn:Ep.
  - rewrite (q_step_some _ _ _ Ep).
    pose proof (ProducerConsumerTheory.q_step_decreases _ H Ep).
    assert (ProducerConsumer.Inv src cap total st1) as H1.
    { rewrite <- (q_step_some _ _ _ Ep). now apply ProducerConsumerTheory.q_inv_step. }
    destruct (ProducerConsumer.step_opt total (Consumer, b) st1) as [st2|] eqn:Ec.
    + rewrite (q_step_some _ _ _ Ec).
      pose proof (ProducerConsumerTheory.q_step_decreases _ H1 Ec). lia.
    + rewrite (q_step_none _ _ _ Ec). lia.
  - rewrite (q_step_none _ _ _ Ep).
    destruct (ProducerConsumerTheory.q_progress H Ht Hj) as ([[|] t] & st' & E).
    + rewrite (@q_enabled_any_clock total Producer a t st Ep) in E. discriminate.
    + destruct (ProducerConsumer.step_opt total (Consumer, b) st) as [st2|] eqn:Ec.
      * rewrite (q_step_some _ _ _ Ec).
        exact (ProducerConsumerTheory.q_step_decreases _ H Ec).
      * rewrite (@q_enabled_any_clock total Consumer b t st Ec) in E. discriminate.
Qed.

Lemma w_round src cap total st a b :
  ProducerConsumerWaitNotify.Inv src cap total st -> len (nn src) <= total ->
  ProducerConsumerWaitNotify.joined st = false ->
  (ProducerConsumerWaitNotify.statements_left src total
     (ProducerConsumerWaitNotify.step total
        (ProducerConsumerWaitNotify.step total st (Producer, a)) (Consumer, b))
   < ProducerConsumerWaitNotify.statements_left src total st)%nat.
Proof.
  intros H Ht Hj.
  destruct (ProducerConsumerWaitNotify.step_opt total (Producer, a) st)
    as [st1|] eqn:Ep.
  - rewrite (w_step_some _ _ _ Ep).
    pose proof (WaitNotifyTheory.w_step_decreases _ H Ep).
    assert (ProducerConsumerWaitNotify.Inv src cap total st1) as H1.
    { rewrite <- (w_step_some _ _ _ Ep). now apply WaitNotifyTheory.w_inv_step. }
    destruct (ProducerConsumerWaitNotify.step_opt total (Consumer, b) st1)
      as [st2|] eqn:Ec.
    + rewrite (w_step_some _ _ _ Ec).
      pose proof (WaitNotifyTheory.w_step_decreases _ H1 Ec). lia.
    + rewrite (w_step_none _ _ _ Ec). lia.
  - rewrite (w_step_none _ _ _ Ep).
    destruct (WaitNotifyTheory.w_progress H Ht Hj) as ([[|] t] & st' & E).
    + rewrite (@w_enabled_any_clock total Producer a t st Ep) in E. discriminate.
    + destruct (ProducerConsumerWaitNotify.step_opt total (Consumer, b) st)
        as [st2|] eqn:Ec.
      * rewrite (w_step_some _ _ _ Ec).
        exact (WaitNotifyTheory.w_step_decreases _ H Ec).
      * rewrite (@w_enabled_any_clock total Consumer b t st Ec) in E. discriminate.
Qed.

Lemma alternate_S k :
  alternate (S k) = (Producer, 1%float) :: (Consumer, 2%float) :: alternate k.
Proof. reflexivity. Qed.

Lemma q_alternate_completes src cap total k : forall st,
  ProducerConsumer.Inv src cap total st -> total = len (nn src) ->
  (ProducerConsumer.statements_left src total st <= k)%nat ->
  ProducerConsumer.joined (ProducerConsumer.exec total (alternate k) st) = true.
Proof.
  induction k as [|k IH]; intros st H Ht Hk;
    destruct (ProducerConsumer.joined st) eqn:Hj;
    try (rewrite q_joined_stays; assumption);
    pose proof (q_round 1%float 2%float H Ht Hj) as Hr.
  - lia.
  - rewrite alternate_S. unfold ProducerConsumer.exec. simpl.
    apply IH; auto; [|lia].
    now do 2 apply ProducerConsumerTheory.q_inv_step.
Qed.

Lemma w_alternate_completes src cap total k : forall st,
  ProducerConsumerWaitNotify.Inv src cap total st -> len (nn src) <= total ->
  (ProducerConsumerWaitNotify.statements_left src total st <= k)%nat ->
  ProducerConsumerWaitNotify.joined
    (ProducerConsumerWaitNotify.exec total (alternate k) st) = true.
Proof.
  induction k as [|k IH]; intros st H Ht Hk;
    destruct (ProducerConsumerWaitNotify.joined st) eqn:Hj;
    try (rewrite w_joined_stays; assumption);
    pose proof (w_round 1%float 2%float H Ht Hj) as Hr.
  - lia.
  - rewrite alternate_S. unfold ProducerConsumerWaitNotify.exec. simpl.
    apply IH; auto; [|lia].
    now do 2 apply WaitNotifyTheory.w_inv_step.
Qed.

Lemma length_range1 n : length (range1 n) = Z.to_nat n.
Proof. unfold range1. now rewrite length_map, length_seq. Qed.

(** X9.  Queue-based [run] with enough turns.  On an instance between runs with
    a positive capacity, and for a count that is not negative, giving the
    producer and the consumer one turn each, round after round, makes [run]
    return after at most [14 * item_count + 5] rounds, with no role failure
    and with the destination equal to 1..item_count. *)
Theorem queue_run_returns_under_round_robin
  (item_count : Z) (t_start t_end : float) (rounds : nat)
  (self : ProducerConsumer.t) :
  ProducerConsumer.idle self -> 0 < ProducerConsumer.capacity self ->
  0 <= item_count ->
  (14 * Z.to_nat item_count + 5 <= rounds)%nat ->
  exists self',
    ProducerConsumer.run item_count t_start t_end (alternate rounds) self
      = ProducerConsumer.Returned self' [] /\
    ProducerConsumer.destination_container self' = range1 item_count.
Proof.
  intros Hi Hc Hn Hk.
  destruct (ProducerConsumer.run_begin item_count t_start self) as [e|self1] eqn:E.
  { unfold ProducerConsumer.run_begin, ProducerConsumer.initialize_source in E.
    destruct (Z.ltb_spec item_count 0); [lia | discriminate]. }
  destruct (@ProducerConsumerTheory.q_run_inv item_count t_start [] self self1
              Hi Hc E) as [_ H].
  simpl in H.
  assert (item_count = len (nn (range1 item_count))) as Ht
    by (rewrite nn_range1, len_range1; auto).
  assert (ProducerConsumer.joined
            (ProducerConsumer.exec item_count (alternate rounds)
               (ProducerConsumer.spawn self1)) = true) as Hj.
  { apply (q_alternate_completes H Ht).
    unfold ProducerConsumer.statements_left. simpl.
    rewrite length_range1. lia. }
  destruct (ProducerConsumer.run item_count t_start t_end (alternate rounds) self)
    as [e s|s fs|st] eqn:R;
    unfold ProducerConsumer.run in R; rewrite E, Hj in R; try discriminate.
  assert (ProducerConsumer.run item_count t_start t_end (alternate rounds) self
          = ProducerConsumer.Returned s fs) as R'
    by (unfold ProducerConsumer.run; rewrite E, Hj; exact R).
  destruct (ProducerConsumerTheory.q_run_returned _ _ _ _ Hi Hc R')
    as (-> & _ & Hd & _).
  exists s. split; [reflexivity | exact Hd].
Qed.

Lemma queue_run_returns_under_round_robin_witness :
  exists self',
    ProducerConsumer.run 2 0%float 9%float (alternate 33) (queue_instance 1)
      = ProducerConsumer.Returned self' [] /\
    ProducerConsumer.destination_container self' = [Some 1; Some 2].
Proof.
  apply (@queue_run_returns_under_round_robin 2 0%float 9%float 33
           (queue_instance 1)).
  - constructor; reflexivity.
  - reflexivity.
  - lia.
  - vm_compute. lia.
Defined.

(** X10.  Wait/notify [run] with enough turns.  On an instance between
    runs with a positive capacity, and for a count that is not negative,
    giving the producer and the consumer one turn each, round after round,
    makes [run] return after at most [66 * item_count + 24] rounds, with no
    role failure and with the destination equal to 1..item_count. *)
Theorem wait_notify_run_returns_under_round_robin
  (item_count : Z) (t_start t_end : float) (rounds : nat)
  (self : ProducerConsumerWaitNotify.t) :
  ProducerConsumerWaitNotify.idle self ->
  0 < ProducerConsumerWaitNotify.capacity self ->
  0 <= item_count ->
  (66 * Z.to_nat item_count + 24 <= rounds)%nat ->
  exists self',
    ProducerConsumerWaitNotify.run item_count t_start t_end (alternate rounds) self
      = ProducerConsumerWaitNotify.Returned self' [] /\
    ProducerConsumerWaitNotify.destination_container self' = range1 item_count.
Proof.
  intros Hi Hc Hn Hk.
  destruct (ProducerConsumerWaitNotify.run_begin item_count t_start self)
    as [e|self1] eqn:E.
  { unfold ProducerConsumerWaitNotify.run_begin,
      ProducerConsumerWaitNotify.initialize_source in E.
    destruct (Z.ltb_spec item_count 0); [lia | discriminate]. }
  destruct (@WaitNotifyTheory.w_run_inv item_count t_start [] self self1
              Hi Hc E) as [_ H].
  simpl in H.
  assert (len (nn (range1 item_count)) <= item_count) as Ht
    by (rewrite nn_range1, len_range1; auto; lia).
  assert (ProducerConsumerWaitNotify.joined
            (ProducerConsumerWaitNotify.exec item_count (alternate rounds)
               (ProducerConsumerWaitNotify.spawn self1)) = true) as Hj.
  { apply (w_alternate_completes H Ht).
    unfold ProducerConsumerWaitNotify.statements_left. simpl.
    rewrite length_range1. lia. }
  destruct (ProducerConsumerWaitNotify.run item_count t_start t_end
              (alternate rounds) self)
    as [e s|s fs|st] eqn:R;
    unfold ProducerConsumerWaitNotify.run in R; rewrite E, Hj in R;
    try discriminate.
  assert (ProducerConsumerWaitNotify.run item_count t_start t_end
            (alternate rounds) self
          = ProducerConsumerWaitNotify.Returned s fs) as R'
    by (unfold ProducerConsumerWaitNotify.run; rewrite E, Hj; exact R).
  destruct (WaitNotifyTheory.w_run_returned _ _ _ _ Hi Hc R')
    as (-> & _ & Hd & _).
  exists s. split; [reflexivity | exact Hd].
Qed.

Lemma wait_notify_run_returns_under_round_robin_witness :
  exists self',
    ProducerConsumerWaitNotify.run 1 0%float 9%float (alternate 90)
        (wait_notify_instance 1)
      = ProducerConsumerWaitNotify.Returned self' [] /\
    ProducerConsumerWaitNotify.destination_container self' = [Some 1].
Proof.
  apply (@wait_notify_run_returns_under_round_robin 1 0%float 9%float 90
           (wait_notify_instance 1)).
  - constructor; reflexivity.
  - reflexivity.
  - lia.
  - vm_compute. lia.
Defined.

(** X11.  Queue-based [run] never deadlocks.  As long as [run] is still inside
    [join()], some thread can execute its next statement; and whatever the
    schedule so far, it can be continued so that [run] returns with no role
    failure. *)
Theorem queue_run_never_deadlocks
  (item_count : Z) (t_start t_end : float) (sched : list event)
  (self : ProducerConsumer.t) :
  ProducerConsumer.idle self -> 0 < ProducerConsumer.capacity self ->
  0 <= item_count ->
  (forall st,
     ProducerConsumer.run item_count t_start t_end sched self
       = ProducerConsumer.Joining st ->
     exists ev st', ProducerConsumer.step_opt item_count ev st = Some st') /\
  (exists more self',
     ProducerConsumer.run item_count t_start t_end (sched ++ more) self
       = ProducerConsumer.Returned self' []).
Proof.
  intros Hi Hc Hn. split.
  - intros st R. unfold ProducerConsumer.run in R.
    destruct (ProducerConsumer.run_begin item_count t_start self)
      as [e|self1] eqn:E; [discriminate|].
    destruct (@ProducerConsumerTheory.q_run_inv item_count t_start sched self
                self1 Hi Hc E) as [_ H].
    destruct (ProducerConsumer.joined _) eqn:Hj; [discriminate|].
    inversion R; subst; clear R.
    apply (ProducerConsumerTheory.q_progress H); auto.
    rewrite nn_range1, len_range1; auto.
  - now apply ProducerConsumerTheory.q_run_can_return.
Qed.

Lemma queue_run_never_deadlocks_witness :
  exists st,
    ProducerConsumer.run 2 0%float 9%float (turns Producer 9) (queue_instance 1)
      = ProducerConsumer.Joining st /\
    (exists ev st', ProducerConsumer.step_opt 2 ev st = Some st') /\
    (exists more self',
       ProducerConsumer.run 2 0%float 9%float (turns Producer 9 ++ more)
         (queue_instance 1)
         = ProducerConsumer.Returned self' []).
Proof.
  eexists. split; [vm_compute; reflexivity|].
  destruct (@queue_run_never_deadlocks 2 0%float 9%float (turns Producer 9)
              (queue_instance 1)) as [H1 H2].
  - constructor; reflexivity.
  - reflexivity.
  - lia.
  - split; [apply H1; vm_compute; reflexivity | exact H2].
Defined.

(** X12.  Wait/notify [run] never deadlocks: no wake-up is lost.  As long as
    [run] is still inside [join()], some thread can execute its next
    statement; and whatever the schedule so far, it can be continued so
    that [run] returns with no role failure. *)
Theorem wait_notify_run_never_deadlocks
  (item_count : Z) (t_start t_end : float) (sched : list event)
  (self : ProducerConsumerWaitNotify.t) :
  ProducerConsumerWaitNotify.idle self ->
  0 < ProducerConsumerWaitNotify.capacity self ->
  0 <= item_count ->
  (forall st,
     ProducerConsumerWaitNotify.run item_count t_start t_end sched self
       = ProducerConsumerWaitNotify.Joining st ->
     exists ev st',
       ProducerConsumerWaitNotify.step_opt item_count ev st = Some st') /\
  (exists more self',
     ProducerConsumerWaitNotify.run item_count t_start t_end (sched ++ more) self
       = ProducerConsumerWaitNotify.Returned self' []).
Proof.
  intros Hi Hc Hn. split.
  - intros st R. unfold ProducerConsumerWaitNotify.run in R.
    destruct (ProducerConsumerWaitNotify.run_begin item_count t_start self)
      as [e|self1] eqn:E; [discriminate|].
    destruct (@WaitNotifyTheory.w_run_inv item_count t_start sched self
                self1 Hi Hc E) as [_ H].
    destruct (ProducerConsumerWaitNotify.joined _) eqn:Hj; [discriminate|].
    inversion R; subst; clear R.
    apply (WaitNotifyTheory.w_progress H); auto.
    rewrite nn_range1, len_range1; auto. lia.
  - now apply WaitNotifyTheory.w_run_can_return.
Qed.

Lemma wait_notify_run_never_deadlocks_witness :
  exists st,
    ProducerConsumerWaitNotify.run 2 0%float 9%float
        (turns Consumer 4 ++ turns Producer 30) (wait_notify_instance 1)
      = ProducerConsumerWaitNotify.Joining st /\
    (exists ev st', ProducerConsumerWaitNotify.step_opt 2 ev st = Some st') /\
    (exists more self',
       ProducerConsumerWaitNotify.run 2 0%float 9%float
           ((turns Consumer 4 ++ turns Producer 30) ++ more)
           (wait_notify_instance 1)
         = ProducerConsumerWaitNotify.Returned self' []).
Proof.
  eexists. split; [vm_compute; reflexivity|].
  destruct (@wait_notify_run_never_deadlocks 2 0%float 9%float
              (turns Consumer 4 ++ turns Producer 30) (wait_notify_instance 1))
    as [H1 H2].
  - constructor; reflexivity.
  - reflexivity.
  - lia.
  - split; [apply H1; vm_compute; reflexivity | exact H2].
Defined.

(** ** Using an instance *)

(** X13.  An instance can be run again.  After a [run] has returned, a second
    [run] on the same instance, with any count, schedule and clock, returns
    with the destination equal to 1..second count, both counters equal to
    it, no role failure, and the capacity the instance was built with; in
    both classes. *)
Theorem run_can_be_repeated
  (n m : Z) (t1 t2 t3 t4 : float) (s1 s2 s3 s4 : list event)
  (q q1 q2 : ProducerConsumer.t) (w w1 w2 : ProducerConsumerWaitNotify.t)
  (fq1 fq2 fw1 fw2 : list exn) :
  ProducerConsumer.idle q -> 0 < ProducerConsumer.capacity q ->
  ProducerConsumerWaitNotify.idle w -> 0 < ProducerConsumerWaitNotify.capacity w ->
  (ProducerConsumer.run n t1 t2 s1 q = ProducerConsumer.Returned q1 fq1 ->
   ProducerConsumer.run m t3 t4 s2 q1 = ProducerConsumer.Returned q2 fq2 ->
   fst (ProducerConsumer.get_destination_container q2) = range1 m /\
   items_produced (ProducerConsumer.stats q2) = m /\
   items_consumed (ProducerConsumer.stats q2) = m /\
   fq2 = [] /\
   ProducerConsumer.capacity q2 = ProducerConsumer.capacity q) /\
  (ProducerConsumerWaitNotify.run n t1 t2 s3 w
     = ProducerConsumerWaitNotify.Returned w1 fw1 ->
   ProducerConsumerWaitNotify.run m t3 t4 s4 w1
     = ProducerConsumerWaitNotify.Returned w2 fw2 ->
   fst (ProducerConsumerWaitNotify.get_destination_container w2) = range1 m /\
   items_produced (ProducerConsumerWaitNotify.stats w2) = m /\
   items_consumed (ProducerConsumerWaitNotify.stats w2) = m /\
   fw2 = [] /\
   ProducerConsumerWaitNotify.capacity w2 = ProducerConsumerWaitNotify.capacity w).
Proof.
  intros Hq Hqc Hw Hwc. split; intros R1 R2.
  - destruct (ProducerConsumerTheory.q_run_returned _ _ _ _ Hq Hqc R1)
      as (_ & _ & _ & _ & _ & _ & Hc1 & Hi1).
    assert (0 < ProducerConsumer.capacity q1) as Hqc1 by lia.
    destruct (ProducerConsumerTheory.q_run_returned _ _ _ _ Hi1 Hqc1 R2)
      as (Hf & _ & Hd & Hp & Hk & _ & Hc2 & _).
    simpl. repeat split; auto; congruence.
  - destruct (WaitNotifyTheory.w_run_returned _ _ _ _ Hw Hwc R1)
      as (_ & _ & _ & _ & _ & _ & Hc1 & Hi1).
    assert (0 < ProducerConsumerWaitNotify.capacity w1) as Hwc1 by lia.
    destruct (WaitNotifyTheory.w_run_returned _ _ _ _ Hi1 Hwc1 R2)
      as (Hf & _ & Hd & Hp & Hk & _ & Hc2 & _).
    simpl. repeat split; auto; congruence.
Qed.

Lemma run_can_be_repeated_witness :
  exists q1 q2 w1 w2,
    ProducerConsumer.run 2 0%float 1%float (alternate 40) (queue_instance 2)
      = ProducerConsumer.Returned q1 [] /\
    ProducerConsumer.run 3 2%float 3%float (alternate 60) q1
      = ProducerConsumer.Returned q2 [] /\
    ProducerConsumerWaitNotify.run 2 0%float 1%float (alternate 60)
        (wait_notify_instance 2)
      = ProducerConsumerWaitNotify.Returned w1 [] /\
    ProducerConsumerWaitNotify.run 3 2%float 3%float (alternate 80) w1
      = ProducerConsumerWaitNotify.Returned w2 [] /\
    fst (ProducerConsumer.get_destination_container q2)
      = [Some 1; Some 2; Some 3] /\
    fst (ProducerConsumerWaitNotify.get_destination_container w2)
      = [Some 1; Some 2; Some 3].
Proof.
  eexists. eexists. eexists. eexists.
  split; [vm_compute; reflexivity|].
  match goal with
  | |- ProducerConsumer.run _ _ _ _ ?a = _ /\ _ => pose (q1 := a)
  end.
  split; [vm_compute; reflexivity|]. split; [vm_compute; reflexivity|].
  match goal with
  | |- ProducerConsumerWaitNotify.run _ _ _ _ ?a = _ /\ _ => pose (w1 := a)
  end.
  split; [vm_compute; reflexivity|].
  match goal with
  | |- fst (ProducerConsumer.get_destination_container ?b) = _ /\
       fst (ProducerConsumerWaitNotify.get_destination_container ?d) = _ =>
      destruct (@run_can_be_repeated 2 3 0%float 1%float 2%float 3%float
                  (alternate 40) (alternate 60) (alternate 60) (alternate 80)
                  (queue_instance 2) q1 b (wait_notify_instance 2) w1 d
                  [] [] [] [])
        as [Hq Hw]
  end.
  - constructor; reflexivity.
  - reflexivity.
  - constructor; reflexivity.
  - reflexivity.
  - split.
    + apply Hq; vm_compute; reflexivity.
    + apply Hw; vm_compute; reflexivity.
Defined.

Lemma items_eqb_refl l : items_eqb l l = true.
Proof.
  induction l as [|[x|] l IH]; simpl; auto.
  now rewrite Z.eqb_refl.
Qed.

(** X14. The report of a run that returned. [perform_analysis], called by
    [run] on the instance it returns with, finds all four checks passing:
    data match, count match, no data loss, balanced; in both classes. *)
Theorem analysis_finds_every_check_passing
  (item_count : Z) (t_start t_end : float) (sched_q sched_w : list event)
  (q q' : ProducerConsumer.t) (w w' : ProducerConsumerWaitNotify.t)
  (fq fw : list exn) :
  ProducerConsumer.idle q -> 0 < ProducerConsumer.capacity q ->
  ProducerConsumerWaitNotify.idle w -> 0 < ProducerConsumerWaitNotify.capacity w ->
  (ProducerConsumer.run item_count t_start t_end sched_q q
     = ProducerConsumer.Returned q' fq ->
   ProducerConsumer.perform_analysis_verdicts q'
     = mk_verdicts true true true true) /\
  (ProducerConsumerWaitNotify.run item_count t_start t_end sched_w w
     = ProducerConsumerWaitNotify.Returned w' fw ->
   ProducerConsumerWaitNotify.perform_analysis_verdicts w'
     = mk_verdicts true true true true).
Proof.
  intros Hq Hqc Hw Hwc. split; intros R.
  - destruct (ProducerConsumerTheory.q_run_returned _ _ _ _ Hq Hqc R)
      as (_ & Hs & Hd & Hp & Hk & _).
    unfold ProducerConsumer.perform_analysis_verdicts. simpl.
    rewrite Hs, Hd, Hp, Hk, items_eqb_refl, !Z.eqb_refl, Z.sub_diag.
    reflexivity.
  - destruct (WaitNotifyTheory.w_run_returned _ _ _ _ Hw Hwc R)
      as (_ & Hs & Hd & Hp & Hk & _).
    unfold ProducerConsumerWaitNotify.perform_analysis_verdicts. simpl.
    rewrite Hs, Hd, Hp, Hk, items_eqb_refl, !Z.eqb_refl, Z.sub_diag.
    reflexivity.
Qed.

Lemma analysis_finds_every_check_passing_witness :
  exists q' w',
    ProducerConsumer.run 3 0%float 9%float (alternate 50) (queue_instance 2)
      = ProducerConsumer.Returned q' [] /\
    ProducerConsumerWaitNotify.run 3 0%float 9%float (alternate 60)
        (wait_notify_instance 2)
      = ProducerConsumerWaitNotify.Returned w' [] /\
    ProducerConsumer.perform_analysis_verdicts q'
      = mk_verdicts true true true true /\
    ProducerConsumerWaitNotify.perform_analysis_verdicts w'
      = mk_verdicts true true true true.
Proof.
  eexists. eexists.
  split; [vm_compute; reflexivity|]. split; [vm_compute; reflexivity|].
  match goal with
  | |- ProducerConsumer.perform_analysis_verdicts ?a = _ /\
       ProducerConsumerWaitNotify.perform_analysis_verdicts ?b = _ =>
      destruct (@analysis_finds_every_check_passing 3 0%float 9%float
                  (alternate 50) (alternate 60)
                  (queue_instance 2) a (wait_notify_instance 2) b [] [])
        as [Hq Hw]
  end.
  - constructor; reflexivity.
  - reflexivity.
  - constructor; reflexivity.
  - reflexivity.
  - split.
    + apply Hq; vm_compute; reflexivity.
    + apply Hw; vm_compute; reflexivity.
Defined.

Lemma nth_range1 n i :
  0 <= i < n -> nth_error (range1 n) (Z.to_nat i) = Some (Some (i + 1)).
Proof.
  intros Hi. unfold range1.
  rewrite nth_error_map, nth_error_seq.
  destruct (Nat.ltb_spec (Z.to_nat i) (Z.to_nat n)); [|lia].
  simpl. do 2 f_equal. lia.
Qed.

(** X15.  [initialize_source] with a count that is not negative succeeds in both
    classes and gives both the same source: [item_count] items, the one at
    index [i] being [i + 1], none of them [None]; the queue, destination,
    capacity, statistics and finished flag stay as they were. *)
Theorem initialize_source_builds_the_range
  (item_count : Z) (q : ProducerConsumer.t) (w : ProducerConsumerWaitNotify.t) :
  0 <= item_count ->
  exists q' w',
    ProducerConsumer.initialize_source item_count q = inr q' /\
    ProducerConsumerWaitNotify.initialize_source item_count w = inr w' /\
    fst (ProducerConsumerWaitNotify.get_source_container w')
      = fst (ProducerConsumer.get_source_container q') /\
    len (fst (ProducerConsumer.get_source_container q')) = item_count /\
    (forall i, 0 <= i < item_count ->
       nth_error (fst (ProducerConsumer.get_source_container q')) (Z.to_nat i)
       = Some (Some (i + 1))) /\
    nn (fst (ProducerConsumer.get_source_container q'))
      = fst (ProducerConsumer.get_source_container q') /\
    (ProducerConsumer.shared_queue q' = ProducerConsumer.shared_queue q /\
     ProducerConsumer.destination_container q'
       = ProducerConsumer.destination_container q /\
     ProducerConsumer.capacity q' = ProducerConsumer.capacity q /\
     ProducerConsumer.stats q' = ProducerConsumer.stats q /\
     ProducerConsumer._producer_finished q' = ProducerConsumer._producer_finished q) /\
    (ProducerConsumerWaitNotify.shared_queue w'
       = ProducerConsumerWaitNotify.shared_queue w /\
     ProducerConsumerWaitNotify.destination_container w'
       = ProducerConsumerWaitNotify.destination_container w /\
     ProducerConsumerWaitNotify.capacity w' = ProducerConsumerWaitNotify.capacity w /\
     ProducerConsumerWaitNotify.stats w' = ProducerConsumerWaitNotify.stats w /\
     ProducerConsumerWaitNotify.condition w'
       = ProducerConsumerWaitNotify.condition w /\
     ProducerConsumerWaitNotify.producer_finished w'
       = ProducerConsumerWaitNotify.producer_finished w).
Proof.
  intros Hn.
  unfold ProducerConsumer.initialize_source,
    ProducerConsumerWaitNotify.initialize_source.
  destruct (Z.ltb_spec item_count 0); [lia|].
  eexists. eexists. split; [reflexivity|]. split; [reflexivity|]. simpl.
  split; [reflexivity|]. split; [now apply len_range1|].
  split; [intros i Hi; now apply nth_range1|].
  split; [apply nn_range1|]. repeat split.
Qed.

Lemma initialize_source_builds_the_range_witness :
  exists q' w',
    ProducerConsumer.initialize_source 10 (queue_instance 5) = inr q' /\
    ProducerConsumerWaitNotify.initialize_source 10 (wait_notify_instance 5)
      = inr w' /\
    len (fst (ProducerConsumer.get_source_container q')) = 10 /\
    nth_error (fst (ProducerConsumer.get_source_container q')) 0 = Some (Some 1) /\
    nth_error (fst (ProducerConsumer.get_source_container q')) 9 = Some (Some 10) /\
    fst (ProducerConsumerWaitNotify.get_source_container w')
      = fst (ProducerConsumer.get_source_container q').
Proof.
  destruct (@initialize_source_builds_the_range 10 (queue_instance 5)
              (wait_notify_instance 5))
    as (q' & w' & Hq & Hw & Hs & Hl & Hi & _); [lia|].
  exists q', w'. repeat split; auto.
  - apply (Hi 0). lia.
  - apply (Hi 9). lia.
Defined.

(** ** The high-water mark *)

Lemma nn_firstn_mono (l : list item) i j :
  (i <= j)%nat -> len (nn (firstn i l)) <= len (nn (firstn j l)).
Proof.
  intros Hij.
  replace (firstn i l) with (firstn i (firstn j l))
    by (rewrite firstn_firstn; f_equal; lia).
  apply nn_firstn_le.
Qed.

Lemma nn_firstn_all_ge (l : list item) i :
  len (nn (firstn i l)) <= len (nn (firstn (length l) l)).
Proof. rewrite firstn_all. apply nn_firstn_le. Qed.

Section HighWater.
Variables (src : list item) (cap total : Z).
Local Arguments firstn : simpl never.
Local Arguments nn : simpl never.
Local Arguments Z.add : simpl never.
Local Arguments Z.sub : simpl never.
Local Arguments Z.max : simpl never.

Lemma q_hw_step st ev :
  ProducerConsumer.Inv src cap total st -> ProducerConsumer.hw_ok src st ->
  ProducerConsumer.hw_ok src (ProducerConsumer.step total st ev).
Proof.
  intros H [Hm Hp].
  unfold ProducerConsumer.step, ProducerConsumer.step_opt.
  destruct ev as [[|] now]; simpl.
  - destruct (ProducerConsumer.producer_step now _ _) as [[pc self']|] eqn:E;
      [|split; assumption].
    pose proof (ProducerConsumer.inv_src H) as Hsrc.
    pose proof (ProducerConsumer.inv_data H) as Hdata.
    destruct st as [[[ms q unf] s d c stt fin] p k]. simpl in *. subst s.
    unfold ProducerConsumer.hw_ok. simpl.
    destruct p; simpl in *; break_match_in E; inversion E; subst; simpl;
      (split; [|auto]);
      try (eapply Z.le_trans; [exact Hm|]);
      try (apply nn_firstn_mono; lia);
      try apply nn_firstn_all_ge; try lia.
    unfold Queue.qsize. simpl. rewrite Hdata, !len_app.
    pose proof (len_nonneg d).
    pose proof (len_nonneg (ProducerConsumer.c_inflight k)). lia.
  - destruct (ProducerConsumer.consumer_step total now _ _) as [[pc self']|] eqn:E;
      [|split; assumption].
    destruct (q_consumer_step_frame _ _ _ _ E) as (_ & _ & _ & _ & _ & _ & _ & Hx).
    unfold ProducerConsumer.hw_ok. simpl. rewrite Hx. split; assumption.
Qed.

Lemma w_hw_step st ev :
  ProducerConsumerWaitNotify.Inv src cap total st ->
  ProducerConsumerWaitNotify.hw_ok src st ->
  ProducerConsumerWaitNotify.hw_ok src (ProducerConsumerWaitNotify.step total st ev).
Proof.
  intros H [Hm Hp].
  unfold ProducerConsumerWaitNotify.step, ProducerConsumerWaitNotify.step_opt.
  destruct ev as [[|] now]; simpl.
  - destruct (ProducerConsumerWaitNotify.producer_step now _ _)
      as [[pc self']|] eqn:E; [|split; assumption].
    pose proof (ProducerConsumerWaitNotify.inv_src H) as Hsrc.
    pose proof (ProducerConsumerWaitNotify.inv_data H) as Hdata.
    pose proof (ProducerConsumerWaitNotify.inv_nonempty H) as Hne.
    pose proof (ProducerConsumerWaitNotify.inv_produced H) as Hprod.
    destruct st as [[q s d c [ow ws] fin stt] p k]. simpl in *. subst s.
    unfold ProducerConsumerWaitNotify.hw_ok. simpl.
    destruct p; simpl in *; break_match_in E; inversion E; subst; simpl;
      (split; [|auto; try lia]);
      try (eapply Z.le_trans; [exact Hm|]);
      try (apply nn_firstn_mono; lia);
      try apply nn_firstn_all_ge; try lia.
    rewrite Hdata, !len_app.
    pose proof (len_nonneg d).
    pose proof (len_nonneg (ProducerConsumerWaitNotify.c_inflight k)). lia.
  - destruct (ProducerConsumerWaitNotify.consumer_step total now _ _)
      as [[pc self']|] eqn:E; [|split; assumption].
    destruct (w_consumer_step_frame _ _ _ _ E)
      as (_ & _ & _ & _ & _ & Hi & _ & Hx).
    unfold ProducerConsumerWaitNotify.hw_ok. simpl. rewrite Hx, Hi.
    split; assumption.
Qed.

Lemma q_hw_exec sched : forall st,
  ProducerConsumer.Inv src cap total st -> ProducerConsumer.hw_ok src st ->
  ProducerConsumer.hw_ok src (ProducerConsumer.exec total sched st).
Proof.
  unfold ProducerConsumer.exec.
  induction sched as [|ev sched IH]; intros st H Hh; simpl; auto.
  apply IH; [now apply ProducerConsumerTheory.q_inv_step | now apply q_hw_step].
Qed.

Lemma w_hw_exec sched : forall st,
  ProducerConsumerWaitNotify.Inv src cap total st ->
  ProducerConsumerWaitNotify.hw_ok src st ->
  ProducerConsumerWaitNotify.hw_ok src (ProducerConsumerWaitNotify.exec total sched st).
Proof.
  unfold ProducerConsumerWaitNotify.exec.
  induction sched as [|ev sched IH]; intros st H Hh; simpl; auto.
  apply IH; [now apply WaitNotifyTheory.w_inv_step | now apply w_hw_step].
Qed.

End HighWater.

(** X16.  The high-water mark of a run that returned is at most the item count
    (as well as at most the capacity), in both classes; in the wait/notify
    class, where the size is sampled under the lock right after the append,
    it is at least 1 as soon as one item was transferred. *)
Theorem high_water_mark_within_item_count
  (item_count : Z) (t_start t_end : float) (sched_q sched_w : list event)
  (q q' : ProducerConsumer.t) (w w' : ProducerConsumerWaitNotify.t)
  (fq fw : list exn) :
  ProducerConsumer.idle q -> 0 < ProducerConsumer.capacity q ->
  ProducerConsumerWaitNotify.idle w -> 0 < ProducerConsumerWaitNotify.capacity w ->
  (ProducerConsumer.run item_count t_start t_end sched_q q
     = ProducerConsumer.Returned q' fq ->
   0 <= max_queue_size (ProducerConsumer.stats q')
     <= Z.min (ProducerConsumer.capacity q) item_count) /\
  (ProducerConsumerWaitNotify.run item_count t_start t_end sched_w w
     = ProducerConsumerWaitNotify.Returned w' fw ->
   0 <= max_queue_size (ProducerConsumerWaitNotify.stats w')
     <= Z.min (ProducerConsumerWaitNotify.capacity w) item_count /\
   (1 <= item_count -> 1 <= max_queue_size (ProducerConsumerWaitNotify.stats w'))).
Proof.
  intros Hq Hqc Hw Hwc. split; intros R.
  - destruct (ProducerConsumerTheory.q_run_returned _ _ _ _ Hq Hqc R)
      as (_ & _ & _ & _ & _ & Hm & Hc & _).
    unfold ProducerConsumer.run in R.
    destruct (ProducerConsumer.run_begin item_count t_start q)
      as [e|q1] eqn:E; [discriminate|].
    destruct (@ProducerConsumerTheory.q_run_inv item_count t_start sched_q q q1
                Hq Hqc E) as [Hn H].
    destruct (@ProducerConsumerTheory.q_run_inv item_count t_start [] q q1
                Hq Hqc E) as [_ H0].
    destruct (ProducerConsumer.joined _) eqn:Hj; [|discriminate].
    inversion R; subst q' fq; clear R. simpl in *.
    assert (ProducerConsumer.hw_ok (range1 item_count) (ProducerConsumer.spawn q1))
      as Hh0.
    { unfold ProducerConsumer.hw_ok. simpl. split; auto.
      pose proof (ProducerConsumer.inv_max H0). simpl in *.
      unfold ProducerConsumer.run_begin, ProducerConsumer.initialize_source in E.
      destruct (item_count <? 0); inversion E; subst. simpl. reflexivity. }
    destruct (q_hw_exec sched_q H0 Hh0) as [Hs _].
    unfold ProducerConsumer.joined in Hj. apply andb_prop in Hj.
    destruct Hj as [Hp _].
    destruct (ProducerConsumer.producer_thread _); try discriminate.
    simpl in Hs. rewrite firstn_all, nn_range1, len_range1 in Hs by assumption.
    lia.
  - destruct (WaitNotifyTheory.w_run_returned _ _ _ _ Hw Hwc R)
      as (_ & _ & _ & Hp' & _ & Hm & Hc & _).
    unfold ProducerConsumerWaitNotify.run in R.
    destruct (ProducerConsumerWaitNotify.run_begin item_count t_start w)
      as [e|w1] eqn:E; [discriminate|].
    destruct (@WaitNotifyTheory.w_run_inv item_count t_start [] w w1
                Hw Hwc E) as [Hn H0].
    destruct (ProducerConsumerWaitNotify.joined _) eqn:Hj; [|discriminate].
    inversion R; subst w' fw; clear R. simpl in *.
    assert (ProducerConsumerWaitNotify.hw_ok (range1 item_count)
              (ProducerConsumerWaitNotify.spawn w1)) as Hh0.
    { unfold ProducerConsumerWaitNotify.hw_ok. simpl.
      unfold ProducerConsumerWaitNotify.run_begin,
        ProducerConsumerWaitNotify.initialize_source in E.
      destruct (item_count <? 0); inversion E; subst. simpl.
      split; [reflexivity | lia]. }
    destruct (w_hw_exec sched_w H0 Hh0) as [Hs Hl].
    unfold ProducerConsumerWaitNotify.joined in Hj. apply andb_prop in Hj.
    destruct Hj as [Hp _].
    destruct (ProducerConsumerWaitNotify.producer_thread _); try discriminate.
    simpl in Hs, Hl.
    rewrite firstn_all, nn_range1, len_range1 in Hs by assumption.
    split; [lia|]. intros H1. apply Hl. lia.
Qed.

Lemma high_water_mark_within_item_count_witness :
  exists q' w',
    ProducerConsumer.run 2 0%float 9%float (turns Producer 40 ++ alternate 40)
        (queue_instance 5)
      = ProducerConsumer.Returned q' [] /\
    ProducerConsumerWaitNotify.run 2 0%float 9%float (alternate 60)
        (wait_notify_instance 5)
      = ProducerConsumerWaitNotify.Returned w' [] /\
    0 <= max_queue_size (ProducerConsumer.stats q') <= Z.min 5 2 /\
    0 <= max_queue_size (ProducerConsumerWaitNotify.stats w') <= Z.min 5 2 /\
    1 <= max_queue_size (ProducerConsumerWaitNotify.stats w').
Proof.
  eexists. eexists.
  split; [vm_compute; reflexivity|]. split; [vm_compute; reflexivity|].
  match goal with
  | |- 0 <= max_queue_size (ProducerConsumer.stats ?a) <= _ /\
       0 <= max_queue_size (ProducerConsumerWaitNotify.stats ?b) <= _ /\ _ =>
      destruct (@high_water_mark_within_item_count 2 0%float 9%float
                  (turns Producer 40 ++ alternate 40) (alternate 60)
                  (queue_instance 5) a (wait_notify_instance 5) b [] [])
        as [Hq Hw]
  end.
  - constructor; reflexivity.
  - reflexivity.
  - constructor; reflexivity.
  - reflexivity.
  - split; [apply Hq; vm_compute; reflexivity|].
    destruct Hw as [Hb Hl]; [vm_compute; reflexivity|].
    split; [exact Hb | apply Hl; lia].
Defined.

(** ** A starved consumer, on a sample *)

Lemma queue_consumer_never_returns_witness :
  ProducerConsumer.ready [Some 7; None] 1
    (ProducerConsumer.mk (Queue.new 1) [Some 7; None] [] 1 Statistics_new false) /\
  len (nn [Some 7; None]) < 3 /\
  ProducerConsumer.joined
    (ProducerConsumer.exec 3 (alternate 9)
       (ProducerConsumer.spawn
          (ProducerConsumer.mk (Queue.new 1) [Some 7; None] [] 1
             Statistics_new false))) = false.
Proof.
  assert (ProducerConsumer.ready [Some 7; None] 1
            (ProducerConsumer.mk (Queue.new 1) [Some 7; None] [] 1
               Statistics_new false)) as Hr
    by (constructor; simpl; auto; lia).
  assert (len (nn [Some 7; None]) < 3) as Ht by (vm_compute; reflexivity).
  split; [exact Hr|]. split; [exact Ht|].
  exact (@queue_consumer_never_returns [Some 7; None] 1 3 _ (alternate 9) Hr Ht).
Defined.

(** ** What a run never undoes *)

Lemma q_step_grows total st ev :
  let st' := ProducerConsumer.step total st ev in
  (exists more,
     ProducerConsumer.destination_container (ProducerConsumer.self_ st')
     = ProducerConsumer.destination_container (ProducerConsumer.self_ st) ++ more) /\
  items_produced (ProducerConsumer.stats (ProducerConsumer.self_ st))
    <= items_produced (ProducerConsumer.stats (ProducerConsumer.self_ st')) /\
  items_consumed (ProducerConsumer.stats (ProducerConsumer.self_ st))
    <= items_consumed (ProducerConsumer.stats (ProducerConsumer.self_ st')) /\
  max_queue_size (ProducerConsumer.stats (ProducerConsumer.self_ st))
    <= max_queue_size (ProducerConsumer.stats (ProducerConsumer.self_ st')) /\
  (ProducerConsumer._producer_finished (ProducerConsumer.self_ st) = true ->
   ProducerConsumer._producer_finished (ProducerConsumer.self_ st') = true).
Proof.
  cbv zeta. unfold ProducerConsumer.step, ProducerConsumer.step_opt.
  assert (forall l : list item, exists more, l = l ++ more) as Hnil
    by (intros l; exists []; now rewrite app_nil_r).
  destruct st as [self p k]. destruct ev as [[|] now]; simpl.
  - destruct (ProducerConsumer.producer_step now p self) as [[pc self']|] eqn:E;
      simpl; [|repeat split; auto; lia].
    destruct p; simpl in E; break_match_in E; inversion E; subst; simpl;
      repeat split; auto; lia.
  - destruct (ProducerConsumer.consumer_step total now k self)
      as [[pc self']|] eqn:E; simpl; [|repeat split; auto; lia].
    destruct k; simpl in E; break_match_in E; inversion E; subst; simpl;
      repeat split; eauto; lia.
Qed.

Lemma w_step_grows total st ev :
  let st' := ProducerConsumerWaitNotify.step total st ev in
  (exists more,
     ProducerConsumerWaitNotify.destination_container
       (ProducerConsumerWaitNotify.self_ st')
     = ProducerConsumerWaitNotify.destination_container
         (ProducerConsumerWaitNotify.self_ st) ++ more) /\
  items_produced (ProducerConsumerWaitNotify.stats (ProducerConsumerWaitNotify.self_ st))
    <= items_produced (ProducerConsumerWaitNotify.stats
                         (ProducerConsumerWaitNotify.self_ st')) /\
  items_consumed (ProducerConsumerWaitNotify.stats (ProducerConsumerWaitNotify.self_ st))
    <= items_consumed (ProducerConsumerWaitNotify.stats
                         (ProducerConsumerWaitNotify.self_ st')) /\
  max_queue_size (ProducerConsumerWaitNotify.stats (ProducerConsumerWaitNotify.self_ st))
    <= max_queue_size (ProducerConsumerWaitNotify.stats
                         (ProducerConsumerWaitNotify.self_ st')) /\
  (ProducerConsumerWaitNotify.producer_finished (ProducerConsumerWaitNotify.self_ st)
     = true ->
   ProducerConsumerWaitNotify.producer_finished (ProducerConsumerWaitNotify.self_ st')
     = true).
Proof.
  cbv zeta. unfold ProducerConsumerWaitNotify.step, ProducerConsumerWaitNotify.step_opt.
  assert (forall l : list item, exists more, l = l ++ more) as Hnil
    by (intros l; exists []; now rewrite app_nil_r).
  destruct st as [self p k]. destruct ev as [[|] now]; simpl.
  - destruct (ProducerConsumerWaitNotify.producer_step now p self)
      as [[pc self']|] eqn:E; simpl; [|repeat split; auto; lia].
    destruct p; simpl in E; break_match_in E; inversion E; subst; simpl;
      repeat split; auto; lia.
  - destruct (ProducerConsumerWaitNotify.consumer_step total now k self)
      as [[pc self']|] eqn:E; simpl; [|repeat split; auto; lia].
    destruct k; simpl in E; break_match_in E; inversion E; subst; simpl;
      repeat split; eauto; lia.
Qed.

(** X19.  Nothing is taken back.  In both classes, from any state of the two
    threads and for any schedule and any continuation of it: the
    destination after the continuation extends the destination before it
    (items are only ever appended), [items_produced], [items_consumed] and
    [max_queue_size] do not decrease, and the finished flag, once set, stays
    set. *)
Theorem progress_is_never_undone :
  (forall total sched more st,
     let a := ProducerConsumer.self_ (ProducerConsumer.exec total sched st) in
     let b := ProducerConsumer.self_
                (ProducerConsumer.exec total (sched ++ more) st) in
     (exists added,
        ProducerConsumer.destination_container b
        = ProducerConsumer.destination_container a ++ added) /\
     items_produced (ProducerConsumer.stats a)
       <= items_produced (ProducerConsumer.stats b) /\
     items_consumed (ProducerConsumer.stats a)
       <= items_consumed (ProducerConsumer.stats b) /\
     max_queue_size (ProducerConsumer.stats a)
       <= max_queue_size (ProducerConsumer.stats b) /\
     (ProducerConsumer._producer_finished a = true ->
      ProducerConsumer._producer_finished b = true)) /\
  (forall total sched more st,
     let a := ProducerConsumerWaitNotify.self_
                (ProducerConsumerWaitNotify.exec total sched st) in
     let b := ProducerConsumerWaitNotify.self_
                (ProducerConsumerWaitNotify.exec total (sched ++ more) st) in
     (exists added,
        ProducerConsumerWaitNotify.destination_container b
        = ProducerConsumerWaitNotify.destination_container a ++ added) /\
     items_produced (ProducerConsumerWaitNotify.stats a)
       <= items_produced (ProducerConsumerWaitNotify.stats b) /\
     items_consumed (ProducerConsumerWaitNotify.stats a)
       <= items_consumed (ProducerConsumerWaitNotify.stats b) /\
     max_queue_size (ProducerConsumerWaitNotify.stats a)
       <= max_queue_size (ProducerConsumerWaitNotify.stats b) /\
     (ProducerConsumerWaitNotify.producer_finished a = true ->
      ProducerConsumerWaitNotify.producer_finished b = true)).
Proof.
  split; intros total sched more st; cbv zeta.
  - unfold ProducerConsumer.exec. rewrite fold_left_app.
    generalize (fold_left (ProducerConsumer.step total) sched st). clear.
    induction more as [|ev more IH]; intros s; simpl.
    + repeat split; auto; try lia. exists []. now rewrite app_nil_r.
    + destruct (q_step_grows total s ev) as ([m1 H1] & H2 & H3 & H4 & H5).
      destruct (IH (ProducerConsumer.step total s ev))
        as ([m2 I1] & I2 & I3 & I4 & I5).
      repeat split; auto; try lia.
      exists (m1 ++ m2). now rewrite I1, H1, app_assoc.
  - unfold ProducerConsumerWaitNotify.exec. rewrite fold_left_app.
    generalize (fold_left (ProducerConsumerWaitNotify.step total) sched st). clear.
    induction more as [|ev more IH]; intros s; simpl.
    + repeat split; auto; try lia. exists []. now rewrite app_nil_r.
    + destruct (w_step_grows total s ev) as ([m1 H1] & H2 & H3 & H4 & H5).
      destruct (IH (ProducerConsumerWaitNotify.step total s ev))
        as ([m2 I1] & I2 & I3 & I4 & I5).
      repeat split; auto; try lia.
      exists (m1 ++ m2). now rewrite I1, H1, app_assoc.
Qed.

Lemma progress_is_never_undone_witness :
  let st := ProducerConsumer.spawn
              (ProducerConsumer.mk (Queue.new 1) [Some 7; None; Some 8] [] 1
                 Statistics_new false) in
  let a := ProducerConsumer.self_ (ProducerConsumer.exec 2 (alternate 6) st) in
  let b := ProducerConsumer.self_
             (ProducerConsumer.exec 2 (alternate 6 ++ alternate 20) st) in
  ProducerConsumer.destination_container a = [Some 7] /\
  ProducerConsumer.destination_container b = [Some 7; Some 8] /\
  (exists added,
     ProducerConsumer.destination_container b
     = ProducerConsumer.destination_container a ++ added) /\
  items_produced (ProducerConsumer.stats a)
    <= items_produced (ProducerConsumer.stats b) /\
  items_consumed (ProducerConsumer.stats a)
    <= items_consumed (ProducerConsumer.stats b) /\
  max_queue_size (ProducerConsumer.stats a)
    <= max_queue_size (ProducerConsumer.stats b) /\
  (ProducerConsumer._producer_finished a = true ->
   ProducerConsumer._producer_finished b = true).
Proof.
  cbv zeta. split; [vm_compute; reflexivity|]. split; [vm_compute; reflexivity|].
  destruct progress_is_never_undone as [Hq _].
  exact (Hq 2 (alternate 6) (alternate 20)
           (ProducerConsumer.spawn
              (ProducerConsumer.mk (Queue.new 1) [Some 7; None; Some 8] [] 1
                 Statistics_new false))).
Defined.

(** ** Exceptions inside the threads *)

Lemma q_negative_total_step total st ev :
  total < 0 ->
  ProducerConsumer.consumer_thread st = ProducerConsumer.C_start \/
  ProducerConsumer.consumer_thread st
    = ProducerConsumer.C_failed (ValueError "Total items must be non-negative") ->
  let st' := ProducerConsumer.step total st ev in
  (ProducerConsumer.consumer_thread st' = ProducerConsumer.C_start \/
   ProducerConsumer.consumer_thread st'
     = ProducerConsumer.C_failed (ValueError "Total items must be non-negative")) /\
  (fst ev = Consumer ->
   ProducerConsumer.consumer_thread st'
     = ProducerConsumer.C_failed (ValueError "Total items must be non-negative")) /\
  (ProducerConsumer.consumer_thread st
     = ProducerConsumer.C_failed (ValueError "Total items must be non-negative") ->
   ProducerConsumer.consumer_thread st'
     = ProducerConsumer.C_failed (ValueError "Total items must be non-negative")) /\
  ProducerConsumer.destination_container (ProducerConsumer.self_ st')
    = ProducerConsumer.destination_container (ProducerConsumer.self_ st) /\
  items_consumed (ProducerConsumer.stats (ProducerConsumer.self_ st'))
    = items_consumed (ProducerConsumer.stats (ProducerConsumer.self_ st)).
Proof.
  intros Ht Hk. cbv zeta.
  unfold ProducerConsumer.step, ProducerConsumer.step_opt.
  destruct st as [self p k]. destruct ev as [[|] now]; simpl in *.
  - destruct (ProducerConsumer.producer_step now p self) as [[pc self']|] eqn:E;
      simpl; [|repeat split; auto; discriminate].
    destruct (q_producer_step_frame _ _ _ E) as (_ & _ & _ & _ & Hd & Hc & _).
    repeat split; auto; discriminate.
  - destruct Hk as [-> | ->]; simpl.
    + destruct (Z.ltb_spec total 0); [|lia]. simpl. repeat split; auto.
    + repeat split; auto.
Qed.

Lemma q_negative_total_exec total sched : forall st,
  total < 0 ->
  ProducerConsumer.consumer_thread st = ProducerConsumer.C_start \/
  ProducerConsumer.consumer_thread st
    = ProducerConsumer.C_failed (ValueError "Total items must be non-negative") ->
  let st' := ProducerConsumer.exec total sched st in
  (ProducerConsumer.consumer_thread st' = ProducerConsumer.C_start \/
   ProducerConsumer.consumer_thread st'
     = ProducerConsumer.C_failed (ValueError "Total items must be non-negative")) /\
  (In Consumer (map fst sched) ->
   ProducerConsumer.consumer_thread st'
     = ProducerConsumer.C_failed (ValueError "Total items must be non-negative")) /\
  (ProducerConsumer.consumer_thread st
     = ProducerConsumer.C_failed (ValueError "Total items must be non-negative") ->
   ProducerConsumer.consumer_thread st'
     = ProducerConsumer.C_failed (ValueError "Total items must be non-negative")) /\
  ProducerConsumer.destination_container (ProducerConsumer.self_ st')
    = ProducerConsumer.destination_container (ProducerConsumer.self_ st) /\
  items_consumed (ProducerConsumer.stats (ProducerConsumer.self_ st'))
    = items_consumed (ProducerConsumer.stats (ProducerConsumer.self_ st)).
Proof.
  unfold ProducerConsumer.exec.
  induction sched as [|ev sched IH]; intros st Ht Hk; simpl.
  - repeat split; auto. intros [].
  - destruct (q_negative_total_step st ev Ht Hk) as (H1 & H2 & H3 & H4 & H5).
    destruct (IH _ Ht H1) as (I1 & I2 & I3 & I4 & I5).
    repeat split; auto; try congruence.
    intros [Hev | Hin]; auto.
Qed.

Lemma w_negative_total_step total st ev :
  total < 0 ->
  ProducerConsumerWaitNotify.consumer_thread st = ProducerConsumerWaitNotify.C_start \/
  ProducerConsumerWaitNotify.consumer_thread st
    = ProducerConsumerWaitNotify.C_failed
        (ValueError "Total items must be non-negative") ->
  let st' := ProducerConsumerWaitNotify.step total st ev in
  (ProducerConsumerWaitNotify.consumer_thread st' = ProducerConsumerWaitNotify.C_start \/
   ProducerConsumerWaitNotify.consumer_thread st'
     = ProducerConsumerWaitNotify.C_failed
         (ValueError "Total items must be non-negative")) /\
  (fst ev = Consumer ->
   ProducerConsumerWaitNotify.consumer_thread st'
     = ProducerConsumerWaitNotify.C_failed
         (ValueError "Total items must be non-negative")) /\
  (ProducerConsumerWaitNotify.consumer_thread st
     = ProducerConsumerWaitNotify.C_failed
         (ValueError "Total items must be non-negative") ->
   ProducerConsumerWaitNotify.consumer_thread st'
     = ProducerConsumerWaitNotify.C_failed
         (ValueError "Total items must be non-negative")) /\
  ProducerConsumerWaitNotify.destination_container
    (ProducerConsumerWaitNotify.self_ st')
    = ProducerConsumerWaitNotify.destination_container
        (ProducerConsumerWaitNotify.self_ st) /\
  items_consumed (ProducerConsumerWaitNotify.stats
                    (ProducerConsumerWaitNotify.self_ st'))
    = items_consumed (ProducerConsumerWaitNotify.stats
                        (ProducerConsumerWaitNotify.self_ st)).
Proof.
  intros Ht Hk. cbv zeta.
  unfold ProducerConsumerWaitNotify.step, ProducerConsumerWaitNotify.step_opt.
  destruct st as [self p k]. destruct ev as [[|] now]; simpl in *.
  - destruct (ProducerConsumerWaitNotify.producer_step now p self)
      as [[pc self']|] eqn:E; simpl; [|repeat split; auto; discriminate].
    destruct (w_producer_step_frame _ _ _ E) as (_ & _ & _ & _ & Hd & Hc & _).
    repeat split; auto; discriminate.
  - destruct Hk as [-> | ->]; simpl.
    + destruct (Z.ltb_spec total 0); [|lia]. simpl. repeat split; auto.
    + repeat split; auto.
Qed.

Lemma w_negative_total_exec total sched : forall st,
  total < 0 ->
  ProducerConsumerWaitNotify.consumer_thread st = ProducerConsumerWaitNotify.C_start \/
  ProducerConsumerWaitNotify.consumer_thread st
    = ProducerConsumerWaitNotify.C_failed
        (ValueError "Total items must be non-negative") ->
  let st' := ProducerConsumerWaitNotify.exec total sched st in
  (ProducerConsumerWaitNotify.consumer_thread st' = ProducerConsumerWaitNotify.C_start \/
   ProducerConsumerWaitNotify.consumer_thread st'
     = ProducerConsumerWaitNotify.C_failed
         (ValueError "Total items must be non-negative")) /\
  (In Consumer (map fst sched) ->
   ProducerConsumerWaitNotify.consumer_thread st'
     = ProducerConsumerWaitNotify.C_failed
         (ValueError "Total items must be non-negative")) /\
  (ProducerConsumerWaitNotify.consumer_thread st
     = ProducerConsumerWaitNotify.C_failed
         (ValueError "Total items must be non-negative") ->
   ProducerConsumerWaitNotify.consumer_thread st'
     = ProducerConsumerWaitNotify.C_failed
         (ValueError "Total items must be non-negative")) /\
  ProducerConsumerWaitNotify.destination_container
    (ProducerConsumerWaitNotify.self_ st')
    = ProducerConsumerWaitNotify.destination_container
        (ProducerConsumerWaitNotify.self_ st) /\
  items_consumed (ProducerConsumerWaitNotify.stats
                    (ProducerConsumerWaitNotify.self_ st'))
    = items_consumed (ProducerConsumerWaitNotify.stats
                        (ProducerConsumerWaitNotify.self_ st)).
Proof.
  unfold ProducerConsumerWaitNotify.exec.
  induction sched as [|ev sched IH]; intros st Ht Hk; simpl.
  - repeat split; auto. intros [].
  - destruct (w_negative_total_step st ev Ht Hk) as (H1 & H2 & H3 & H4 & H5).
    destruct (IH _ Ht H1) as (I1 & I2 & I3 & I4 & I5).
    repeat split; auto; try congruence.
    intros [Hev | Hin]; auto.
Qed.

(** X20.  The only exception a thread can meet.  In both classes, for any source
    (with or without [None] items), capacity and schedule: with a target
    count that is not negative no statement of [producer] or [consumer]
    raises, so neither [task_done()] is called once too often nor [pop(0)]
    on an empty list; with a negative target count the consumer's first
    statement raises the [ValueError] of its guard, which its own [except]
    clause catches, and the consumer returns with nothing consumed. *)
Theorem threads_raise_only_on_a_negative_count
  (src : list item) (cap total : Z)
  (q : ProducerConsumer.t) (w : ProducerConsumerWaitNotify.t)
  (sched : list event) :
  ProducerConsumer.ready src cap q ->
  ProducerConsumerWaitNotify.ready src cap w ->
  let sq := ProducerConsumer.exec total sched (ProducerConsumer.spawn q) in
  let sw := ProducerConsumerWaitNotify.exec total sched
              (ProducerConsumerWaitNotify.spawn w) in
  (0 <= total ->
   ProducerConsumer.role_failures sq = [] /\
   ProducerConsumerWaitNotify.role_failures sw = []) /\
  (total < 0 ->
   (In Consumer (map fst sched) ->
    ProducerConsumer.role_failures sq
      = [ValueError "Total items must be non-negative"] /\
    ProducerConsumerWaitNotify.role_failures sw
      = [ValueError "Total items must be non-negative"]) /\
   ProducerConsumer.destination_container (ProducerConsumer.self_ sq) = [] /\
   items_consumed (ProducerConsumer.stats (ProducerConsumer.self_ sq)) = 0 /\
   ProducerConsumerWaitNotify.destination_container
     (ProducerConsumerWaitNotify.self_ sw) = [] /\
   items_consumed (ProducerConsumerWaitNotify.stats
                     (ProducerConsumerWaitNotify.self_ sw)) = 0).
Proof.
  intros Hq Hw. cbv zeta. split; intros Ht.
  - split.
    + pose proof (ProducerConsumerTheory.q_inv_exec sched
                    (ProducerConsumerTheory.q_inv_spawn total Hq)) as H.
      pose proof (ProducerConsumer.inv_local H) as Hl.
      unfold ProducerConsumer.role_failures.
      destruct (ProducerConsumer.consumer_thread _); simpl in *; auto; lia.
    + exact (WaitNotifyTheory.w_no_failure
               (WaitNotifyTheory.w_inv_exec sched
                  (WaitNotifyTheory.w_inv_spawn total Hw)) Ht).
  - destruct (@q_negative_total_exec total sched (ProducerConsumer.spawn q) Ht)
      as (_ & Q2 & _ & Q4 & Q5); [left; reflexivity|].
    destruct (@w_negative_total_exec total sched
                (ProducerConsumerWaitNotify.spawn w) Ht)
      as (_ & W2 & _ & W4 & W5); [left; reflexivity|].
    simpl in Q4, Q5, W4, W5.
    rewrite Q4, Q5, W4, W5.
    rewrite (ProducerConsumer.ready_dest Hq), (ProducerConsumer.ready_consumed Hq),
      (ProducerConsumerWaitNotify.ready_dest Hw),
      (ProducerConsumerWaitNotify.ready_consumed Hw).
    split; [|repeat split; reflexivity].
    intros Hin.
    unfold ProducerConsumer.role_failures,
      ProducerConsumerWaitNotify.role_failures.
    rewrite (Q2 Hin), (W2 Hin). split; reflexivity.
Qed.

Lemma threads_raise_only_on_a_negative_count_witness :
  let q := ProducerConsumer.mk (Queue.new 1) [Some 7; None; Some 8] [] 1
             Statistics_new false in
  let w := ProducerConsumerWaitNotify.mk [] [Some 7; None; Some 8] [] 1
             Condition.new false Statistics_new in
  ProducerConsumer.role_failures
    (ProducerConsumer.exec 2 (alternate 9) (ProducerConsumer.spawn q)) = [] /\
  ProducerConsumerWaitNotify.role_failures
    (ProducerConsumerWaitNotify.exec 2 (alternate 9)
       (ProducerConsumerWaitNotify.spawn w)) = [] /\
  ProducerConsumer.role_failures
    (ProducerConsumer.exec (-1) (alternate 9) (ProducerConsumer.spawn q))
    = [ValueError "Total items must be non-negative"] /\
  ProducerConsumerWaitNotify.role_failures
    (ProducerConsumerWaitNotify.exec (-1) (alternate 9)
       (ProducerConsumerWaitNotify.spawn w))
    = [ValueError "Total items must be non-negative"].
Proof.
  cbv zeta.
  assert (ProducerConsumer.ready [Some 7; None; Some 8] 1
            (ProducerConsumer.mk (Queue.new 1) [Some 7; None; Some 8] [] 1
               Statistics_new false)) as Hq
    by (constructor; simpl; auto; lia).
  assert (ProducerConsumerWaitNotify.ready [Some 7; None; Some 8] 1
            (ProducerConsumerWaitNotify.mk [] [Some 7; None; Some 8] [] 1
               Condition.new false Statistics_new)) as Hw
    by (constructor; simpl; auto; lia).
  destruct (@threads_raise_only_on_a_negative_count _ _ 2 _ _ (alternate 9) Hq Hw)
    as [[H1 H2] _]; [lia|].
  destruct (@threads_raise_only_on_a_negative_count _ _ (-1) _ _ (alternate 9) Hq Hw)
    as [_ [[H3 H4] _]]; [lia | vm_compute; auto |].
  repeat split; assumption.
Defined.

(** ** A consumer asked for fewer items than are produced *)

Lemma split_at_len (l a b : list item) t :
  l = a ++ b -> len a = t ->
  a = firstn (Z.to_nat t) l /\ b = skipn (Z.to_nat t) l.
Proof.
  intros -> <-. unfold len. rewrite Nat2Z.id.
  rewrite firstn_app, skipn_app, firstn_all, skipn_all, Nat.sub_diag.
  simpl. now rewrite app_nil_r.
Qed.

Lemma split_past_len (l : list item) t :
  len l <= t -> l = firstn (Z.to_nat t) l /\ [] = skipn (Z.to_nat t) l.
Proof.
  unfold len. intros H.
  rewrite firstn_all2, skipn_all2 by lia. split; reflexivity.
Qed.

Lemma q_joined_shape src cap total st :
  ProducerConsumer.Inv src cap total st -> 0 <= total ->
  ProducerConsumer.joined st = true ->
  ProducerConsumer.destination_container (ProducerConsumer.self_ st)
    = firstn (Z.to_nat total) (nn src) /\
  Queue.queue (ProducerConsumer.shared_queue (ProducerConsumer.self_ st))
    = skipn (Z.to_nat total) (nn src) /\
  total <= len (nn src) <= total + cap /\
  items_produced (ProducerConsumer.stats (ProducerConsumer.self_ st))
    = len (nn src) /\
  items_consumed (ProducerConsumer.stats (ProducerConsumer.self_ st)) = total.
Proof.
  intros H Ht Hj.
  pose proof (ProducerConsumer.inv_data H) as Hdata.
  pose proof (ProducerConsumer.inv_room H) as Hroom.
  pose proof (ProducerConsumer.inv_produced H) as Hprod.
  pose proof (ProducerConsumer.inv_consumed H) as Hcons.
  pose proof (ProducerConsumer.inv_local H) as Hloc.
  unfold ProducerConsumer.joined in Hj. apply andb_prop in Hj.
  destruct Hj as [Hp Hk].
  destruct (ProducerConsumer.producer_thread st); try discriminate.
  destruct (ProducerConsumer.consumer_thread st); try discriminate;
    simpl in *; [|lia].
  rewrite firstn_all in *.
  assert (len (ProducerConsumer.destination_container (ProducerConsumer.self_ st))
          = total) as Hd by lia.
  destruct (split_at_len _ _ Hdata Hd) as [Ha Hb].
  pose proof (len_nonneg
                (Queue.queue (ProducerConsumer.shared_queue
                                (ProducerConsumer.self_ st)))).
  assert (len (nn src) = total
          + len (Queue.queue (ProducerConsumer.shared_queue
                                (ProducerConsumer.self_ st)))) as Hl
    by (rewrite Hdata, len_app; lia).
  repeat split; auto; lia.
Qed.

Lemma w_done_le_step src cap total st ev :
  ProducerConsumerWaitNotify.Inv src cap total st ->
  (ProducerConsumerWaitNotify.consumer_thread st = ProducerConsumerWaitNotify.C_done ->
   items_consumed (ProducerConsumerWaitNotify.stats
                     (ProducerConsumerWaitNotify.self_ st)) <= total) ->
  let st' := ProducerConsumerWaitNotify.step total st ev in
  ProducerConsumerWaitNotify.consumer_thread st' = ProducerConsumerWaitNotify.C_done ->
  items_consumed (ProducerConsumerWaitNotify.stats
                    (ProducerConsumerWaitNotify.self_ st')) <= total.
Proof.
  intros H Hd. cbv zeta.
  pose proof (ProducerConsumerWaitNotify.inv_local H) as Hloc.
  unfold ProducerConsumerWaitNotify.step, ProducerConsumerWaitNotify.step_opt.
  destruct st as [self p k]. destruct ev as [[|] now]; simpl in *.
  - destruct (ProducerConsumerWaitNotify.producer_step now p self)
      as [[pc self']|] eqn:E; simpl; auto.
    destruct (w_producer_step_frame _ _ _ E) as (_ & _ & _ & _ & _ & Hc & _).
    rewrite Hc. exact Hd.
  - destruct (ProducerConsumerWaitNotify.consumer_step total now k self)
      as [[pc self']|] eqn:E; simpl; auto.
    intros ->.
    destruct k; simpl in E; break_match_in E; inversion E; subst; simpl in *;
      lia.
Qed.

Lemma w_done_le_exec src cap total sched : forall st,
  ProducerConsumerWaitNotify.Inv src cap total st ->
  (ProducerConsumerWaitNotify.consumer_thread st = ProducerConsumerWaitNotify.C_done ->
   items_consumed (ProducerConsumerWaitNotify.stats
                     (ProducerConsumerWaitNotify.self_ st)) <= total) ->
  let st' := ProducerConsumerWaitNotify.exec total sched st in
  ProducerConsumerWaitNotify.consumer_thread st' = ProducerConsumerWaitNotify.C_done ->
  items_consumed (ProducerConsumerWaitNotify.stats
                    (ProducerConsumerWaitNotify.self_ st')) <= total.
Proof.
  unfold ProducerConsumerWaitNotify.exec.
  induction sched as [|ev sched IH]; intros st H Hd; simpl; auto.
  apply IH; [now apply WaitNotifyTheory.w_inv_step|].
  exact (@w_done_le_step src cap total st ev H Hd).
Qed.

Lemma w_joined_shape src cap total st :
  ProducerConsumerWaitNotify.Inv src cap total st -> 0 <= total ->
  (ProducerConsumerWaitNotify.consumer_thread st = ProducerConsumerWaitNotify.C_done ->
   items_consumed (ProducerConsumerWaitNotify.stats
                     (ProducerConsumerWaitNotify.self_ st)) <= total) ->
  ProducerConsumerWaitNotify.joined st = true ->
  ProducerConsumerWaitNotify.destination_container
    (ProducerConsumerWaitNotify.self_ st) = firstn (Z.to_nat total) (nn src) /\
  ProducerConsumerWaitNotify.shared_queue (ProducerConsumerWaitNotify.self_ st)
    = skipn (Z.to_nat total) (nn src) /\
  len (nn src) <= total + cap /\
  items_produced (ProducerConsumerWaitNotify.stats
                    (ProducerConsumerWaitNotify.self_ st)) = len (nn src) /\
  items_consumed (ProducerConsumerWaitNotify.stats
                    (ProducerConsumerWaitNotify.self_ st))
    = Z.min total (len (nn src)).
Proof.
  intros H Ht Hle Hj.
  pose proof (ProducerConsumerWaitNotify.inv_data H) as Hdata.
  pose proof (ProducerConsumerWaitNotify.inv_room H) as Hroom.
  pose proof (ProducerConsumerWaitNotify.inv_produced H) as Hprod.
  pose proof (ProducerConsumerWaitNotify.inv_consumed H) as Hcons.
  pose proof (ProducerConsumerWaitNotify.inv_local H) as Hloc.
  pose proof (ProducerConsumerWaitNotify.inv_done H) as Hdone.
  pose proof (ProducerConsumerWaitNotify.inv_cap_pos H) as Hpos.
  unfold ProducerConsumerWaitNotify.joined in Hj. apply andb_prop in Hj.
  destruct Hj as [Hp Hk].
  destruct (ProducerConsumerWaitNotify.producer_thread st); try discriminate.
  destruct (ProducerConsumerWaitNotify.consumer_thread st); try discriminate;
    simpl in *; [|lia].
  specialize (Hle eq_refl).
  rewrite firstn_all in *.
  pose proof (len_nonneg
                (ProducerConsumerWaitNotify.shared_queue
                   (ProducerConsumerWaitNotify.self_ st))).
  assert (len (nn src)
          = len (ProducerConsumerWaitNotify.destination_container
                   (ProducerConsumerWaitNotify.self_ st))
            + len (ProducerConsumerWaitNotify.shared_queue
                     (ProducerConsumerWaitNotify.self_ st))) as Hl
    by (rewrite Hdata, len_app; lia).
  destruct Hdone as [Hn | [_ Hq]].
  - assert (len (ProducerConsumerWaitNotify.destination_container
                   (ProducerConsumerWaitNotify.self_ st)) = total) as Hd by lia.
    destruct (split_at_len _ _ Hdata Hd) as [Ha Hb].
    repeat split; auto; lia.
  - rewrite Hq in *. rewrite app_nil_r in Hdata. rewrite len_nil in *.
    rewrite <- Hdata in *.
    destruct (@split_past_len (nn src) total) as [Ha Hb]; [lia|].
    repeat split; auto; lia.
Qed.

(** X21. What the two threads have done when both have returned, for any
    source, capacity, schedule and any target count [total >= 0] given to
    [consumer]: the destination holds the first [total] items of the source
    that are not [None] (all of them if there are fewer), the buffer holds
    the rest, and every item has been produced. So the threads can both
    return only if at most [capacity] items are left over; and in the queue-
    based class only if the source has at least [total] items. *)
Theorem consumer_takes_the_first_total_items
  (src : list item) (cap total : Z)
  (q : ProducerConsumer.t) (w : ProducerConsumerWaitNotify.t)
  (sched_q sched_w : list event) :
  ProducerConsumer.ready src cap q ->
  ProducerConsumerWaitNotify.ready src cap w ->
  0 <= total ->
  let sq := ProducerConsumer.exec total sched_q (ProducerConsumer.spawn q) in
  let sw := ProducerConsumerWaitNotify.exec total sched_w
              (ProducerConsumerWaitNotify.spawn w) in
  (ProducerConsumer.joined sq = true ->
   ProducerConsumer.destination_container (ProducerConsumer.self_ sq)
     = firstn (Z.to_nat total) (nn src) /\
   Queue.queue (ProducerConsumer.shared_queue (ProducerConsumer.self_ sq))
     = skipn (Z.to_nat total) (nn src) /\
   total <= len (nn src) <= total + cap /\
   items_produced (ProducerConsumer.stats (ProducerConsumer.self_ sq))
     = len (nn src) /\
   items_consumed (ProducerConsumer.stats (ProducerConsumer.self_ sq)) = total) /\
  (ProducerConsumerWaitNotify.joined sw = true ->
   ProducerConsumerWaitNotify.destination_container
     (ProducerConsumerWaitNotify.self_ sw) = firstn (Z.to_nat total) (nn src) /\
   ProducerConsumerWaitNotify.shared_queue (ProducerConsumerWaitNotify.self_ sw)
     = skipn (Z.to_nat total) (nn src) /\
   len (nn src) <= total + cap /\
   items_produced (ProducerConsumerWaitNotify.stats
                     (ProducerConsumerWaitNotify.self_ sw)) = len (nn src) /\
   items_consumed (ProducerConsumerWaitNotify.stats
                     (ProducerConsumerWaitNotify.self_ sw))
     = Z.min total (len (nn src))).
Proof.
  intros Hq Hw Ht. cbv zeta. split; intros Hj.
  - exact (q_joined_shape
             (ProducerConsumerTheory.q_inv_exec sched_q
                (ProducerConsumerTheory.q_inv_spawn total Hq)) Ht Hj).
  - pose proof (WaitNotifyTheory.w_inv_spawn total Hw) as H0.
    apply w_joined_shape with (cap := cap); auto.
    + now apply WaitNotifyTheory.w_inv_exec.
    + apply (w_done_le_exec sched_w H0). discriminate.
Qed.

Lemma consumer_takes_the_first_total_items_witness :
  let q := ProducerConsumer.mk (Queue.new 2) [Some 7; None; Some 8; Some 9] [] 2
             Statistics_new false in
  let w := ProducerConsumerWaitNotify.mk [] [Some 7; None; Some 8; Some 9] [] 2
             Condition.new false Statistics_new in
  let sq := ProducerConsumer.exec 2 (alternate 40) (ProducerConsumer.spawn q) in
  let sw := ProducerConsumerWaitNotify.exec 2 (alternate 60)
              (ProducerConsumerWaitNotify.spawn w) in
  ProducerConsumer.joined sq = true /\
  ProducerConsumerWaitNotify.joined sw = true /\
  ProducerConsumer.destination_container (ProducerConsumer.self_ sq)
    = [Some 7; Some 8] /\
  Queue.queue (ProducerConsumer.shared_queue (ProducerConsumer.self_ sq))
    = [Some 9] /\
  ProducerConsumerWaitNotify.destination_container
    (ProducerConsumerWaitNotify.self_ sw) = [Some 7; Some 8] /\
  ProducerConsumerWaitNotify.shared_queue (ProducerConsumerWaitNotify.self_ sw)
    = [Some 9].
Proof.
  cbv zeta.
  assert (ProducerConsumer.ready [Some 7; None; Some 8; Some 9] 2
            (ProducerConsumer.mk (Queue.new 2) [Some 7; None; Some 8; Some 9] [] 2
               Statistics_new false)) as Hq
    by (constructor; simpl; auto; lia).
  assert (ProducerConsumerWaitNotify.ready [Some 7; None; Some 8; Some 9] 2
            (ProducerConsumerWaitNotify.mk [] [Some 7; None; Some 8; Some 9] [] 2
               Condition.new false Statistics_new)) as Hw
    by (constructor; simpl; auto; lia).
  assert (0 <= 2) as Ht by lia.
  destruct (@consumer_takes_the_first_total_items _ _ 2 _ _
              (alternate 40) (alternate 60) Hq Hw Ht) as [Q W].
  assert (ProducerConsumer.joined
            (ProducerConsumer.exec 2 (alternate 40)
               (ProducerConsumer.spawn
                  (ProducerConsumer.mk (Queue.new 2)
                     [Some 7; None; Some 8; Some 9] [] 2 Statistics_new false)))
          = true) as Jq by (vm_compute; reflexivity).
  assert (ProducerConsumerWaitNotify.joined
            (ProducerConsumerWaitNotify.exec 2 (alternate 60)
               (ProducerConsumerWaitNotify.spawn
                  (ProducerConsumerWaitNotify.mk []
                     [Some 7; None; Some 8; Some 9] [] 2 Condition.new false
                     Statistics_new)))
          = true) as Jw by (vm_compute; reflexivity).
  destruct (Q Jq) as (Q1 & Q2 & _). destruct (W Jw) as (W1 & W2 & _).
  repeat split; assumption.
Defined.

(** ** A producer left alone *)

Lemma q_producer_alone_stays total sched : forall st,
  Forall (fun ev : event => fst ev = Producer) sched ->
  (forall now, ProducerConsumer.step_opt total (Producer, now) st = None) ->
  ProducerConsumer.exec total sched st = st.
Proof.
  unfold ProducerConsumer.exec.
  induction sched as [|[who now] sched IH]; intros st Hs Hd; simpl; auto.
  inversion Hs as [|? ? Hw Hs']; subst. simpl in Hw. subst who.
  rewrite (q_step_none _ _ _ (Hd now)). now apply IH.
Qed.

Lemma q_producer_alone src cap total sched : forall st,
  Forall (fun ev : event => fst ev = Producer) sched ->
  ProducerConsumer.Inv src cap total st ->
  let st' := ProducerConsumer.exec total sched st in
  ProducerConsumer.consumer_thread st' = ProducerConsumer.consumer_thread st /\
  ProducerConsumer.destination_container (ProducerConsumer.self_ st')
    = ProducerConsumer.destination_container (ProducerConsumer.self_ st) /\
  ((forall now, ProducerConsumer.step_opt total (Producer, now) st' = None) \/
   (length sched + ProducerConsumer.producer_left src
                     (ProducerConsumer.producer_thread st')
    <= ProducerConsumer.producer_left src (ProducerConsumer.producer_thread st))%nat).
Proof.
  induction sched as [|[who now] sched IH]; intros st Hs H; cbv zeta.
  - simpl. repeat split; auto.
  - inversion Hs as [|? ? Hw Hs']; subst. simpl in Hw. subst who.
    destruct (ProducerConsumer.step_opt total (Producer, now) st) as [st1|] eqn:E.
    + unfold ProducerConsumer.exec. simpl fold_left.
      rewrite (q_step_some _ _ _ E).
      fold (ProducerConsumer.exec total sched st1).
      assert (ProducerConsumer.Inv src cap total st1) as H1.
      { rewrite <- (q_step_some _ _ _ E). now apply ProducerConsumerTheory.q_inv_step. }
      pose proof (ProducerConsumerTheory.q_step_decreases _ H E) as Hd.
      destruct (IH st1 Hs' H1) as (I1 & I2 & I3).
      unfold ProducerConsumer.step_opt in E. simpl in E.
      destruct (ProducerConsumer.producer_step now _ _) as [[pc self']|] eqn:Ep;
        [|discriminate].
      inversion E; subst st1; clear E.
      destruct (q_producer_step_frame _ _ _ Ep) as (_ & _ & _ & _ & Hdd & _).
      unfold ProducerConsumer.statements_left in Hd. simpl in *.
      rewrite I1, I2. repeat split; auto.
      destruct I3 as [I3 | I3]; [left; exact I3 | right; lia].
    + assert (forall t, ProducerConsumer.step_opt total (Producer, t) st = None)
        as Hn by (intros t; exact (@q_enabled_any_clock total Producer now t st E)).
      rewrite (@q_producer_alone_stays total (((Producer, now) : event) :: sched) st Hs Hn).
      repeat split; auto.
Qed.

Lemma q_producer_blocked src cap total st :
  ProducerConsumer.Inv src cap total st ->
  ProducerConsumer.consumer_thread st = ProducerConsumer.C_start ->
  ProducerConsumer.destination_container (ProducerConsumer.self_ st) = [] ->
  (forall now, ProducerConsumer.step_opt total (Producer, now) st = None) ->
  Queue.queue (ProducerConsumer.shared_queue (ProducerConsumer.self_ st))
    = firstn (Z.to_nat cap) (nn src) /\
  items_produced (ProducerConsumer.stats (ProducerConsumer.self_ st))
    = Z.min cap (len (nn src)) /\
  (len (nn src) <= cap ->
   ProducerConsumer.producer_thread st = ProducerConsumer.P_done /\
   ProducerConsumer._producer_finished (ProducerConsumer.self_ st) = true) /\
  (cap < len (nn src) ->
   (exists i x t,
      ProducerConsumer.producer_thread st = ProducerConsumer.P_put i x t) /\
   ProducerConsumer._producer_finished (ProducerConsumer.self_ st) = false).
Proof.
  intros H Hk Hd Hn.
  pose proof (ProducerConsumer.inv_data H) as Hdata.
  pose proof (ProducerConsumer.inv_room H) as Hroom.
  pose proof (ProducerConsumer.inv_maxsize H) as Hms.
  pose proof (ProducerConsumer.inv_cap_pos H) as Hpos.
  pose proof (ProducerConsumer.inv_item H) as Hitem.
  pose proof (ProducerConsumer.inv_produced H) as Hprod.
  pose proof (ProducerConsumer.inv_flag H) as Hflag.
  specialize (Hn 0%float).
  unfold ProducerConsumer.step_opt in Hn. simpl in Hn.
  rewrite Hk, Hd in Hdata. simpl in Hdata.
  destruct st as [self p k]. simpl in *.
  destruct (ProducerConsumer.producer_step 0 p self) as [[pc s']|] eqn:E;
    [discriminate|].
  destruct p; simpl in E; break_match_in E; try discriminate; simpl in *.
  - (* blocked in put *)
    unfold Queue.put in *.
    destruct ((0 <? Queue.maxsize (ProducerConsumer.shared_queue self))
              && (Queue.maxsize (ProducerConsumer.shared_queue self)
                  <=? Queue.qsize (ProducerConsumer.shared_queue self)))
      eqn:Heqb; [|discriminate].
    apply andb_prop in Heqb. destruct Heqb as [_ Hfull].
    apply Z.leb_le in Hfull. unfold Queue.qsize in Hfull.
    assert (len (Queue.queue (ProducerConsumer.shared_queue self)) = cap)
      as Hlen by lia.
    pose proof (nn_firstn_lt _ _ Hitem) as Hlt.
    rewrite Hdata, Hlen in Hlt.
    destruct (nn_prefix src i) as [later Hl]. rewrite Hdata in Hl.
    destruct (split_at_len _ _ Hl Hlen) as [Ha _].
    rewrite Hprod, Hdata, Hlen.
    repeat split; auto; try lia. eauto.
  - (* returned *)
    rewrite firstn_all in *. rewrite <- Hdata in *.
    destruct (@split_past_len (nn src) cap) as [Ha _]; [lia|].
    repeat split; auto; try lia.
Qed.

Lemma w_producer_alone_stays total sched : forall st,
  Forall (fun ev : event => fst ev = Producer) sched ->
  (forall now, ProducerConsumerWaitNotify.step_opt total (Producer, now) st = None) ->
  ProducerConsumerWaitNotify.exec total sched st = st.
Proof.
  unfold ProducerConsumerWaitNotify.exec.
  induction sched as [|[who now] sched IH]; intros st Hs Hd; simpl; auto.
  inversion Hs as [|? ? Hw Hs']; subst. simpl in Hw. subst who.
  rewrite (w_step_none _ _ _ (Hd now)). now apply IH.
Qed.

Lemma w_producer_alone src cap total sched : forall st,
  Forall (fun ev : event => fst ev = Producer) sched ->
  ProducerConsumerWaitNotify.Inv src cap total st ->
  ProducerConsumerWaitNotify.consumer_thread st = ProducerConsumerWaitNotify.C_start ->
  let st' := ProducerConsumerWaitNotify.exec total sched st in
  let left_ s :=
    (3 * ProducerConsumerWaitNotify.producer_left src
           (ProducerConsumerWaitNotify.producer_thread s)
     + ProducerConsumerWaitNotify.producer_wait
         (ProducerConsumerWaitNotify.producer_thread s)
         (Condition.waiters
            (ProducerConsumerWaitNotify.condition
               (ProducerConsumerWaitNotify.self_ s))))%nat in
  ProducerConsumerWaitNotify.consumer_thread st' = ProducerConsumerWaitNotify.C_start /\
  ProducerConsumerWaitNotify.destination_container
    (ProducerConsumerWaitNotify.self_ st')
    = ProducerConsumerWaitNotify.destination_container
        (ProducerConsumerWaitNotify.self_ st) /\
  ((forall now,
      ProducerConsumerWaitNotify.step_opt total (Producer, now) st' = None) \/
   (length sched + left_ st' <= left_ st)%nat).
Proof.
  induction sched as [|[who now] sched IH]; intros st Hs H Hk; cbv zeta.
  - simpl. repeat split; auto.
  - inversion Hs as [|? ? Hw Hs']; subst. simpl in Hw. subst who.
    destruct (ProducerConsumerWaitNotify.step_opt total (Producer, now) st)
      as [st1|] eqn:E.
    + unfold ProducerConsumerWaitNotify.exec. simpl fold_left.
      rewrite (w_step_some _ _ _ E).
      fold (ProducerConsumerWaitNotify.exec total sched st1).
      assert (ProducerConsumerWaitNotify.Inv src cap total st1) as H1.
      { rewrite <- (w_step_some _ _ _ E). now apply WaitNotifyTheory.w_inv_step. }
      pose proof (WaitNotifyTheory.w_step_decreases _ H E) as Hd.
      unfold ProducerConsumerWaitNotify.step_opt in E. simpl in E.
      destruct (ProducerConsumerWaitNotify.producer_step now _ _)
        as [[pc self']|] eqn:Ep; [|discriminate].
      inversion E; subst st1; clear E.
      destruct (IH _ Hs' H1 Hk) as (I1 & I2 & I3).
      destruct (w_producer_step_frame _ _ _ Ep) as (_ & _ & _ & _ & Hdd & _).
      unfold ProducerConsumerWaitNotify.statements_left in Hd. simpl in *.
      rewrite Hk in Hd. simpl in Hd.
      rewrite I1, I2. repeat split; auto.
      destruct I3 as [I3 | I3]; [left; exact I3 | right; lia].
    + assert (forall t,
                ProducerConsumerWaitNotify.step_opt total (Producer, t) st = None)
        as Hn by (intros t; exact (@w_enabled_any_clock total Producer now t st E)).
      rewrite (@w_producer_alone_stays total (((Producer, now) : event) :: sched)
                 st Hs Hn).
      repeat split; auto.
Qed.

Lemma w_producer_blocked src cap total st :
  ProducerConsumerWaitNotify.Inv src cap total st ->
  ProducerConsumerWaitNotify.consumer_thread st = ProducerConsumerWaitNotify.C_start ->
  ProducerConsumerWaitNotify.destination_container
    (ProducerConsumerWaitNotify.self_ st) = [] ->
  (forall now, ProducerConsumerWaitNotify.step_opt total (Producer, now) st = None) ->
  ProducerConsumerWaitNotify.shared_queue (ProducerConsumerWaitNotify.self_ st)
    = firstn (Z.to_nat cap) (nn src) /\
  items_produced (ProducerConsumerWaitNotify.stats (ProducerConsumerWaitNotify.self_ st))
    = Z.min cap (len (nn src)) /\
  Condition.owner (ProducerConsumerWaitNotify.condition
                     (ProducerConsumerWaitNotify.self_ st)) = None /\
  (len (nn src) <= cap ->
   ProducerConsumerWaitNotify.producer_thread st = ProducerConsumerWaitNotify.P_done /\
   ProducerConsumerWaitNotify.producer_finished (ProducerConsumerWaitNotify.self_ st)
     = true /\
   Condition.waiters (ProducerConsumerWaitNotify.condition
                        (ProducerConsumerWaitNotify.self_ st)) = []) /\
  (cap < len (nn src) ->
   (exists i x t,
      ProducerConsumerWaitNotify.producer_thread st
        = ProducerConsumerWaitNotify.P_waiting i x t) /\
   ProducerConsumerWaitNotify.producer_finished (ProducerConsumerWaitNotify.self_ st)
     = false /\
   Condition.waiters (ProducerConsumerWaitNotify.condition
                        (ProducerConsumerWaitNotify.self_ st)) = [Producer]).
Proof.
  intros H Hk Hd Hn.
  pose proof (ProducerConsumerWaitNotify.inv_data H) as Hdata.
  pose proof (ProducerConsumerWaitNotify.inv_room H) as Hroom.
  pose proof (ProducerConsumerWaitNotify.inv_cap_pos H) as Hpos.
  pose proof (ProducerConsumerWaitNotify.inv_item H) as Hitem.
  pose proof (ProducerConsumerWaitNotify.inv_produced H) as Hprod.
  pose proof (ProducerConsumerWaitNotify.inv_flag H) as Hflag.
  pose proof (ProducerConsumerWaitNotify.inv_owner H) as Hown.
  pose proof (ProducerConsumerWaitNotify.inv_waiters H) as Hws.
  specialize (Hn 0%float).
  unfold ProducerConsumerWaitNotify.step_opt in Hn. simpl in Hn.
  rewrite Hk, Hd in Hdata. simpl in Hdata.
  rewrite Hk in Hown, Hws.
  destruct st as [[q s d c [ow ws] fin stt] p k]. simpl in *.
  destruct (ProducerConsumerWaitNotify.producer_step 0 p _) as [[pc s']|] eqn:E;
    [discriminate|].
  unfold ProducerConsumerWaitNotify.owner_of in Hown.
  destruct p; simpl in E, Hown; subst ow;
    unfold Condition.wait_resume, Condition.acquire in E; simpl in E;
    break_match_in E; try discriminate; simpl in *.
  - (* parked in wait() *)
    unfold Condition.is_waiting in *. simpl in *.
    destruct ws as [|[|] [|? ?]]; simpl in *; try discriminate;
      try tauto; try (destruct Hws; discriminate).
    destruct Hws as [_ Hfull]. specialize (Hfull eq_refl).
    pose proof (nn_firstn_lt _ _ Hitem) as Hlt.
    rewrite Hdata, Hfull in Hlt.
    destruct (nn_prefix src i) as [later Hl]. rewrite Hdata in Hl.
    destruct (split_at_len _ _ Hl Hfull) as [Ha _].
    rewrite Hprod, Hdata, Hfull.
    repeat split; auto; try lia. eauto.
  - (* returned *)
    rewrite firstn_all in *. rewrite <- Hdata in *.
    destruct (@split_past_len (nn src) cap) as [Ha _]; [lia|].
    assert (ws = []) as ->.
    { destruct ws as [|[|] [|? ?]]; simpl in *; auto; try tauto;
        destruct Hws; discriminate. }
    repeat split; auto; try lia.
Qed.

(** X22.  Back-pressure.  When only the producer is given turns (the consumer
    thread has been created but has not run yet), then for any source and
    capacity, after [7 * len(source) + 3] turns in the queue-based class and
    [30 * len(source) + 18] in the wait/notify class, the buffer holds the
    first [capacity] items of the source that are not [None], in order,
    exactly that many have been counted as produced, and the destination is
    still empty.  If they all fit, the producer has returned with the
    finished flag set; otherwise it is blocked, in [put()] in the queue-based
    class, and parked in [wait()] with the lock released in the wait/notify
    class, the flag unset, and no further turn lets it move. *)
Theorem producer_alone_fills_the_buffer
  (src : list item) (cap total : Z)
  (q : ProducerConsumer.t) (w : ProducerConsumerWaitNotify.t)
  (sched_q sched_w : list event) :
  ProducerConsumer.ready src cap q ->
  ProducerConsumerWaitNotify.ready src cap w ->
  Forall (fun ev : event => fst ev = Producer) sched_q ->
  Forall (fun ev : event => fst ev = Producer) sched_w ->
  (7 * length src + 3 <= length sched_q)%nat ->
  (30 * length src + 18 <= length sched_w)%nat ->
  let sq := ProducerConsumer.exec total sched_q (ProducerConsumer.spawn q) in
  let sw := ProducerConsumerWaitNotify.exec total sched_w
              (ProducerConsumerWaitNotify.spawn w) in
  (Queue.queue (ProducerConsumer.shared_queue (ProducerConsumer.self_ sq))
     = firstn (Z.to_nat cap) (nn src) /\
   items_produced (ProducerConsumer.stats (ProducerConsumer.self_ sq))
     = Z.min cap (len (nn src)) /\
   ProducerConsumer.destination_container (ProducerConsumer.self_ sq) = [] /\
   (forall now, ProducerConsumer.step_opt total (Producer, now) sq = None) /\
   (len (nn src) <= cap ->
    ProducerConsumer.producer_thread sq = ProducerConsumer.P_done /\
    ProducerConsumer._producer_finished (ProducerConsumer.self_ sq) = true) /\
   (cap < len (nn src) ->
    (exists i x t,
       ProducerConsumer.producer_thread sq = ProducerConsumer.P_put i x t) /\
    ProducerConsumer._producer_finished (ProducerConsumer.self_ sq) = false)) /\
  (ProducerConsumerWaitNotify.shared_queue (ProducerConsumerWaitNotify.self_ sw)
     = firstn (Z.to_nat cap) (nn src) /\
   items_produced (ProducerConsumerWaitNotify.stats
                     (ProducerConsumerWaitNotify.self_ sw))
     = Z.min cap (len (nn src)) /\
   ProducerConsumerWaitNotify.destination_container
     (ProducerConsumerWaitNotify.self_ sw) = [] /\
   (forall now,
      ProducerConsumerWaitNotify.step_opt total (Producer, now) sw = None) /\
   Condition.owner (ProducerConsumerWaitNotify.condition
                      (ProducerConsumerWaitNotify.self_ sw)) = None /\
   (len (nn src) <= cap ->
    ProducerConsumerWaitNotify.producer_thread sw = ProducerConsumerWaitNotify.P_done /\
    ProducerConsumerWaitNotify.producer_finished (ProducerConsumerWaitNotify.self_ sw)
      = true /\
    Condition.waiters (ProducerConsumerWaitNotify.condition
                         (ProducerConsumerWaitNotify.self_ sw)) = []) /\
   (cap < len (nn src) ->
    (exists i x t,
       ProducerConsumerWaitNotify.producer_thread sw
         = ProducerConsumerWaitNotify.P_waiting i x t) /\
    ProducerConsumerWaitNotify.producer_finished (ProducerConsumerWaitNotify.self_ sw)
      = false /\
    Condition.waiters (ProducerConsumerWaitNotify.condition
                         (ProducerConsumerWaitNotify.self_ sw)) = [Producer])).
Proof.
  intros Hq Hw Fq Fw Lq Lw. cbv zeta. split.
  - pose proof (ProducerConsumerTheory.q_inv_spawn total Hq) as H0.
    destruct (q_producer_alone Fq H0) as (Hk & Hd & Hs).
    simpl in Hk, Hd, Hs. rewrite (ProducerConsumer.ready_dest Hq) in Hd.
    assert (forall now,
              ProducerConsumer.step_opt total (Producer, now)
                (ProducerConsumer.exec total sched_q (ProducerConsumer.spawn q))
              = None) as Hn.
    { destruct Hs as [Hs | Hs]; [exact Hs|]. intros now.
      unfold ProducerConsumer.step_opt. simpl.
      destruct (ProducerConsumer.producer_thread _); simpl in *; try lia.
      reflexivity. }
    destruct (q_producer_blocked
                (ProducerConsumerTheory.q_inv_exec sched_q H0) Hk Hd Hn)
      as (B1 & B2 & B3 & B4).
    repeat split; auto; try (now apply B3); try (now apply B4).
  - pose proof (WaitNotifyTheory.w_inv_spawn total Hw) as H0.
    destruct (w_producer_alone Fw H0 eq_refl) as (Hk & Hd & Hs).
    simpl in Hk, Hd, Hs.
    rewrite (ProducerConsumerWaitNotify.ready_dest Hw) in Hd.
    assert (forall now,
              ProducerConsumerWaitNotify.step_opt total (Producer, now)
                (ProducerConsumerWaitNotify.exec total sched_w
                   (ProducerConsumerWaitNotify.spawn w))
              = None) as Hn.
    { destruct Hs as [Hs | Hs]; [exact Hs|]. intros now.
      unfold ProducerConsumerWaitNotify.step_opt. simpl.
      destruct (ProducerConsumerWaitNotify.producer_thread _); simpl in *;
        try lia.
      reflexivity. }
    destruct (w_producer_blocked
                (WaitNotifyTheory.w_inv_exec sched_w H0) Hk Hd Hn)
      as (B1 & B2 & B3 & B4 & B5).
    repeat split; auto; try (now apply B4); try (now apply B5).
Qed.

Lemma producer_alone_fills_the_buffer_witness :
  let q := ProducerConsumer.mk (Queue.new 2) [Some 7; None; Some 8; Some 9] [] 2
             Statistics_new false in
  let w := ProducerConsumerWaitNotify.mk [] [Some 7; None; Some 8; Some 9] [] 2
             Condition.new false Statistics_new in
  let sq := ProducerConsumer.exec 3 (turns Producer 31) (ProducerConsumer.spawn q) in
  let sw := ProducerConsumerWaitNotify.exec 3 (turns Producer 138)
              (ProducerConsumerWaitNotify.spawn w) in
  Queue.queue (ProducerConsumer.shared_queue (ProducerConsumer.self_ sq))
    = [Some 7; Some 8] /\
  items_produced (ProducerConsumer.stats (ProducerConsumer.self_ sq)) = 2 /\
  ProducerConsumer._producer_finished (ProducerConsumer.self_ sq) = false /\
  ProducerConsumerWaitNotify.shared_queue (ProducerConsumerWaitNotify.self_ sw)
    = [Some 7; Some 8] /\
  items_produced (ProducerConsumerWaitNotify.stats
                    (ProducerConsumerWaitNotify.self_ sw)) = 2 /\
  Condition.waiters (ProducerConsumerWaitNotify.condition
                       (ProducerConsumerWaitNotify.self_ sw)) = [Producer].
Proof.
  cbv zeta.
  assert (ProducerConsumer.ready [Some 7; None; Some 8; Some 9] 2
            (ProducerConsumer.mk (Queue.new 2) [Some 7; None; Some 8; Some 9] [] 2
               Statistics_new false)) as Hq
    by (constructor; simpl; auto; lia).
  assert (ProducerConsumerWaitNotify.ready [Some 7; None; Some 8; Some 9] 2
            (ProducerConsumerWaitNotify.mk [] [Some 7; None; Some 8; Some 9] [] 2
               Condition.new false Statistics_new)) as Hw
    by (constructor; simpl; auto; lia).
  assert (forall n, Forall (fun ev : event => fst ev = Producer) (turns Producer n))
    as Hf.
  { intros n. apply Forall_forall. intros ev Hin.
    apply repeat_spec in Hin. now subst ev. }
  destruct (@producer_alone_fills_the_buffer _ _ 3 _ _
              (turns Producer 31) (turns Producer 138) Hq Hw (Hf _) (Hf _))
    as [(Q1 & Q2 & _ & _ & _ & Q6) (W1 & W2 & _ & _ & _ & _ & W7)].
  - vm_compute. lia.
  - vm_compute. lia.
  - assert (2 < len (nn [Some 7; None; Some 8; Some 9])) as Hlt
      by (vm_compute; reflexivity).
    destruct (Q6 Hlt) as [_ Q7]. destruct (W7 Hlt) as (_ & _ & W8).
    repeat split; assumption.
Defined.

(** ** A consumer left alone *)

Lemma q_consumer_alone_stays total sched : forall st,
  Forall (fun ev : event => fst ev = Consumer) sched ->
  (forall now, ProducerConsumer.step_opt total (Consumer, now) st = None) ->
  ProducerConsumer.exec total sched st = st.
Proof.
  unfold ProducerConsumer.exec.
  induction sched as [|[who now] sched IH]; intros st Hs Hd; simpl; auto.
  inversion Hs as [|? ? Hw Hs']; subst. simpl in Hw. subst who.
  rewrite (q_step_none _ _ _ (Hd now)). now apply IH.
Qed.

Lemma w_consumer_alone_stays total sched : forall st,
  Forall (fun ev : event => fst ev = Consumer) sched ->
  (forall now, ProducerConsumerWaitNotify.step_opt total (Consumer, now) st = None) ->
  ProducerConsumerWaitNotify.exec total sched st = st.
Proof.
  unfold ProducerConsumerWaitNotify.exec.
  induction sched as [|[who now] sched IH]; intros st Hs Hd; simpl; auto.
  inversion Hs as [|? ? Hw Hs']; subst. simpl in Hw. subst who.
  rewrite (w_step_none _ _ _ (Hd now)). now apply IH.
Qed.

(** X23.  A consumer that runs before anything has been produced.  When only the
    consumer is given turns, with a positive target count, then after its
    first statements it waits and no further turn lets it move: in the
    queue-based class it is blocked in [get()] and the instance is exactly
    as it was; in the wait/notify class it is parked in [wait()], and the
    only change to the instance is the condition, whose lock is free again
    and whose only waiter is the consumer. *)
Theorem consumer_alone_waits
  (src : list item) (cap total : Z)
  (q : ProducerConsumer.t) (w : ProducerConsumerWaitNotify.t)
  (sched : list event) :
  ProducerConsumer.ready src cap q ->
  ProducerConsumerWaitNotify.ready src cap w ->
  0 < total ->
  Forall (fun ev : event => fst ev = Consumer) sched ->
  (4 <= length sched)%nat ->
  exists t t',
    ProducerConsumer.exec total sched (ProducerConsumer.spawn q)
      = ProducerConsumer.mk_system q ProducerConsumer.P_start
          (ProducerConsumer.C_get 0 t) /\
    ProducerConsumerWaitNotify.exec total sched (ProducerConsumerWaitNotify.spawn w)
      = ProducerConsumerWaitNotify.mk_system
          (ProducerConsumerWaitNotify.with_condition
             (Condition.mk None [Consumer]) w)
          ProducerConsumerWaitNotify.P_start
          (ProducerConsumerWaitNotify.C_waiting 0 t').
Proof.
  intros Hq Hw Ht Hs Hl.
  destruct sched as [|[w1 t1] [|[w2 t2] [|[w3 t3] [|[w4 t4] rest]]]];
    simpl in Hl; try lia.
  inversion Hs as [|? ? E1 Hs1]; subst. inversion Hs1 as [|? ? E2 Hs2]; subst.
  inversion Hs2 as [|? ? E3 Hs3]; subst. inversion Hs3 as [|? ? E4 Hs4]; subst.
  simpl in E1, E2, E3, E4. subst w1 w2 w3 w4.
  exists t2, t3. split.
  - pose proof (ProducerConsumer.ready_queue Hq) as Hqu.
    destruct q as [[ms qu unf] s d c stt fin]. simpl in Hqu. subst qu.
    set (self := ProducerConsumer.mk (Queue.mk ms [] unf) s d c stt fin).
    assert (ProducerConsumer.step total (ProducerConsumer.spawn self) (Consumer, t1)
            = ProducerConsumer.mk_system self ProducerConsumer.P_start
                (ProducerConsumer.C_while 0)) as S1.
    { unfold ProducerConsumer.step, ProducerConsumer.step_opt. simpl.
      destruct (Z.ltb_spec total 0); [lia|].
      destruct (Z.eqb_spec total 0); [lia|]. reflexivity. }
    assert (ProducerConsumer.step total
              (ProducerConsumer.mk_system self ProducerConsumer.P_start
                 (ProducerConsumer.C_while 0)) (Consumer, t2)
            = ProducerConsumer.mk_system self ProducerConsumer.P_start
                (ProducerConsumer.C_get 0 t2)) as S2.
    { unfold ProducerConsumer.step, ProducerConsumer.step_opt. simpl.
      destruct (Z.ltb_spec 0 total); [|lia]. reflexivity. }
    unfold ProducerConsumer.exec. simpl fold_left. rewrite S1, S2.
    apply (@q_consumer_alone_stays total
             (((Consumer, t3) : event) :: (Consumer, t4) :: rest) _ Hs2).
    intros now. reflexivity.
  - pose proof (ProducerConsumerWaitNotify.ready_queue Hw) as Hqu.
    pose proof (ProducerConsumerWaitNotify.ready_condition Hw) as Hco.
    pose proof (ProducerConsumerWaitNotify.ready_flag Hw) as Hfl.
    destruct w as [qu s d c co fin stt]. simpl in Hqu, Hco, Hfl. subst qu co fin.
    set (self := ProducerConsumerWaitNotify.mk [] s d c Condition.new false stt).
    assert (ProducerConsumerWaitNotify.step total
              (ProducerConsumerWaitNotify.spawn self) (Consumer, t1)
            = ProducerConsumerWaitNotify.mk_system self
                ProducerConsumerWaitNotify.P_start
                (ProducerConsumerWaitNotify.C_while 0)) as S1.
    { unfold ProducerConsumerWaitNotify.step, ProducerConsumerWaitNotify.step_opt.
      simpl.
      destruct (Z.ltb_spec total 0); [lia|].
      destruct (Z.eqb_spec total 0); [lia|]. reflexivity. }
    assert (ProducerConsumerWaitNotify.step total
              (ProducerConsumerWaitNotify.mk_system self
                 ProducerConsumerWaitNotify.P_start
                 (ProducerConsumerWaitNotify.C_while 0)) (Consumer, t2)
            = ProducerConsumerWaitNotify.mk_system self
                ProducerConsumerWaitNotify.P_start
                (ProducerConsumerWaitNotify.C_acquire 0)) as S2.
    { unfold ProducerConsumerWaitNotify.step, ProducerConsumerWaitNotify.step_opt.
      simpl.
      destruct (Z.ltb_spec 0 total); [|lia]. reflexivity. }
    unfold ProducerConsumerWaitNotify.exec. simpl fold_left. rewrite S1, S2.
    apply (@w_consumer_alone_stays total rest _ Hs4).
    intros now. reflexivity.
Qed.

Lemma consumer_alone_waits_witness :
  ProducerConsumer.exec 2 (turns Consumer 9)
    (ProducerConsumer.spawn
       (ProducerConsumer.mk (Queue.new 2) [Some 7; Some 8] [] 2
          Statistics_new false))
  = ProducerConsumer.mk_system
      (ProducerConsumer.mk (Queue.new 2) [Some 7; Some 8] [] 2
         Statistics_new false)
      ProducerConsumer.P_start (ProducerConsumer.C_get 0 0%float) /\
  Condition.waiters
    (ProducerConsumerWaitNotify.condition
       (ProducerConsumerWaitNotify.self_
          (ProducerConsumerWaitNotify.exec 2 (turns Consumer 9)
             (ProducerConsumerWaitNotify.spawn
                (ProducerConsumerWaitNotify.mk [] [Some 7; Some 8] [] 2
                   Condition.new false Statistics_new)))))
  = [Consumer].
Proof.
  assert (ProducerConsumer.ready [Some 7; Some 8] 2
            (ProducerConsumer.mk (Queue.new 2) [Some 7; Some 8] [] 2
               Statistics_new false)) as Hq
    by (constructor; simpl; auto; lia).
  assert (ProducerConsumerWaitNotify.ready [Some 7; Some 8] 2
            (ProducerConsumerWaitNotify.mk [] [Some 7; Some 8] [] 2
               Condition.new false Statistics_new)) as Hw
    by (constructor; simpl; auto; lia).
  assert (0 < 2) as Ht by lia.
  assert (Forall (fun ev : event => fst ev = Consumer) (turns Consumer 9)) as Hf
    by (repeat constructor).
  assert (4 <= length (turns Consumer 9))%nat as Hl by (vm_compute; lia).
  destruct (@consumer_alone_waits _ _ 2 _ _ (turns Consumer 9) Hq Hw Ht Hf Hl)
    as (t & t' & Eq & Ew).
  split.
  - vm_compute. reflexivity.
  - rewrite Ew. reflexivity.
Defined.

(** ** From the constructor to the result *)

Lemma q_round_robin_returns n t0 t1 rounds self :
  ProducerConsumer.idle self -> 0 < ProducerConsumer.capacity self -> 0 <= n ->
  (14 * Z.to_nat n + 5 <= rounds)%nat ->
  exists self',
    ProducerConsumer.run n t0 t1 (alternate rounds) self
      = ProducerConsumer.Returned self' [].
Proof.
  intros Hi Hc Hn Hk.
  destruct (ProducerConsumer.run_begin n t0 self) as [e|self1] eqn:E.
  { unfold ProducerConsumer.run_begin, ProducerConsumer.initialize_source in E.
    destruct (Z.ltb_spec n 0); [lia | discriminate]. }
  destruct (@ProducerConsumerTheory.q_run_inv n t0 [] self self1 Hi Hc E) as [_ H].
  simpl in H.
  assert (n = len (nn (range1 n))) as Ht by (rewrite nn_range1, len_range1; auto).
  assert (ProducerConsumer.joined
            (ProducerConsumer.exec n (alternate rounds)
               (ProducerConsumer.spawn self1)) = true) as Hj.
  { apply (q_alternate_completes H Ht).
    unfold ProducerConsumer.statements_left. simpl.
    rewrite length_range1. lia. }
  destruct (ProducerConsumer.run n t0 t1 (alternate rounds) self)
    as [e s|s fs|st] eqn:R;
    unfold ProducerConsumer.run in R; rewrite E, Hj in R; try discriminate.
  assert (ProducerConsumer.run n t0 t1 (alternate rounds) self
          = ProducerConsumer.Returned s fs) as R'
    by (unfold ProducerConsumer.run; rewrite E, Hj; exact R).
  destruct (ProducerConsumerTheory.q_run_returned _ _ _ _ Hi Hc R') as (-> & _).
  exists s. reflexivity.
Qed.

Lemma w_round_robin_returns n t0 t1 rounds self :
  ProducerConsumerWaitNotify.idle self ->
  0 < ProducerConsumerWaitNotify.capacity self -> 0 <= n ->
  (66 * Z.to_nat n + 24 <= rounds)%nat ->
  exists self',
    ProducerConsumerWaitNotify.run n t0 t1 (alternate rounds) self
      = ProducerConsumerWaitNotify.Returned self' [].
Proof.
  intros Hi Hc Hn Hk.
  destruct (ProducerConsumerWaitNotify.run_begin n t0 self) as [e|self1] eqn:E.
  { unfold ProducerConsumerWaitNotify.run_begin,
      ProducerConsumerWaitNotify.initialize_source in E.
    destruct (Z.ltb_spec n 0); [lia | discriminate]. }
  destruct (@WaitNotifyTheory.w_run_inv n t0 [] self self1 Hi Hc E) as [_ H].
  simpl in H.
  assert (len (nn (range1 n)) <= n) as Ht by (rewrite nn_range1, len_range1; lia).
  assert (ProducerConsumerWaitNotify.joined
            (ProducerConsumerWaitNotify.exec n (alternate rounds)
               (ProducerConsumerWaitNotify.spawn self1)) = true) as Hj.
  { apply (w_alternate_completes H Ht).
    unfold ProducerConsumerWaitNotify.statements_left. simpl.
    rewrite length_range1. lia. }
  destruct (ProducerConsumerWaitNotify.run n t0 t1 (alternate rounds) self)
    as [e s|s fs|st] eqn:R;
    unfold ProducerConsumerWaitNotify.run in R; rewrite E, Hj in R;
    try discriminate.
  assert (ProducerConsumerWaitNotify.run n t0 t1 (alternate rounds) self
          = ProducerConsumerWaitNotify.Returned s fs) as R'
    by (unfold ProducerConsumerWaitNotify.run; rewrite E, Hj; exact R).
  destruct (WaitNotifyTheory.w_run_returned _ _ _ _ Hi Hc R') as (-> & _).
  exists s. reflexivity.
Qed.

(** X24.  Constructor, then [run], then the getters.  For every positive
    capacity and every count that is not negative, the constructor of
    either class succeeds, [run] on the new instance returns (here with the
    two threads taking turns) with no role failure, and afterwards both
    getters give 1..item_count, the capacity is the one passed to the
    constructor, and both counters equal the count. *)
Theorem fresh_instance_runs_to_completion
  (capacity item_count : Z) (t_start t_end : float) (rounds : nat) :
  0 < capacity -> 0 <= item_count ->
  (66 * Z.to_nat item_count + 24 <= rounds)%nat ->
  (exists q q',
     ProducerConsumer.__init__ capacity = inr q /\
     ProducerConsumer.run item_count t_start t_end (alternate rounds) q
       = ProducerConsumer.Returned q' [] /\
     fst (ProducerConsumer.get_source_container q') = range1 item_count /\
     fst (ProducerConsumer.get_destination_container q') = range1 item_count /\
     ProducerConsumer.capacity q' = capacity /\
     items_produced (ProducerConsumer.stats q') = item_count /\
     items_consumed (ProducerConsumer.stats q') = item_count) /\
  (exists w w',
     ProducerConsumerWaitNotify.__init__ capacity = inr w /\
     ProducerConsumerWaitNotify.run item_count t_start t_end (alternate rounds) w
       = ProducerConsumerWaitNotify.Returned w' [] /\
     fst (ProducerConsumerWaitNotify.get_source_container w') = range1 item_count /\
     fst (ProducerConsumerWaitNotify.get_destination_container w')
       = range1 item_count /\
     ProducerConsumerWaitNotify.capacity w' = capacity /\
     items_produced (ProducerConsumerWaitNotify.stats w') = item_count /\
     items_consumed (ProducerConsumerWaitNotify.stats w') = item_count).
Proof.
  intros Hc Hn Hk. split.
  - destruct (ProducerConsumer.__init__ capacity) as [e|q] eqn:E.
    { unfold ProducerConsumer.__init__ in E.
      destruct (Z.leb_spec capacity 0); [lia | discriminate]. }
    destruct (ProducerConsumerTheory.q_init_idle _ E) as (Hi & Hcap & _).
    assert (0 < ProducerConsumer.capacity q) as Hc' by lia.
    destruct (@q_round_robin_returns item_count t_start t_end rounds q Hi Hc' Hn)
      as [q' R]; [lia|].
    destruct (ProducerConsumerTheory.q_run_returned _ _ _ _ Hi Hc' R)
      as (_ & Hs & Hd & Hp & Hk' & _ & Hcq & _).
    exists q, q'. simpl. repeat split; auto. congruence.
  - destruct (ProducerConsumerWaitNotify.__init__ capacity) as [e|w] eqn:E.
    { unfold ProducerConsumerWaitNotify.__init__ in E.
      destruct (Z.leb_spec capacity 0); [lia | discriminate]. }
    destruct (WaitNotifyTheory.w_init_idle _ E) as (Hi & Hcap & _).
    assert (0 < ProducerConsumerWaitNotify.capacity w) as Hc' by lia.
    destruct (@w_round_robin_returns item_count t_start t_end rounds w Hi Hc' Hn Hk)
      as [w' R].
    destruct (WaitNotifyTheory.w_run_returned _ _ _ _ Hi Hc' R)
      as (_ & Hs & Hd & Hp & Hk' & _ & Hcq & _).
    exists w, w'. simpl. repeat split; auto. congruence.
Qed.

Lemma fresh_instance_runs_to_completion_witness :
  (exists q q',
     ProducerConsumer.__init__ 5 = inr q /\
     ProducerConsumer.run 2 0%float 9%float (alternate 156) q
       = ProducerConsumer.Returned q' [] /\
     fst (ProducerConsumer.get_source_container q') = [Some 1; Some 2] /\
     fst (ProducerConsumer.get_destination_container q') = [Some 1; Some 2] /\
     ProducerConsumer.capacity q' = 5 /\
     items_produced (ProducerConsumer.stats q') = 2 /\
     items_consumed (ProducerConsumer.stats q') = 2) /\
  (exists w w',
     ProducerConsumerWaitNotify.__init__ 5 = inr w /\
     ProducerConsumerWaitNotify.run 2 0%float 9%float (alternate 156) w
       = ProducerConsumerWaitNotify.Returned w' [] /\
     fst (ProducerConsumerWaitNotify.get_source_container w') = [Some 1; Some 2] /\
     fst (ProducerConsumerWaitNotify.get_destination_container w')
       = [Some 1; Some 2] /\
     ProducerConsumerWaitNotify.capacity w' = 5 /\
     items_produced (ProducerConsumerWaitNotify.stats w') = 2 /\
     items_consumed (ProducerConsumerWaitNotify.stats w') = 2).
Proof.
  apply (@fresh_instance_runs_to_completion 5 2 0%float 9%float 156).
  - lia.
  - lia.
  - vm_compute. lia.
Defined.
